(** * VBM visualizer: the query matcher and the result presenter of assets/app.js

    A shallow embedding of the client-side code of the visualizer:
    [findBestMatchKeyword] (keyword rules and additive scoring),
    [handleQuery] (rate limit and threshold branch), [findAnalysis] and
    [getBaseline], [formatCell] and [getSignificanceStars], the prompt of
    [generateNoMatchResponse] and the rows drawn by [renderCoefPlot].

    Conventions.
    - A JavaScript string is a [string]: a sequence of 8-bit code units read as
      Latin-1 (code units 0..255).  [toLowerCase], [trim], the classes [\s],
      [\b] and [.] and the case folding of the [i] flag are the restrictions of
      the ECMAScript definitions to that range; texts with code units above
      U+00FF are outside the model.
    - A JavaScript number is a binary64 [float]; scores are integers ([Z]) and
      are converted where the source divides them.
    - [null] and [undefined] are [None].
    - A record of the corpus is an [analysis] when its statistics are
      numbers; [Raw.analysis] also covers records whose statistics are
      [null], and the functions over it complete normally or with a
      [TypeError]. *)

From Stdlib Require Import ZArith NArith List String Ascii Bool Lia.
From Stdlib Require Import Floats DecimalString DecimalN.
Import ListNotations.

Set Warnings "-inexact-float".

Local Open Scope string_scope.
Local Open Scope Z_scope.

(** ** String primitives *)

Module JSString.

Definition code (c : ascii) : N := N_of_ascii c.

(** [String.prototype.toLowerCase] on one Latin-1 code unit: [A-Z] and the
    accented capitals U+00C0..U+00DE (all but the multiplication sign
    U+00D7) move up by 32. *)
Definition lower_char (c : ascii) : ascii :=
  let n := code c in
  if ((65 <=? n) && (n <=? 90))%N then ascii_of_N (n + 32)
  else if ((192 <=? n) && (n <=? 222) && negb (n =? 215))%N
       then ascii_of_N (n + 32)
  else c.

Fixpoint toLowerCase (s : string) : string :=
  match s with
  | EmptyString => EmptyString
  | String c s' => String (lower_char c) (toLowerCase s')
  end.

(** White space and line terminators below U+0100: TAB, LF, VT, FF, CR,
    SPACE and NO-BREAK SPACE. *)
Definition is_space (c : ascii) : bool :=
  let n := code c in
  (((9 <=? n) && (n <=? 13)) || (n =? 32) || (n =? 160))%N.

Fixpoint trimStart (s : string) : string :=
  match s with
  | EmptyString => EmptyString
  | String c s' => if is_space c then trimStart s' else s
  end.

(** [trimEnd], by recursion from the right: a suffix made only of white
    space collapses to the empty string. *)
Fixpoint trimEnd (s : string) : string :=
  match s with
  | EmptyString => EmptyString
  | String c s' =>
      match trimEnd s' with
      | EmptyString => if is_space c then EmptyString
                       else String c EmptyString
      | t => String c t
      end
  end.

Definition trim (s : string) : string := trimEnd (trimStart s).

(** Truthiness of a string value that may be [null]: [null], [undefined]
    and the empty string are falsy. *)
Definition truthy (o : option string) : bool :=
  match o with
  | None => false
  | Some EmptyString => false
  | Some _ => true
  end.

(** [String.prototype.startsWith]. *)
Definition startsWith (p s : string) : bool := String.prefix p s.

(** Strict equality of two values that are strings or [null]. *)
Definition strict_eq (a b : option string) : bool :=
  match a, b with
  | None, None => true
  | Some x, Some y => String.eqb x y
  | _, _ => false
  end.

End JSString.

(** ** Regular expressions

    The fragment of ECMAScript patterns used by the rule tables, all with
    the [i] flag and without the [u] flag. *)

Module Regex.

Import JSString.

Inductive class := CDot | CSpace.

Inductive regex :=
| Lit (s : string)          (* a run of pattern characters *)
| One (c : class)           (* [.] or [\s] *)
| Many (c : class)          (* [.*] or [\s*] *)
| Boundary                  (* [\b] *)
| Cat (r1 r2 : regex)
| Or (r1 r2 : regex)        (* [r1|r2] *)
| Opt (r : regex).          (* [(r)?] *)

(** Canonicalize of the [i] flag without [u]: the upper case of the code
    unit, kept only when it is a single code unit and does not move a
    non-ASCII unit into ASCII.  The result is a code point: U+00FF and
    U+00B5 leave the Latin-1 range. *)
Definition canonicalize (c : ascii) : N :=
  let n := code c in
  (if (97 <=? n) && (n <=? 122) then n - 32
   else if (224 <=? n) && (n <=? 254) && negb (n =? 247) then n - 32
   else if n =? 255 then 376
   else if n =? 181 then 924
   else n)%N.

Definition char_match (p c : ascii) : bool :=
  (canonicalize p =? canonicalize c)%N.

(** [\w] is [A-Za-z0-9_]. *)
Definition is_word (c : ascii) : bool :=
  let n := code c in
  (((48 <=? n) && (n <=? 57)) || ((65 <=? n) && (n <=? 90))
   || ((97 <=? n) && (n <=? 122)) || (n =? 95))%N.

Definition class_match (k : class) (c : ascii) : bool :=
  match k with
  | CDot => negb ((code c =? 10) || (code c =? 13))%N
  | CSpace => is_space c
  end.

Definition word_before (prev : option ascii) : bool :=
  match prev with Some c => is_word c | None => false end.

Definition word_after (s : string) : bool :=
  match s with String c _ => is_word c | EmptyString => false end.

Definition Cont := option ascii -> string -> bool.

(** Consume a literal, case-insensitively. *)
Fixpoint lit (p : string) (prev : option ascii) (s : string) (k : Cont)
  : bool :=
  match p with
  | EmptyString => k prev s
  | String a p' =>
      match s with
      | String c s' => char_match a c && lit p' (Some c) s' k
      | EmptyString => false
      end
  end.

(** Any number of characters of a class; every split point is tried. *)
Fixpoint many (c : class) (prev : option ascii) (s : string) (k : Cont)
  : bool :=
  k prev s ||
  match s with
  | String a s' => class_match c a && many c (Some a) s' k
  | EmptyString => false
  end.

(** Backtracking matcher in continuation-passing style: [matches r prev s k]
    holds when [r] matches a prefix of [s] (the character before it being
    [prev]) and [k] accepts what follows. *)
Fixpoint matches (r : regex) (prev : option ascii) (s : string) (k : Cont)
  : bool :=
  match r with
  | Lit p => lit p prev s k
  | One c =>
      match s with
      | String a s' => class_match c a && k (Some a) s'
      | EmptyString => false
      end
  | Many c => many c prev s k
  | Boundary => xorb (word_before prev) (word_after s) && k prev s
  | Cat r1 r2 => matches r1 prev s (fun p' s' => matches r2 p' s' k)
  | Or r1 r2 => matches r1 prev s k || matches r2 prev s k
  | Opt r1 => matches r1 prev s k || k prev s
  end.

Definition accept : Cont := fun _ _ => true.

(** A match starting at the current position or at a later one. *)
Fixpoint search (r : regex) (prev : option ascii) (s : string) : bool :=
  matches r prev s accept ||
  match s with
  | String c s' => search r (Some c) s'
  | EmptyString => false
  end.

(** [RegExp.prototype.test] for a pattern without the [g] and [y] flags. *)
Definition test (r : regex) (s : string) : bool := search r None s.

Declare Scope regex_scope.
Delimit Scope regex_scope with re.
Infix "++" := Cat : regex_scope.
Infix "||" := Or : regex_scope.

End Regex.

(** ** Numbers *)

Module JSNumber.

Local Open Scope float_scope.

(** The number value of a small non-negative integer. *)
Definition of_Z (z : Z) : float := PrimFloat.of_uint63 (Uint63.of_Z z).

(** Truthiness of a number: zero and NaN are falsy. *)
Definition truthy (x : float) : bool :=
  negb (PrimFloat.is_zero x || PrimFloat.is_nan x).

(** [v || d] for a numeric field that may be missing. *)
Definition or_else (v : option float) (d : float) : float :=
  match v with
  | Some x => if truthy x then x else d
  | None => d
  end.

(** [Math.min] and [Math.max] of two numbers: NaN wins, and the negative
    zero is below the positive one. *)
Definition min2 (x y : float) : float :=
  if PrimFloat.is_nan x then x else if PrimFloat.is_nan y then y
  else if x <? y then x else if y <? x then y
  else if PrimFloat.get_sign x then x else y.

Definition max2 (x y : float) : float :=
  if PrimFloat.is_nan x then x else if PrimFloat.is_nan y then y
  else if y <? x then x else if x <? y then y
  else if PrimFloat.get_sign x then y else x.

Definition min (l : list float) : float := fold_left min2 l infinity.
Definition max (l : list float) : float := fold_left max2 l neg_infinity.

Local Open Scope Z_scope.

(** The integer nearest to [num / den] ([den > 0]), the larger one when two
    are equally near. *)
Definition round_half_up (num den : Z) : Z := (2 * num + den) / (2 * den).

(** The integer [n] for which [n / 10^f - m * 2^e] is nearest to zero. *)
Definition scaled (f : nat) (m : positive) (e : Z) : Z :=
  if 0 <=? e then Zpos m * 2 ^ e * 10 ^ Z.of_nat f
  else round_half_up (Zpos m * 10 ^ Z.of_nat f) (2 ^ (- e)).

(** [m * 2^e >= 10^21]. *)
Definition huge (m : positive) (e : Z) : bool :=
  if 0 <=? e then 10 ^ 21 <=? Zpos m * 2 ^ e
  else 10 ^ 21 * 2 ^ (- e) <=? Zpos m.

Definition digits (n : Z) : string :=
  NilZero.string_of_uint (N.to_uint (Z.to_N n)).

Fixpoint zeros (k : nat) : string :=
  match k with O => EmptyString | S k' => String "0" (zeros k') end.

(** Steps 11.b-11.c of [Number.prototype.toFixed]: the digits of [n],
    padded on the left to [f + 1] digits, with a point before the last
    [f] ones. *)
Definition place_point (f : nat) (m : string) : string :=
  match f with
  | O => m
  | _ =>
      let k := String.length m in
      let m' := if Nat.leb k f then zeros (f + 1 - k) ++ m else m in
      let k' := String.length m' in
      substring 0 (k' - f) m' ++ "." ++ substring (k' - f) f m'
  end.

(** [x.toFixed(f)] for [0 <= f <= 100].  [None] stands for the one case
    left out: a finite magnitude of [10^21] or more, where the source
    prints exponent notation. *)
Definition toFixed (f : nat) (x : float) : option string :=
  match Prim2SF x with
  | S754_nan => Some "NaN"
  | S754_infinity false => Some "Infinity"
  | S754_infinity true => Some "-Infinity"
  | S754_zero _ => Some (place_point f "0")
  | S754_finite s m e =>
      if huge m e then None
      else Some ((if s then "-" else "") ++ place_point f (digits (scaled f m e)))
  end.

End JSNumber.

(** ** Data model *)

(** One entry of [analysisData.analyses] (precomputed/results.json) whose
    statistics are numbers; entries with [null] statistics are [Raw.analysis]
    below. *)
Record analysis := {
  outcome : string;
  specification : string;
  state_filter : option string;
  time_window : option (Z * Z);
  weighted : bool;
  cluster : string;
  success : bool;
  coefficient : float;
  std_error : float;
  p_value : float;
  ci_lower : option float;
  ci_upper : option float;
  n_obs : Z;
  n_clusters : Z;
  description : string;
  filter_desc : option string
}.

Definition MAX_QUERIES_PER_HOUR : Z := 100.
Definition SIMILARITY_THRESHOLD : float := 0.5%float.

(** [JSON.stringify(w1) === JSON.stringify(w2)] for two values that are
    [null] or a pair of years: the texts agree exactly when both are [null]
    or both pairs have the same components. *)
Definition json_window_eq (w1 w2 : option (Z * Z)) : bool :=
  match w1, w2 with
  | None, None => true
  | Some (a1, b1), Some (a2, b2) => (a1 =? a2) && (b1 =? b2)
  | _, _ => false
  end.

(** ** Rule tables of [findBestMatchKeyword] *)

Module Pattern.
Record t := {
  regex : Regex.regex;
  filter : option string;
  time : option (Z * Z);
  outcome : option string;
  weighted : bool;
  spec : option string
}.

Definition blank (r : Regex.regex) : t :=
  {| regex := r; filter := None; time := None; outcome := None;
     weighted := false; spec := None |}.
Definition with_filter r f := {| regex := r; filter := Some f; time := None;
  outcome := None; weighted := false; spec := None |}.
Definition with_time r w := {| regex := r; filter := None; time := Some w;
  outcome := None; weighted := false; spec := None |}.
Definition with_outcome r o := {| regex := r; filter := None; time := None;
  outcome := Some o; weighted := false; spec := None |}.
Definition with_spec r s := {| regex := r; filter := None; time := None;
  outcome := None; weighted := false; spec := Some s |}.
Definition with_weighted r := {| regex := r; filter := None; time := None;
  outcome := None; weighted := true; spec := None |}.
End Pattern.

Section RuleTables.
Import Regex.
Local Open Scope regex_scope.

Definition re_exclude_CA := (* /exclud(e|ing)\s*(california|ca)\b/i *)
  Lit "exclud" ++ (Lit "e" || Lit "ing") ++ Many CSpace
    ++ (Lit "california" || Lit "ca") ++ Boundary.
Definition re_exclude_UT := (* /exclud(e|ing)\s*(utah|ut)\b/i *)
  Lit "exclud" ++ (Lit "e" || Lit "ing") ++ Many CSpace
    ++ (Lit "utah" || Lit "ut") ++ Boundary.
Definition re_exclude_WA := (* /exclud(e|ing)\s*(washington|wa)\b/i *)
  Lit "exclud" ++ (Lit "e" || Lit "ing") ++ Many CSpace
    ++ (Lit "washington" || Lit "wa") ++ Boundary.
Definition re_excl_CA := (* /excl\.?\s*(ca|california)\b/i *)
  Lit "excl" ++ Opt (Lit ".") ++ Many CSpace
    ++ (Lit "ca" || Lit "california") ++ Boundary.
Definition re_excl_UT := (* /excl\.?\s*(ut|utah)\b/i *)
  Lit "excl" ++ Opt (Lit ".") ++ Many CSpace
    ++ (Lit "ut" || Lit "utah") ++ Boundary.
Definition re_excl_WA := (* /excl\.?\s*(wa|washington)\b/i *)
  Lit "excl" ++ Opt (Lit ".") ++ Many CSpace
    ++ (Lit "wa" || Lit "washington") ++ Boundary.
Definition re_original := (* /original|1996.?2018/i *)
  Lit "original" || (Lit "1996" ++ Opt (One CDot) ++ Lit "2018").
Definition re_post2018 := (* /post.?2018|after 2018|2018.?2024/i *)
  ((Lit "post" ++ Opt (One CDot) ++ Lit "2018") || Lit "after 2018")
  || (Lit "2018" ++ Opt (One CDot) ++ Lit "2024").
Definition re_without2024 :=
  (* /without 2024|exclud.*2024|1996.?2022|excl.*2024/i *)
  ((Lit "without 2024" || (Lit "exclud" ++ Many CDot ++ Lit "2024"))
   || (Lit "1996" ++ Opt (One CDot) ++ Lit "2022"))
  || (Lit "excl" ++ Many CDot ++ Lit "2024").
Definition re_turnout := (* /turn(out)?/i *)
  Lit "turn" ++ Opt (Lit "out").
Definition re_pres := (* /pres(ident(ial)?)?/i *)
  Lit "pres" ++ Opt (Lit "ident" ++ Opt (Lit "ial")).
Definition re_gov := (* /gov(ernor)?/i *)
  Lit "gov" ++ Opt (Lit "ernor").
Definition re_sen := (* /sen(at(e|or))?/i *)
  Lit "sen" ++ Opt (Lit "at" ++ (Lit "e" || Lit "or")).
Definition re_dem_share := (* /vote\s*share|partisan|democrat/i *)
  ((Lit "vote" ++ Many CSpace ++ Lit "share") || Lit "partisan")
  || Lit "democrat".
Definition re_linear := (* /linear/i *) Lit "linear".
Definition re_quadratic := (* /quadratic|quad\b/i *)
  Lit "quadratic" || (Lit "quad" ++ Boundary).
Definition re_basic := (* /basic|simple/i *) Lit "basic" || Lit "simple".
Definition re_weighted := (* /weight(ed)?|population/i *)
  (Lit "weight" ++ Opt (Lit "ed")) || Lit "population".
Definition re_CA := (* /\b(california|ca)\b/i *)
  Boundary ++ (Lit "california" || Lit "ca") ++ Boundary.
Definition re_UT := (* /\b(utah|ut)\b/i *)
  Boundary ++ (Lit "utah" || Lit "ut") ++ Boundary.
Definition re_WA := (* /\b(washington|wa)\b/i *)
  Boundary ++ (Lit "washington" || Lit "wa") ++ Boundary.

End RuleTables.

(** The ordered rule list [patterns]. *)
Definition patterns : list Pattern.t :=
  [ Pattern.with_filter re_exclude_CA "exclude_CA";
    Pattern.with_filter re_exclude_UT "exclude_UT";
    Pattern.with_filter re_exclude_WA "exclude_WA";
    Pattern.with_filter re_excl_CA "exclude_CA";
    Pattern.with_filter re_excl_UT "exclude_UT";
    Pattern.with_filter re_excl_WA "exclude_WA";
    Pattern.with_time re_original (1996, 2018);
    Pattern.with_time re_post2018 (2018, 2024);
    Pattern.with_time re_without2024 (1996, 2022);
    Pattern.with_outcome re_turnout "turnout";
    Pattern.with_outcome re_pres "dem_share_pres";
    Pattern.with_outcome re_gov "dem_share_gov";
    Pattern.with_outcome re_sen "dem_share_sen";
    Pattern.with_outcome re_dem_share "dem_share";
    Pattern.with_spec re_linear "linear";
    Pattern.with_spec re_quadratic "quadratic";
    Pattern.with_spec re_basic "basic";
    Pattern.with_weighted re_weighted ].

(** The state inclusion rules [statePatterns]. *)
Definition statePatterns : list Pattern.t :=
  [ Pattern.with_filter re_CA "CA";
    Pattern.with_filter re_UT "UT";
    Pattern.with_filter re_WA "WA" ].

Definition relevantOutcomes : list string :=
  ["dem_share"; "turnout"; "dem_share_pres"; "dem_share_gov"; "dem_share_sen"].

(** [Array.prototype.includes] on strings. *)
Definition includes (l : list string) (s : string) : bool :=
  existsb (String.eqb s) l.

(** ** [findBestMatchKeyword] *)

(** The criteria extracted from the query: the five [target*] variables. *)
Record targets := {
  targetFilter : option string;
  targetTime : option (Z * Z);
  targetOutcome : option string;
  targetWeighted : bool;
  targetSpec : string
}.

Definition initial_targets : targets :=
  {| targetFilter := None; targetTime := None; targetOutcome := None;
     targetWeighted := false; targetSpec := "basic" |}.

(** Body of the first loop for one rule: a rule whose regex matches assigns
    each field it carries; only the outcome is guarded by [!targetOutcome]. *)
Definition apply_pattern (queryLower : string) (t : targets) (p : Pattern.t)
  : targets :=
  if Regex.test (Pattern.regex p) queryLower then
    {| targetFilter :=
         if JSString.truthy (Pattern.filter p) then Pattern.filter p
         else targetFilter t;
       targetTime :=
         match Pattern.time p with Some w => Some w | None => targetTime t end;
       targetOutcome :=
         if JSString.truthy (Pattern.outcome p)
            && negb (JSString.truthy (targetOutcome t))
         then Pattern.outcome p else targetOutcome t;
       targetWeighted :=
         if Pattern.weighted p then Pattern.weighted p else targetWeighted t;
       targetSpec :=
         match Pattern.spec p with
         | Some s => if JSString.truthy (Some s) then s else targetSpec t
         | None => targetSpec t
         end |}
  else t.

Definition first_pass (queryLower : string) (ps : list Pattern.t) : targets :=
  fold_left (apply_pattern queryLower) ps initial_targets.

(** [!targetFilter || !targetFilter.startsWith('exclude_')]. *)
Definition no_exclude_filter (f : option string) : bool :=
  negb (JSString.truthy f)
  || match f with
     | Some s => negb (JSString.startsWith "exclude_" s)
     | None => true
     end.

(** The loop over [statePatterns]: the first rule that matches assigns the
    filter (under the same guard) and the loop breaks. *)
Fixpoint state_loop (queryLower : string) (ps : list Pattern.t)
  (f : option string) : option string :=
  match ps with
  | [] => f
  | p :: ps' =>
      if Regex.test (Pattern.regex p) queryLower
      then (if no_exclude_filter f then Pattern.filter p else f)
      else state_loop queryLower ps' f
  end.

Definition second_pass (queryLower : string) (t : targets) : targets :=
  if no_exclude_filter (targetFilter t) then
    {| targetFilter := state_loop queryLower statePatterns (targetFilter t);
       targetTime := targetTime t;
       targetOutcome := targetOutcome t;
       targetWeighted := targetWeighted t;
       targetSpec := targetSpec t |}
  else t.

(** The interpretation of a query: both passes over the lower-cased text. *)
Definition interpret (query : string) : targets :=
  let queryLower := JSString.toLowerCase query in
  second_pass queryLower (first_pass queryLower patterns).

(** The five additive terms of the score of one record. *)
Definition filter_score (t : targets) (a : analysis) : Z :=
  if JSString.truthy (targetFilter t)
     && JSString.strict_eq (state_filter a) (targetFilter t) then 10
  else if negb (JSString.truthy (targetFilter t))
          && negb (JSString.truthy (state_filter a)) then 2
  else 0.

Definition time_score (t : targets) (a : analysis) : Z :=
  match targetTime t, time_window a with
  | Some w, _ => if json_window_eq (time_window a) (Some w) then 10 else 0
  | None, None => 2
  | None, Some _ => 0
  end.

Definition outcome_score (t : targets) (a : analysis) : Z :=
  if JSString.truthy (targetOutcome t)
     && JSString.strict_eq (Some (outcome a)) (targetOutcome t) then 10
  else if negb (JSString.truthy (targetOutcome t))
          && String.eqb (outcome a) "dem_share" then 1
  else 0.

Definition weighted_score (t : targets) (a : analysis) : Z :=
  if targetWeighted t && weighted a then 5
  else if negb (targetWeighted t) && negb (weighted a) then 1
  else 0.

Definition spec_score (t : targets) (a : analysis) : Z :=
  if String.eqb (specification a) (targetSpec t) then 3 else 0.

Definition score (t : targets) (a : analysis) : Z :=
  filter_score t a + time_score t a + outcome_score t a
  + weighted_score t a + spec_score t a.

(** One iteration of the scoring loop on the pair [(bestMatch, bestScore)]:
    records outside [relevantOutcomes] are skipped and only a strictly
    greater score replaces the best one. *)
Definition score_step (t : targets) (best : option analysis * Z)
  (a : analysis) : option analysis * Z :=
  if negb (includes relevantOutcomes (outcome a)) then best
  else if snd best <? score t a then (Some a, score t a)
  else best.

Definition best_of (t : targets) (analyses : list analysis)
  : option analysis * Z :=
  fold_left (score_step t) analyses (None, 0).

(** The result object [{ analysis, similarity }]. *)
Record match_result := {
  m_analysis : option analysis;
  m_similarity : float
}.

Definition maxPossibleScore : float := 30%float.

(** [bestScore / maxPossibleScore]. *)
Definition similarity (bestScore : Z) : float :=
  PrimFloat.div (JSNumber.of_Z bestScore) maxPossibleScore.

(** [findBestMatchKeyword(query, section)] over the loaded corpus
    [analysisData.analyses]; the [section] argument is not read by the
    source. *)
Definition findBestMatchKeyword (analyses : list analysis) (query : string)
  : match_result :=
  let t := interpret query in
  let best := best_of t analyses in
  {| m_analysis := fst best;
     m_similarity := similarity (snd best) |}.

(** ** Result presenter *)

Definition newline : string := String (ascii_of_N 10) EmptyString.
Definition dquote : string := String (ascii_of_N 34) EmptyString.

(** The missing glyph of [formatCell], an em dash (U+2014), written as the
    three bytes of its UTF-8 form. *)
Definition missing_glyph : string :=
  String (ascii_of_N 226) (String (ascii_of_N 128)
    (String (ascii_of_N 148) EmptyString)).

(** [OUTCOME_LABELS[outcome] || outcome]. *)
Definition OUTCOME_LABELS (o : string) : option string :=
  if String.eqb o "dem_share" then Some "Democratic Vote Share"
  else if String.eqb o "dem_share_pres"
       then Some "Democratic Vote Share (Presidential)"
  else if String.eqb o "dem_share_gov"
       then Some "Democratic Vote Share (Governor)"
  else if String.eqb o "dem_share_sen"
       then Some "Democratic Vote Share (Senate)"
  else if String.eqb o "turnout" then Some "Voter Turnout"
  else None.

Definition outcome_label (o : string) : string :=
  match OUTCOME_LABELS o with Some l => l | None => o end.

(** [findAnalysis]: the first record of the corpus that passes the six
    tests ([Array.prototype.find]). *)
Definition findAnalysis (analyses : list analysis) (outcome' : string)
  (specification' : string) (stateFilter : option string)
  (timeWindow : option (Z * Z)) : option analysis :=
  find (fun a =>
          String.eqb (outcome a) outcome'
          && String.eqb (specification a) specification'
          && JSString.strict_eq (state_filter a) stateFilter
          && json_window_eq (time_window a) timeWindow
          && negb (weighted a)
          && String.eqb (cluster a) "county") analyses.

Definition getBaseline (analyses : list analysis) (outcome' : string)
  : option analysis :=
  let baselineOutcome :=
    if String.eqb outcome' "turnout" then "turnout" else "dem_share" in
  findAnalysis analyses baselineOutcome "quadratic" None None.

Section Presenter.
Local Open Scope float_scope.

(** [formatCell]: the text of a table cell.  [None] only arises from
    [toFixed] (see there). *)
Definition formatCell (a : option analysis) : option string :=
  match a with
  | None => Some missing_glyph
  | Some a =>
      if negb (success a) then Some missing_glyph
      else
        let coef := coefficient a in
        let se := std_error a in
        let pVal := p_value a in
        let stars :=
          if pVal <? 0.01 then "***"
          else if pVal <? 0.05 then "**"
          else if pVal <? 0.1 then "*"
          else EmptyString in
        let sigClass :=
          if pVal <? 0.05 then "significant" else EmptyString in
        match JSNumber.toFixed 3 coef, JSNumber.toFixed 3 se with
        | Some c, Some e =>
            Some (newline
              ++ "        <div class=" ++ dquote ++ "coefficient "
              ++ sigClass ++ dquote ++ ">" ++ c ++ stars ++ "</div>"
              ++ newline
              ++ "        <div class=" ++ dquote ++ "std-error" ++ dquote
              ++ ">(" ++ e ++ ")</div>" ++ newline ++ "    ")%string
        | _, _ => None
        end
  end.

Definition getSignificanceStars (a : option analysis) : string :=
  match a with
  | None => EmptyString
  | Some a =>
      let p := p_value a in
      if p <? 0.01 then "***"
      else if p <? 0.05 then "**"
      else if p <? 0.1 then "*"
      else EmptyString
  end.

(** *** Coefficient plot *)

(** One drawn row: label, height, the three abscissas, the class suffix
    and the text at the right ([coef.toFixed(4)] and the stars). *)
Record plot_row := {
  row_label : string;
  row_y : float;
  row_x : float;
  row_x_lower : float;
  row_x_upper : float;
  row_class : string;
  row_text : option string
}.

(** What [renderCoefPlot] writes into the container. *)
Record coef_plot := {
  plot_caption : string;
  plot_height : float;
  plot_zero_x : float;
  plot_rows : list plot_row;
  plot_ticks : list (float * option string)
}.

Definition lower_bound (a : analysis) : float :=
  JSNumber.or_else (ci_lower a) (coefficient a - 1.96 * std_error a).
Definition upper_bound (a : analysis) : float :=
  JSNumber.or_else (ci_upper a) (coefficient a + 1.96 * std_error a).

(** [[baseline, current].filter(a => a)]. *)
Definition present (l : list (option analysis)) : list analysis :=
  flat_map (fun o => match o with Some a => [a] | None => [] end) l.

Definition draw_row (scale : float -> float) (label : string) (y : float)
  (a : analysis) : plot_row :=
  {| row_label := label;
     row_y := y;
     row_x := scale (coefficient a);
     row_x_lower := scale (lower_bound a);
     row_x_upper := scale (upper_bound a);
     row_class :=
       if p_value a <? 0.05 then EmptyString else " not-significant";
     row_text :=
       option_map (fun t => (t ++ getSignificanceStars (Some a))%string)
                  (JSNumber.toFixed 4 (coefficient a)) |}.

(** [renderCoefPlot(baseline, current, outcomeLabel, filterDesc)];
    [container] tells whether the element [coef-plot] exists, and the
    result is [None] when the function returns without drawing. *)
Definition renderCoefPlot (container : bool)
  (baseline current : option analysis) (outcomeLabel : string)
  (filterDesc : option string) : option coef_plot :=
  if negb container then None
  else
    let showCurrent := match current with Some _ => true | None => false end in
    let allCoefs := present [baseline; current] in
    let allLower := map lower_bound allCoefs in
    let allUpper := map upper_bound allCoefs in
    let minVal := JSNumber.min (allLower ++ [0]) - 0.01 in
    let maxVal := JSNumber.max (allUpper ++ [0]) + 0.01 in
    let width := 400 in
    let height := if showCurrent then 100 else 70 in
    let margin_left := 160 in
    let margin_right := 80 in
    let margin_top := 20 in
    let plotWidth := width - margin_left - margin_right in
    let scale := fun val =>
      margin_left + ((val - minVal) / (maxVal - minVal)) * plotWidth in
    let row1Y := margin_top + 15 in
    let row2Y := margin_top + 40 in
    let row1 :=
      match baseline with
      | Some b => [draw_row scale "Baseline (quad. trends)" row1Y b]
      | None => []
      end in
    let row2 :=
      match current with
      | Some c =>
          if showCurrent then
            [draw_row scale
               (if JSString.truthy filterDesc
                then match filterDesc with Some d => d | None => EmptyString end
                else "Current specification") row2Y c]
          else []
      | None => []
      end in
    Some {| plot_caption := outcomeLabel;
            plot_height := height;
            plot_zero_x := scale 0;
            plot_rows := row1 ++ row2;
            plot_ticks :=
              map (fun tick => (scale tick, JSNumber.toFixed 3 tick))
                  [minVal; 0; maxVal] |}.

(** [updateCoefPlot(baseline, analysis, outcomeLabel)]. *)
Definition updateCoefPlot (container : bool) (baseline : option analysis)
  (a : analysis) (outcomeLabel : string) : option coef_plot :=
  renderCoefPlot container baseline (Some a) outcomeLabel
    (Some (if JSString.truthy (filter_desc a)
           then match filter_desc a with Some d => d | None => EmptyString end
           else "This specification")).

End Presenter.

(** ** Records whose statistics are missing *)

(** A record as the corpus file holds it.  [analysis] above is the view of
    a record whose three statistics are numbers.  The file can also hold the
    record of a regression that did not run, with [success] false and
    [coefficient], [std_error] and [p_value] equal to [null]: the source
    anticipates such records with [!analysis.success] in [formatCell] and
    with [?.] before [toFixed] in [generateResponse] and [addMessage]. *)
Module Raw.
Record analysis := {
  outcome : string;
  specification : string;
  state_filter : option string;
  time_window : option (Z * Z);
  weighted : bool;
  cluster : string;
  success : bool;
  coefficient : option float;
  std_error : option float;
  p_value : option float;
  ci_lower : option float;
  ci_upper : option float;
  n_obs : Z;
  n_clusters : Z;
  description : string;
  filter_desc : option string
}.
End Raw.

(** [ToNumber] on a number or [null]: arithmetic and comparisons read
    [null] as [+0]. *)
Definition ToNumber (v : option float) : float :=
  match v with Some x => x | None => 0%float end.

(** The record as the arithmetic and the comparisons of the presenter see
    it; the matcher and [findAnalysis] read the key fields only. *)
Definition numbers (e : Raw.analysis) : analysis :=
  {| outcome := Raw.outcome e;
     specification := Raw.specification e;
     state_filter := Raw.state_filter e;
     time_window := Raw.time_window e;
     weighted := Raw.weighted e;
     cluster := Raw.cluster e;
     success := Raw.success e;
     coefficient := ToNumber (Raw.coefficient e);
     std_error := ToNumber (Raw.std_error e);
     p_value := ToNumber (Raw.p_value e);
     ci_lower := Raw.ci_lower e;
     ci_upper := Raw.ci_upper e;
     n_obs := Raw.n_obs e;
     n_clusters := Raw.n_clusters e;
     description := Raw.description e;
     filter_desc := Raw.filter_desc e |}.

(** How a call completes: with a value, or with the [TypeError] of a
    method call on [null]. *)
Inductive completion (A : Type) :=
| Normal (x : A)
| TypeError.

Arguments Normal {A} x.
Arguments TypeError {A}.

(** [v.toFixed(...)] is called on the value itself, with no conversion. *)
Definition is_null (v : option float) : bool :=
  match v with Some _ => false | None => true end.

(** [formatCell]: the test of [success] comes before the first [toFixed]. *)
Definition formatCell_raw (e : option Raw.analysis)
  : completion (option string) :=
  match e with
  | None => Normal (Some missing_glyph)
  | Some e =>
      if negb (Raw.success e) then Normal (Some missing_glyph)
      else if is_null (Raw.coefficient e) then TypeError
      else if is_null (Raw.std_error e) then TypeError
      else Normal (formatCell (Some (numbers e)))
  end.

(** The text [v?.toFixed(4)] of [generateResponse] and [addMessage]:
    [undefined] for [null], with no exception. *)
Definition toFixed_guarded (v : option float) : option string :=
  match v with
  | Some x => JSNumber.toFixed 4 x
  | None => Some "undefined"
  end.

(** [renderCoefPlot]: the range, the scale and the classes are computed by
    arithmetic and comparisons, but the text of a drawn row is
    [bCoef.toFixed(4)] or [cCoef.toFixed(4)], without [?.]: a row whose
    coefficient is [null] throws, before anything is written into the
    container. *)
Definition renderCoefPlot_raw (container : bool)
  (baseline current : option Raw.analysis) (outcomeLabel : string)
  (filterDesc : option string) : completion (option coef_plot) :=
  if negb container then Normal None
  else
    let drawn (r : option Raw.analysis) :=
      match r with
      | Some e => is_null (Raw.coefficient e)
      | None => false
      end in
    if drawn baseline then TypeError
    else if drawn current then TypeError
    else Normal (renderCoefPlot container (option_map numbers baseline)
                   (option_map numbers current) outcomeLabel filterDesc).

Definition updateCoefPlot_raw (container : bool)
  (baseline : option Raw.analysis) (e : Raw.analysis)
  (outcomeLabel : string) : completion (option coef_plot) :=
  renderCoefPlot_raw container baseline (Some e) outcomeLabel
    (Some (if JSString.truthy (Raw.filter_desc e)
           then match Raw.filter_desc e with
                | Some d => d | None => EmptyString end
           else "This specification")).

(** The part of [addMessage] for a matched record: the coefficient text of
    the preview is built first, with [?.]; the call of [updateCoefPlot]
    comes last, and its exception leaves [addMessage] (in [handleQuery] it
    is caught by [catch], which shows the error line instead). *)
Definition addMessage_raw (container : bool)
  (baseline : option Raw.analysis) (e : Raw.analysis)
  : option string * completion (option coef_plot) :=
  (toFixed_guarded (Raw.coefficient e),
   updateCoefPlot_raw container baseline e (outcome_label (Raw.outcome e))).

(** ** Narration requests and [handleQuery] *)

Definition availableAnalyses : string :=
  String.concat newline
    [ EmptyString;
      "Available analyses include:";
      "- Different state samples: CA only, UT only, WA only, or excluding any state";
      "- Different time periods: 1996-2018 (original), 1996-2024 (extended), 2018-2024 (post-2018), 1996-2022";
      "- Different specifications: Basic, Linear Trends, Quadratic Trends";
      "- Population-weighted estimates";
      "- Presidential, Governor, or Senate elections separately";
      EmptyString ].

(** [match.analysis?.description || 'None found']. *)
Definition best_available (m : match_result) : string :=
  match m_analysis m with
  | Some a =>
      if JSString.truthy (Some (description a)) then description a
      else "None found"
  | None => "None found"
  end.

(** The system prompt built by [generateNoMatchResponse(query, match)].
    Nothing in it dereferences [match.analysis] without [?.]; [None] only
    arises from [toFixed] (see there). *)
Definition generateNoMatchResponse (m : match_result) : option string :=
  match JSNumber.toFixed 2 (m_similarity m) with
  | Some sim =>
      Some (String.concat newline
        [ "You are an assistant helping users explore robustness checks for a vote-by-mail study.";
          EmptyString;
          "The user asked a question, but the best match has low confidence (similarity: "
            ++ sim ++ ").";
          EmptyString;
          "Best available match: " ++ best_available m;
          EmptyString;
          availableAnalyses;
          EmptyString;
          "Respond briefly (2-3 sentences) by:";
          "1. Acknowledging you don't have that exact analysis pre-computed";
          "2. Suggesting the closest available alternative OR explaining what analyses ARE available" ])
  | None => None
  end.

(** What [generateResponse(query, analysis)] interpolates into its prompt:
    the record, its outcome label and the baseline it is compared with.
    The first statement reads [analysis.outcome], so a [null] record throws
    ([None]). *)
Record narration := {
  nar_analysis : analysis;
  nar_outcomeLabel : string;
  nar_baseline : option analysis
}.

Definition generateResponse (analyses : list analysis)
  (a : option analysis) : option narration :=
  match a with
  | None => None
  | Some a =>
      Some {| nar_analysis := a;
              nar_outcomeLabel := outcome_label (outcome a);
              nar_baseline := getBaseline analyses (outcome a) |}
  end.

(** What [addMessage] adds for a matched record: the result preview with
    its baseline comparison, and the redrawn coefficient plot. *)
Record preview := {
  pre_outcomeLabel : string;
  pre_baseline : option analysis;
  pre_stars : string;
  pre_plot : option coef_plot
}.

Definition addMessage (analyses : list analysis) (container : bool)
  (a : analysis) : preview :=
  let outcomeLabel := outcome_label (outcome a) in
  let baseline := getBaseline analyses (outcome a) in
  {| pre_outcomeLabel := outcomeLabel;
     pre_baseline := baseline;
     pre_stars := getSignificanceStars (Some a);
     pre_plot := updateCoefPlot container baseline a outcomeLabel |}.

(** The outcome of one call of [handleQuery]. *)
Inductive reply :=
| Ignored                                 (* empty query: early return *)
| LimitReached                            (* rate limit message *)
| NoGoodMatch (systemPrompt : option string)   (* fallback narration *)
| GoodMatch (n : narration) (p : preview)      (* narration and display *)
| QueryFailed.                            (* exception caught by [catch] *)

(** [handleQuery('table')] as a function of the corpus, the presence of the
    plot container, the counter [queryCount.table] and the text of the input
    box; it returns the new counter and what was shown.  The narration
    endpoint is outside the model: a reply records the request made to it. *)
Definition handleQuery (analyses : list analysis) (container : bool)
  (queryCount : Z) (input : string) : Z * reply :=
  let query := JSString.trim input in
  if negb (JSString.truthy (Some query)) then (queryCount, Ignored)
  else if MAX_QUERIES_PER_HOUR <=? queryCount then (queryCount, LimitReached)
  else
    let m := findBestMatchKeyword analyses query in
    let queryCount' := queryCount + 1 in
    if PrimFloat.ltb (m_similarity m) SIMILARITY_THRESHOLD then
      (queryCount', NoGoodMatch (generateNoMatchResponse m))
    else
      match generateResponse analyses (m_analysis m), m_analysis m with
      | Some n, Some a => (queryCount', GoodMatch n (addMessage analyses container a))
      | _, _ => (queryCount', QueryFailed)
      end.

(** ** Further functions of app.js *)

(** [getSignificanceDescription(pValue)]. *)
Definition getSignificanceDescription (pValue : float) : string :=
  if PrimFloat.ltb pValue 0.01%float then "p < 0.01, highly significant"
  else if PrimFloat.ltb pValue 0.05%float then "p < 0.05, significant"
  else if PrimFloat.ltb pValue 0.1%float
       then "p < 0.1, marginally significant"
  else "not statistically significant".

(** The text of an integer number value ([Number::toString] below
    [10^21]). *)
Definition int_toString (z : Z) : string :=
  (if z <? 0 then "-" else EmptyString) ++ JSNumber.digits (Z.abs z).

(** *** The query counter and its persistence *)

(** The value kept under the key [vbm_query_counts]: what
    [saveQueryCounts] wrote, [counts.table] and the time of writing in
    milliseconds. *)
Record stored_counts := {
  st_counts : Z;
  st_timestamp : Z
}.

(** [saveQueryCounts()] at time [now]: the new content of the slot. *)
Definition saveQueryCounts (queryCount now : Z) : option stored_counts :=
  Some {| st_counts := queryCount; st_timestamp := now |}.

(** [loadQueryCounts()] at time [now]: the new value of
    [queryCount.table]. *)
Definition loadQueryCounts (stored : option stored_counts) (now : Z)
  (queryCount : Z) : Z :=
  match stored with
  | Some s => if now - st_timestamp s <? 3600000 then st_counts s
              else queryCount
  | None => queryCount
  end.

(** [updateQueryCounters()]: the counter text and the [disabled] flag of
    the submit button. *)
Definition updateQueryCounters (queryCount : Z) : string * bool :=
  let tableRemaining := MAX_QUERIES_PER_HOUR - queryCount in
  (int_toString tableRemaining ++ " queries remaining", tableRemaining <=? 0).

(** The counter and the storage slot of a page. *)
Record session := {
  ses_count : Z;
  ses_storage : option stored_counts
}.

(** A page load ([init]): the counter starts at 0 and [loadQueryCounts]
    reads the slot. *)
Definition page_load (storage : option stored_counts) (now : Z) : session :=
  {| ses_count := loadQueryCounts storage now 0; ses_storage := storage |}.

(** [handleQuery] with its write to the slot: [saveQueryCounts] runs right
    after the increment, so exactly when the query got past both guards. *)
Definition handleQuery_session (analyses : list analysis) (container : bool)
  (now : Z) (s : session) (input : string) : session * reply :=
  match handleQuery analyses container (ses_count s) input with
  | (_, Ignored) => (s, Ignored)
  | (_, LimitReached) => (s, LimitReached)
  | (c, r) => ({| ses_count := c; ses_storage := saveQueryCounts c now |}, r)
  end.

(** Successive calls of [handleQuery] on one page: the final counter and
    the replies in order. *)
Fixpoint run_queries (analyses : list analysis) (container : bool)
  (queryCount : Z) (inputs : list string) : Z * list reply :=
  match inputs with
  | [] => (queryCount, [])
  | input :: rest =>
      let (c, r) := handleQuery analyses container queryCount input in
      let (c', rs) := run_queries analyses container c rest in
      (c', r :: rs)
  end.

(** *** The first drawing of the plot *)

(** The content of the element [coef-plot] after [initCoefPlot]. *)
Inductive plot_area :=
| Untouched                       (* no such element *)
| Placeholder                     (* "Ask a question to see ..." *)
| Drawn (p : coef_plot).

Definition initCoefPlot (analyses : list analysis) (container : bool)
  : plot_area :=
  let demBaseline := getBaseline analyses "dem_share" in
  if negb container then Untouched
  else
    match demBaseline with
    | Some b =>
        match renderCoefPlot container (Some b) None
                "Democratic Vote Share" None with
        | Some p => Drawn p
        | None => Untouched
        end
    | None => Placeholder
    end.

(** *** Sample descriptions *)

(** [s.replace(pat, '')] for a string pattern: the first occurrence of
    [pat] is removed. *)
Fixpoint remove_first (pat s : string) : string :=
  if String.prefix pat s
  then substring (String.length pat) (String.length s - String.length pat) s
  else match s with
       | EmptyString => EmptyString
       | String c s' => String c (remove_first pat s')
       end.

(** [timeDesc], the same in [generateResponse] and in [addMessage]. *)
Definition timeDesc (a : analysis) : string :=
  match time_window a with
  | Some (first, last) => int_toString first ++ "-" ++ int_toString last
  | None => "1996-2024 (all years)"
  end.

(** [stateDesc] of [generateResponse] (the narration prompt). *)
Definition stateDesc (a : analysis) : string :=
  match state_filter a with
  | Some f =>
      if JSString.truthy (Some f) then
        if JSString.startsWith "exclude_" f
        then "excluding " ++ remove_first "exclude_" f
        else f ++ " only"
      else "all states (CA, UT, WA)"
  | None => "all states (CA, UT, WA)"
  end.

(** [stateDesc] of [addMessage] (the result preview). *)
Definition stateDesc_preview (a : analysis) : string :=
  match state_filter a with
  | Some f =>
      if JSString.truthy (Some f) then
        if JSString.startsWith "exclude_" f
        then "Excluding " ++ remove_first "exclude_" f
        else f ++ " only"
      else "All states (CA, UT, WA)"
  | None => "All states (CA, UT, WA)"
  end.

Definition weightDesc (a : analysis) : string :=
  if weighted a then ", population-weighted" else EmptyString.

(** The line [- Sample: ...] of the prompt and of the preview. *)
Definition sample_line (a : analysis) : string :=
  stateDesc a ++ ", " ++ timeDesc a ++ weightDesc a.

(** ** The narration proxy (serverless function) and its client *)

Module Proxy.

(** One entry of [messages]. *)
Record turn := { role : string; content : string }.

(** The parsed body of a request to [/api/chat]; each field may be absent. *)
Record chat_body := {
  system : option string;
  messages : option (list turn);
  max_tokens : option Z
}.

Record request := {
  method : string;
  body : option chat_body
}.

(** The call made to the text-generation API. *)
Record api_call := {
  call_key : string;
  call_model : string;
  call_max_tokens : Z;
  call_system : string;
  call_messages : list turn
}.

(** What [response.json()] gives for the API's answer: a rejection, or the
    value of [data.content?.[0]?.text]. *)
Inductive json_view :=
| JsonThrows (message : string)
| JsonData (first_text : option string).

(** What the call to the API does: [fetch] rejects, or a response arrives
    with its status, its body as text and its body as JSON. *)
Inductive upstream :=
| FetchThrows (message : string)
| Responded (status : Z) (text : string) (json : json_view).

(** The body of the proxy's answer. *)
Inductive answer_body :=
| ErrorText (error : string)          (* { error: '...' } *)
| ErrorMessage (message : string)     (* { error: { message: '...' } } *)
| Content (content : string).         (* { content: '...' } *)

Record answer := {
  status : Z;
  answer_of : answer_body
}.

(** [response.ok]. *)
Definition ok (status : Z) : bool := (200 <=? status) && (status <=? 299).

(** [max_tokens || 300]: absent and zero are falsy. *)
Definition max_tokens_or_default (m : option Z) : Z :=
  match m with
  | Some n => if n =? 0 then 300 else n
  | None => 300
  end.

(** [handler(req, res)].  [apiKey] is [process.env.ANTHROPIC_API_KEY],
    [api] answers the call, and [engine_message] is the text of the
    TypeError raised by destructuring an undefined [req.body].  The result
    is the answer sent and the call made to the API, if any. *)
Definition handler (apiKey : option string) (api : api_call -> upstream)
  (engine_message : string) (req : request) : answer * option api_call :=
  if negb (String.eqb (method req) "POST") then
    ({| status := 405; answer_of := ErrorText "Method not allowed" |}, None)
  else
    match apiKey with
    | Some key =>
        if negb (JSString.truthy (Some key)) then
          ({| status := 500;
              answer_of := ErrorMessage "API key not configured" |}, None)
        else
          match body req with
          | None =>
              ({| status := 500; answer_of := ErrorMessage engine_message |},
               None)
          | Some b =>
              let call :=
                {| call_key := key;
                   call_model := "claude-sonnet-4-20250514";
                   call_max_tokens := max_tokens_or_default (max_tokens b);
                   call_system :=
                     match system b with
                     | Some s => s     (* a falsy [system] is the empty text *)
                     | None => EmptyString
                     end;
                   call_messages :=
                     match messages b with Some l => l | None => [] end |} in
              match api call with
              | FetchThrows m =>
                  ({| status := 500; answer_of := ErrorMessage m |}, Some call)
              | Responded st text json =>
                  if negb (ok st) then
                    ({| status := st; answer_of := ErrorMessage text |},
                     Some call)
                  else
                    match json with
                    | JsonThrows m =>
                        ({| status := 500; answer_of := ErrorMessage m |},
                         Some call)
                    | JsonData first_text =>
                        ({| status := 200;
                            answer_of :=
                              Content (if JSString.truthy first_text
                                       then match first_text with
                                            | Some t => t
                                            | None => EmptyString
                                            end
                                       else EmptyString) |}, Some call)
                    end
              end
          end
    | None =>
        ({| status := 500;
            answer_of := ErrorMessage "API key not configured" |}, None)
    end.

(** The request that [generateResponse] and [generateNoMatchResponse]
    send. *)
Definition client_request (systemPrompt query : string) : request :=
  {| method := "POST";
     body := Some {| system := Some systemPrompt;
                     messages := Some [{| role := "user"; content := query |}];
                     max_tokens := Some 200 |} |}.

(** How the client reads an answer: the value it returns ([data.content],
    [None] when the field is missing) or the message of the error it
    throws. *)
Inductive client_result :=
| Returned (text : option string)
| Thrown (message : string).

Definition read_answer (a : answer) : client_result :=
  if negb (ok (status a)) then
    Thrown (match answer_of a with
            | ErrorMessage m =>
                if JSString.truthy (Some m) then m
                else "Chat completion failed"
            | _ => "Chat completion failed"
            end)
  else
    Returned (match answer_of a with
              | Content c => Some c
              | _ => None
              end).

(** The assistant line [handleQuery] adds to the chat: the narration, or
    the message built in its [catch] block. *)
Definition chat_line (r : client_result) : option string :=
  match r with
  | Returned text => text
  | Thrown m =>
      Some ("Error: " ++ m ++ ". Please check your API key and try again.")
  end.

End Proxy.

(** ** Vocabulary of the statements *)

(** The rules of a list whose regex matches the text, in list order. *)
Definition matching (queryLower : string) (ps : list Pattern.t)
  : list Pattern.t :=
  filter (fun p => Regex.test (Pattern.regex p) queryLower) ps.

(** The truthy values a list of rules carries for one field. *)
Definition carried (field : Pattern.t -> option string) (ps : list Pattern.t)
  : list string :=
  flat_map (fun p => if JSString.truthy (field p)
                     then match field p with Some v => [v] | None => [] end
                     else []) ps.

Definition carried_times (ps : list Pattern.t) : list (Z * Z) :=
  flat_map (fun p => match Pattern.time p with Some w => [w] | None => [] end)
           ps.

Definition last_error {A : Type} (l : list A) : option A := hd_error (rev l).

(** The character that precedes position [length pre] of [pre ++ s]. *)
Fixpoint prev_after (prev : option ascii) (pre : string) : option ascii :=
  match pre with
  | EmptyString => prev
  | String c pre' => prev_after (Some c) pre'
  end.

(** A record is one the scoring loop looks at. *)
Definition relevant (a : analysis) : bool :=
  includes relevantOutcomes (outcome a).

(** The pair [(bestMatch, bestScore)] is either the initial one or a relevant
    record of the corpus together with its own, positive, score. *)
Definition coherent (t : targets) (analyses : list analysis)
  (best : option analysis * Z) : Prop :=
  match fst best with
  | None => snd best = 0
  | Some a => In a analyses /\ relevant a = true
              /\ snd best = score t a /\ 0 < snd best
  end.

(** Test records: regression output filled with fixed statistics. *)
Definition sample (o sp : string) (f : option string) (w : option (Z * Z))
  (wt : bool) : analysis :=
  {| outcome := o; specification := sp; state_filter := f; time_window := w;
     weighted := wt; cluster := "county"; success := true;
     coefficient := 0.024%float; std_error := 0.007%float;
     p_value := 0.004%float; ci_lower := None; ci_upper := None;
     n_obs := 2376; n_clusters := 126;
     description := "Democratic vote share, basic specification";
     filter_desc := None |}.

(** A decimal digit, and a string made of digits only. *)
Definition is_digit (c : ascii) : bool :=
  ((48 <=? JSString.code c) && (JSString.code c <=? 57))%N.

Fixpoint all_digits (s : string) : bool :=
  match s with
  | EmptyString => true
  | String c s' => is_digit c && all_digits s'
  end.

(** A number written with exactly [f] decimal places: an optional minus
    sign, at least one digit, a point and [f] digits. *)
Definition shown_to (f : nat) (s : string) : Prop :=
  exists sign int frac,
    s = sign ++ int ++ "." ++ frac
    /\ (sign = EmptyString \/ sign = "-")
    /\ int <> EmptyString /\ String.length frac = f
    /\ all_digits (int ++ frac) = true.

(** A number that [toFixed] prints in plain decimal notation: finite and of
    magnitude below [10^21]. *)
Definition plain (x : float) : bool :=
  match Prim2SF x with
  | S754_zero _ => true
  | S754_finite _ m e => negb (JSNumber.huge m e)
  | _ => false
  end.

(** A copy of a record with another p-value. *)
Definition with_p_value (a : analysis) (p : float) : analysis :=
  {| outcome := outcome a; specification := specification a;
     state_filter := state_filter a; time_window := time_window a;
     weighted := weighted a; cluster := cluster a; success := success a;
     coefficient := coefficient a; std_error := std_error a;
     p_value := p; ci_lower := ci_lower a; ci_upper := ci_upper a;
     n_obs := n_obs a; n_clusters := n_clusters a;
     description := description a; filter_desc := filter_desc a |}.

(** A text made of white space only. *)
Fixpoint all_space (s : string) : bool :=
  match s with
  | EmptyString => true
  | String c s' => JSString.is_space c && all_space s'
  end.

(** The last character of a text, if any. *)
Fixpoint last_char (s : string) : option ascii :=
  match s with
  | EmptyString => None
  | String c EmptyString => Some c
  | String _ s' => last_char s'
  end.

(** A reply of a query that got past both guards of [handleQuery]. *)
Definition processed (r : reply) : bool :=
  match r with
  | Ignored | LimitReached => false
  | _ => true
  end.

(** The integer a string of decimal digits denotes. *)
Fixpoint decimal_value_from (acc : Z) (s : string) : Z :=
  match s with
  | EmptyString => acc
  | String c s' =>
      decimal_value_from (10 * acc + (Z.of_N (JSString.code c) - 48)) s'
  end.

Definition decimal_value (s : string) : Z := decimal_value_from 0 s.

(** The values the rule tables can give to each criterion. *)
Definition known_filters : list (option string) :=
  [None; Some "CA"; Some "UT"; Some "WA";
   Some "exclude_CA"; Some "exclude_UT"; Some "exclude_WA"].

Definition known_times : list (option (Z * Z)) :=
  [None; Some (1996, 2018); Some (2018, 2024); Some (1996, 2022)].

Definition known_outcomes : list (option string) :=
  None :: map Some relevantOutcomes.

Definition known_specs : list string := ["basic"; "linear"; "quadratic"].

(** The first-maximum invariant of the scoring loop over the records seen
    so far. *)
Definition first_maximum (t : targets) (seen : list analysis)
  (best : option analysis * Z) : Prop :=
  match fst best with
  | None =>
      snd best = 0
      /\ forall b, In b seen -> relevant b = true -> score t b <= 0
  | Some a =>
      exists before after,
        seen = (before ++ a :: after)%list
        /\ relevant a = true /\ snd best = score t a /\ 0 < score t a
        /\ (forall b, In b before -> relevant b = true ->
              score t b < score t a)
        /\ (forall b, In b after -> relevant b = true ->
              score t b <= score t a)
  end.

(** For the criteria (no filter, no window, pooled vote share, unweighted,
    basic): a pooled record that earns 5 or more of the 8 points of the
    other four terms, so 15 or more in all. *)
Definition near_default_pooled (a : analysis) : bool :=
  String.eqb (outcome a) "dem_share"
  && ((String.eqb (specification a) "basic"
       && (negb (JSString.truthy (state_filter a))
           || match time_window a with None => true | Some _ => false end))
      || (negb (JSString.truthy (state_filter a))
          && match time_window a with None => true | Some _ => false end
          && negb (weighted a))).

(** A record of a regression that did not run: the statistics are [null]. *)
Definition failed_run (o sp : string) (f : option string)
  (w : option (Z * Z)) (wt : bool) : Raw.analysis :=
  {| Raw.outcome := o; Raw.specification := sp; Raw.state_filter := f;
     Raw.time_window := w; Raw.weighted := wt; Raw.cluster := "county";
     Raw.success := false;
     Raw.coefficient := None; Raw.std_error := None; Raw.p_value := None;
     Raw.ci_lower := None; Raw.ci_upper := None;
     Raw.n_obs := 0; Raw.n_clusters := 0;
     Raw.description := "Regression that did not run";
     Raw.filter_desc := None |}.

(** The same record with its statistics. *)
Definition completed_run (o sp : string) (f : option string)
  (w : option (Z * Z)) (wt : bool) : Raw.analysis :=
  {| Raw.outcome := o; Raw.specification := sp; Raw.state_filter := f;
     Raw.time_window := w; Raw.weighted := wt; Raw.cluster := "county";
     Raw.success := true;
     Raw.coefficient := Some 0.024%float;
     Raw.std_error := Some 0.007%float;
     Raw.p_value := Some 0.004%float;
     Raw.ci_lower := None; Raw.ci_upper := None;
     Raw.n_obs := 2376; Raw.n_clusters := 126;
     Raw.description := "Democratic vote share, basic specification";
     Raw.filter_desc := None |}.

(** A record that [findAnalysis(outcome, specification, stateFilter,
    timeWindow)] accepts: the four key fields agree and the record is
    unweighted and clustered by county. *)
Definition accepted (o sp : string) (f : option string) (w : option (Z * Z))
  (b : analysis) : Prop :=
  outcome b = o /\ specification b = sp /\ state_filter b = f
  /\ time_window b = w /\ weighted b = false /\ cluster b = "county".

(** * Properties *)

(** ** The scoring loop *)

Section Scoring.
Variable t : targets.

Lemma filter_score_range a : 0 <= filter_score t a <= 10.
Proof. unfold filter_score. repeat destruct (_ && _); lia. Qed.

Lemma time_score_range a : 0 <= time_score t a <= 10.
Proof.
  unfold time_score.
  destruct (targetTime t), (time_window a);
    try destruct (json_window_eq _ _); lia.
Qed.

Lemma outcome_score_range a : 0 <= outcome_score t a <= 10.
Proof. unfold outcome_score. repeat destruct (_ && _); lia. Qed.

Lemma weighted_score_range a : 0 <= weighted_score t a <= 5.
Proof. unfold weighted_score. repeat destruct (_ && _); lia. Qed.

Lemma spec_score_range a : 0 <= spec_score t a <= 3.
Proof. unfold spec_score. destruct (String.eqb _ _); lia. Qed.

Lemma score_range a : 0 <= score t a <= 38.
Proof.
  unfold score.
  pose proof (filter_score_range a). pose proof (time_score_range a).
  pose proof (outcome_score_range a). pose proof (weighted_score_range a).
  pose proof (spec_score_range a). lia.
Qed.

Lemma score_step_coherent analyses best a :
  In a analyses -> coherent t analyses best ->
  coherent t analyses (score_step t best a).
Proof.
  intros Ha Hb. unfold score_step. fold (relevant a).
  destruct (relevant a) eqn:Hr; simpl; [|exact Hb].
  destruct (snd best <? score t a) eqn:Hlt; [|exact Hb].
  apply Z.ltb_lt in Hlt. unfold coherent; simpl.
  repeat split; auto.
  unfold coherent in Hb. destruct (fst best) as [b|].
  - destruct Hb as (_ & _ & _ & Hpos). lia.
  - lia.
Qed.

Lemma fold_coherent analyses l best :
  incl l analyses -> coherent t analyses best ->
  coherent t analyses (fold_left (score_step t) l best).
Proof.
  revert best. induction l as [|a l IH]; intros best Hin Hb; simpl; auto.
  apply IH.
  - intros x Hx. apply Hin. now right.
  - apply score_step_coherent; auto. apply Hin. now left.
Qed.

Lemma best_of_coherent analyses : coherent t analyses (best_of t analyses).
Proof.
  unfold best_of. apply fold_coherent.
  - apply incl_refl.
  - reflexivity.
Qed.

(** A bound on the score of every relevant record bounds the best score. *)
Lemma fold_bounded (B : Z) l best :
  (forall a, In a l -> relevant a = true -> score t a <= B) ->
  snd best <= B ->
  snd (fold_left (score_step t) l best) <= B.
Proof.
  revert best. induction l as [|a l IH]; intros best Hall Hb; simpl; auto.
  apply IH.
  - intros x Hx. apply Hall. now right.
  - unfold score_step. fold (relevant a).
    destruct (relevant a) eqn:Hr; simpl; auto.
    destruct (snd best <? score t a); simpl; auto.
    apply Hall; auto. now left.
Qed.

Lemma best_of_bounded (B : Z) analyses :
  0 <= B ->
  (forall a, In a analyses -> relevant a = true -> score t a <= B) ->
  snd (best_of t analyses) <= B.
Proof. intros HB Hall. unfold best_of. apply fold_bounded; auto. Qed.

(** The best score is at least the score of every relevant record. *)
Lemma fold_grows l best :
  snd best <= snd (fold_left (score_step t) l best).
Proof.
  revert best. induction l as [|a l IH]; intros best; simpl; [lia|].
  etransitivity; [|apply IH].
  unfold score_step. destruct (negb _); [lia|].
  destruct (snd best <? score t a) eqn:Hlt; simpl; [|lia].
  apply Z.ltb_lt in Hlt. lia.
Qed.

Lemma fold_dominates l best a :
  In a l -> relevant a = true ->
  score t a <= snd (fold_left (score_step t) l best).
Proof.
  revert best. induction l as [|b l IH]; intros best Hin Hr; [destruct Hin|].
  simpl. destruct Hin as [->|Hin]; [|now apply IH].
  etransitivity; [|apply fold_grows].
  unfold score_step. fold (relevant a). rewrite Hr. simpl.
  destruct (snd best <? score t a) eqn:Hlt; simpl; [lia|].
  apply Z.ltb_ge in Hlt. lia.
Qed.

Lemma best_of_dominates analyses a :
  In a analyses -> relevant a = true ->
  score t a <= snd (best_of t analyses).
Proof. intros. unfold best_of. now apply fold_dominates. Qed.

Lemma fold_nonneg l best :
  0 <= snd best -> 0 <= snd (fold_left (score_step t) l best).
Proof.
  revert best. induction l as [|a l IH]; intros best Hb; simpl; auto.
  apply IH. unfold score_step.
  destruct (negb _); auto.
  destruct (snd best <? score t a) eqn:Hlt; auto.
  simpl. apply Z.ltb_lt in Hlt. lia.
Qed.

Lemma best_of_range analyses : 0 <= snd (best_of t analyses) <= 38.
Proof.
  split.
  - unfold best_of. apply fold_nonneg. simpl. lia.
  - apply best_of_bounded; [lia|]. intros a _ _. apply score_range.
Qed.

(** Records outside [relevantOutcomes] leave the pair untouched. *)
Lemma fold_skips l best :
  (forall a, In a l -> relevant a = false) ->
  fold_left (score_step t) l best = best.
Proof.
  revert best. induction l as [|a l IH]; intros best Hall; simpl; auto.
  rewrite IH.
  - unfold score_step. fold (relevant a).
    rewrite (Hall a) by now left. reflexivity.
  - intros x Hx. apply Hall. now right.
Qed.

Lemma best_of_none_relevant analyses :
  (forall a, In a analyses -> relevant a = false) ->
  best_of t analyses = (None, 0).
Proof. intros H. unfold best_of. now apply fold_skips. Qed.

Lemma best_of_positive_some analyses :
  0 < snd (best_of t analyses) ->
  exists a, fst (best_of t analyses) = Some a /\ In a analyses
            /\ relevant a = true /\ score t a = snd (best_of t analyses).
Proof.
  intros Hpos. pose proof (best_of_coherent analyses) as H.
  unfold coherent in H. destruct (fst (best_of t analyses)) as [a|].
  - exists a. destruct H as (H1 & H2 & H3 & _). auto.
  - lia.
Qed.

End Scoring.

(** ** The confidence as a number *)

Section Confidence.
Local Open Scope float_scope.

(** A boolean property of the scores 0..38 is settled by trying them. *)
Lemma check_scores (P : Z -> bool) :
  forallb (fun n => P (Z.of_nat n)) (seq 0 39) = true ->
  forall s, (0 <= s <= 38)%Z -> P s = true.
Proof.
  intros Hall s Hs. rewrite forallb_forall in Hall.
  rewrite <- (Z2Nat.id s) by lia. apply Hall.
  apply in_seq. lia.
Qed.

Lemma similarity_below_threshold s :
  (0 <= s <= 38)%Z ->
  (similarity s <? SIMILARITY_THRESHOLD) = (s <? 15)%Z.
Proof.
  intros Hs. apply eqb_prop.
  apply (check_scores
           (fun s => Bool.eqb (similarity s <? SIMILARITY_THRESHOLD)
                              (s <? 15)%Z)); [|exact Hs].
  vm_compute. reflexivity.
Qed.

Lemma similarity_above_one s :
  (0 <= s <= 38)%Z -> (1 <? similarity s) = (30 <? s)%Z.
Proof.
  intros Hs. apply eqb_prop.
  apply (check_scores
           (fun s => Bool.eqb (1 <? similarity s) (30 <? s)%Z)); [|exact Hs].
  vm_compute. reflexivity.
Qed.

Lemma similarity_nonneg s :
  (0 <= s <= 38)%Z -> (0 <=? similarity s) = true.
Proof.
  intros Hs.
  apply (check_scores (fun s => 0 <=? similarity s)); [|exact Hs].
  vm_compute. reflexivity.
Qed.

Lemma similarity_at_threshold s :
  (0 <= s <= 38)%Z ->
  (similarity s =? SIMILARITY_THRESHOLD) = (s =? 15)%Z.
Proof.
  intros Hs. apply eqb_prop.
  apply (check_scores
           (fun s => Bool.eqb (similarity s =? SIMILARITY_THRESHOLD)
                              (s =? 15)%Z)); [|exact Hs].
  vm_compute. reflexivity.
Qed.

(** [toFixed(2)] of a confidence never takes the exponent branch. *)
Lemma similarity_toFixed s :
  (0 <= s <= 38)%Z ->
  exists txt, JSNumber.toFixed 2 (similarity s) = Some txt.
Proof.
  intros Hs.
  pose proof (check_scores
                (fun s => match JSNumber.toFixed 2 (similarity s) with
                          | Some _ => true | None => false end)
                ltac:(vm_compute; reflexivity) s Hs) as H.
  simpl in H. destruct (JSNumber.toFixed 2 (similarity s)) as [txt|].
  - now exists txt.
  - discriminate.
Qed.

End Confidence.

(** ** Strings and the regex engine *)

Section Strings.
Import JSString Regex.

Lemma toLowerCase_app s1 s2 :
  toLowerCase (s1 ++ s2) = toLowerCase s1 ++ toLowerCase s2.
Proof. induction s1 as [|c s1 IH]; simpl; [reflexivity|now rewrite IH]. Qed.

(** Lower-casing keeps word characters and non-word characters apart. *)
Lemma is_word_lower c : is_word (lower_char c) = is_word c.
Proof. destruct c as [[] [] [] [] [] [] [] []]; vm_compute; reflexivity. Qed.

Lemma word_after_lower s : word_after (toLowerCase s) = word_after s.
Proof. destruct s as [|c s]; simpl; [reflexivity|apply is_word_lower]. Qed.

Lemma matches_search r prev s :
  matches r prev s accept = true -> search r prev s = true.
Proof. intros H. destruct s; simpl; rewrite H; reflexivity. Qed.

(** A match found after a prefix is found by the search from the start. *)
Lemma search_skip r pre : forall prev s,
  search r (prev_after prev pre) s = true -> search r prev (pre ++ s) = true.
Proof.
  induction pre as [|c pre IH]; intros prev s H; simpl in *; [exact H|].
  rewrite (IH _ _ H). apply orb_true_r.
Qed.

Lemma test_inside r pre s :
  matches r (prev_after None pre) s accept = true ->
  test r (pre ++ s) = true.
Proof. intros H. apply search_skip. now apply matches_search. Qed.

(** The first exclusion rule matches "excluding california" wherever it
    ends at a word boundary. *)
Lemma exclude_CA_matches prev post :
  word_after post = false ->
  matches re_exclude_CA prev ("excluding california" ++ post) accept = true.
Proof. intros H. cbv -[word_after]. rewrite H. reflexivity. Qed.

End Strings.

(** ** The first pass, field by field *)

Section FirstPass.
Import JSString.
Variable q : string.

Lemma last_error_app {A : Type} (l1 l2 : list A) :
  last_error (l1 ++ l2) =
  match last_error l2 with Some v => Some v | None => last_error l1 end.
Proof.
  unfold last_error. rewrite rev_app_distr.
  destruct (rev l2); simpl; reflexivity.
Qed.

Lemma matching_cons p ps :
  matching q (p :: ps) =
  if Regex.test (Pattern.regex p) q then p :: matching q ps
  else matching q ps.
Proof. reflexivity. Qed.

(** Only the rules that carry a field matter for it. *)
Lemma carried_only field ps :
  carried field (matching q ps) =
  carried field (matching q (filter (fun p => truthy (field p)) ps)).
Proof.
  induction ps as [|p ps IH]; [reflexivity|].
  simpl (filter _ (p :: ps)). rewrite matching_cons.
  destruct (truthy (field p)) eqn:Ht.
  - rewrite matching_cons.
    destruct (Regex.test (Pattern.regex p) q); simpl; now rewrite IH.
  - destruct (Regex.test (Pattern.regex p) q); simpl; rewrite ?Ht; auto.
Qed.

Lemma carried_times_only ps :
  carried_times (matching q ps) =
  carried_times
    (matching q (filter (fun p => match Pattern.time p with
                                  | Some _ => true | None => false end) ps)).
Proof.
  induction ps as [|p ps IH]; [reflexivity|].
  simpl (filter _ (p :: ps)). rewrite matching_cons.
  destruct (Pattern.time p) eqn:Ht.
  - rewrite matching_cons.
    destruct (Regex.test (Pattern.regex p) q); simpl; rewrite ?Ht;
      now rewrite IH.
  - destruct (Regex.test (Pattern.regex p) q); simpl; rewrite ?Ht; auto.
Qed.

(** The filter is the one of the last matching rule that carries one. *)
Lemma fold_filter ps : forall t,
  targetFilter (fold_left (apply_pattern q) ps t) =
  match last_error (carried Pattern.filter (matching q ps)) with
  | Some v => Some v
  | None => targetFilter t
  end.
Proof.
  induction ps as [|p ps IH]; intros t; [reflexivity|].
  simpl fold_left. rewrite IH, matching_cons. unfold apply_pattern.
  destruct (Regex.test (Pattern.regex p) q); [|reflexivity].
  unfold carried. simpl flat_map. fold (carried Pattern.filter (matching q ps)).
  rewrite last_error_app.
  destruct (last_error (carried Pattern.filter (matching q ps)));
    [reflexivity|].
  simpl. destruct (Pattern.filter p) as [[|c s]|]; reflexivity.
Qed.

(** So is the time window. *)
Lemma fold_time ps : forall t,
  targetTime (fold_left (apply_pattern q) ps t) =
  match last_error (carried_times (matching q ps)) with
  | Some w => Some w
  | None => targetTime t
  end.
Proof.
  induction ps as [|p ps IH]; intros t; [reflexivity|].
  simpl fold_left. rewrite IH, matching_cons. unfold apply_pattern.
  destruct (Regex.test (Pattern.regex p) q); [|reflexivity].
  unfold carried_times. simpl flat_map.
  fold (carried_times (matching q ps)).
  rewrite last_error_app.
  destruct (last_error (carried_times (matching q ps))); [reflexivity|].
  simpl. destruct (Pattern.time p); reflexivity.
Qed.

(** So is the specification. *)
Lemma fold_spec ps : forall t,
  targetSpec (fold_left (apply_pattern q) ps t) =
  match last_error (carried Pattern.spec (matching q ps)) with
  | Some v => v
  | None => targetSpec t
  end.
Proof.
  induction ps as [|p ps IH]; intros t; [reflexivity|].
  simpl fold_left. rewrite IH, matching_cons. unfold apply_pattern.
  destruct (Regex.test (Pattern.regex p) q); [|reflexivity].
  unfold carried. simpl flat_map. fold (carried Pattern.spec (matching q ps)).
  rewrite last_error_app.
  destruct (last_error (carried Pattern.spec (matching q ps)));
    [reflexivity|].
  simpl. destruct (Pattern.spec p) as [[|c s]|]; reflexivity.
Qed.

(** The outcome is the one of the first matching rule that carries one:
    once set, the guard [!targetOutcome] keeps it. *)
Lemma fold_outcome ps : forall t,
  targetOutcome (fold_left (apply_pattern q) ps t) =
  if truthy (targetOutcome t) then targetOutcome t
  else match hd_error (carried Pattern.outcome (matching q ps)) with
       | Some v => Some v
       | None => targetOutcome t
       end.
Proof.
  induction ps as [|p ps IH]; intros t.
  - simpl. now destruct (truthy (targetOutcome t)).
  - simpl fold_left. rewrite IH, matching_cons. unfold apply_pattern.
    destruct (Regex.test (Pattern.regex p) q); [|reflexivity].
    unfold carried. simpl flat_map.
    fold (carried Pattern.outcome (matching q ps)).
    destruct (Pattern.outcome p) as [[|c s]|],
             (targetOutcome t) as [[|c' s']|]; simpl; try reflexivity;
      destruct (hd_error (carried Pattern.outcome (matching q ps)));
      reflexivity.
Qed.

(** The weighting flag is raised by any matching rule that carries it. *)
Lemma fold_weighted ps : forall t,
  targetWeighted (fold_left (apply_pattern q) ps t) =
  targetWeighted t || existsb Pattern.weighted (matching q ps).
Proof.
  induction ps as [|p ps IH]; intros t.
  - simpl. now rewrite orb_false_r.
  - simpl fold_left. rewrite IH, matching_cons. unfold apply_pattern.
    destruct (Regex.test (Pattern.regex p) q); [|reflexivity].
    simpl. destruct (Pattern.weighted p), (targetWeighted t); reflexivity.
Qed.

(** The second pass only touches the filter. *)
Lemma second_pass_others t :
  targetTime (second_pass q t) = targetTime t
  /\ targetOutcome (second_pass q t) = targetOutcome t
  /\ targetWeighted (second_pass q t) = targetWeighted t
  /\ targetSpec (second_pass q t) = targetSpec t.
Proof.
  unfold second_pass. destruct (no_exclude_filter (targetFilter t));
    simpl; auto.
Qed.

(** An exclusion filter set by the first pass survives the second one. *)
Lemma second_pass_exclude t s :
  targetFilter t = Some s -> startsWith "exclude_" s = true -> s <> EmptyString ->
  targetFilter (second_pass q t) = Some s.
Proof.
  intros Hf Hs Hne. unfold second_pass, no_exclude_filter.
  rewrite Hf, Hs. destruct s; [congruence|simpl; exact Hf].
Qed.

End FirstPass.

(** ** Scenario C: "What about third-party vote share?" *)

Section ThirdParty.
Local Open Scope float_scope.

(** The text matches the pooled vote-share rule and nothing else. *)
Lemma third_party_intent :
  interpret "What about third-party vote share?" =
  {| targetFilter := None; targetTime := None;
     targetOutcome := Some "dem_share"; targetWeighted := false;
     targetSpec := "basic" |}.
Proof. vm_compute. reflexivity. Qed.

(** Without the outcome bonus a record earns at most 2 + 2 + 1 + 3. *)
Lemma third_party_score_other a :
  outcome a <> "dem_share" ->
  (score (interpret "What about third-party vote share?") a <= 8)%Z.
Proof.
  intros Ho. rewrite third_party_intent.
  unfold score, filter_score, time_score, outcome_score, weighted_score,
    spec_score. simpl.
  apply String.eqb_neq in Ho. rewrite Ho.
  destruct (JSString.truthy (state_filter a)), (time_window a),
    (weighted a), (String.eqb (specification a) "basic"); simpl; lia.
Qed.

(** With it, at most 18: the confidence never exceeds 0.6. *)
Lemma third_party_score_any a :
  (score (interpret "What about third-party vote share?") a <= 18)%Z.
Proof.
  rewrite third_party_intent.
  unfold score, filter_score, time_score, outcome_score, weighted_score,
    spec_score. simpl.
  destruct (JSString.truthy (state_filter a)), (time_window a),
    (weighted a), (String.eqb (specification a) "basic"),
    (String.eqb (outcome a) "dem_share"); simpl; lia.
Qed.

End ThirdParty.

(** The records that reach the threshold on this text: 15 points or more
    go to the pooled records near the defaults, and to no other record. *)
Lemma third_party_score_threshold a :
  (15 <=? score (interpret "What about third-party vote share?") a)
  = near_default_pooled a.
Proof.
  rewrite third_party_intent.
  unfold near_default_pooled, score, filter_score, time_score, outcome_score,
    weighted_score, spec_score. simpl.
  destruct (JSString.truthy (state_filter a)), (time_window a),
    (weighted a), (String.eqb (specification a) "basic"),
    (String.eqb (outcome a) "dem_share"); reflexivity.
Qed.

Lemma near_default_pooled_relevant a :
  near_default_pooled a = true -> relevant a = true.
Proof.
  unfold near_default_pooled. intros H.
  apply andb_prop in H. destruct H as [Ho _].
  apply String.eqb_eq in Ho. unfold relevant. rewrite Ho. reflexivity.
Qed.

(** C1: the code at the failing input, and for every corpus.  The rule
    [/vote\s*share|partisan|democrat/] reads "vote share" in "What about
    third-party vote share?" as the pooled democratic vote share.  Against
    a corpus whose only record is the pooled one (basic, full sample, full
    window, unweighted), and which holds no third-party record, the score is
    2 + 2 + 10 + 1 + 3 = 18 and the confidence 18/30 is not below 0.5:
    [handleQuery] narrates and displays that record instead of taking the
    fallback path.  In general the confidence is at most 18/30, and it is
    below 0.5 exactly when the corpus holds no pooled record near the
    defaults ([near_default_pooled]); it is at most 8/30 when the corpus
    holds no pooled record at all.  In every case [handleQuery] answers
    without an exception: with the fallback prompt below the threshold, with
    the best record otherwise. *)
Theorem third_party_taken_for_pooled :
  let q := "What about third-party vote share?" in
  let pooled := sample "dem_share" "basic" None None false in
  (m_analysis (findBestMatchKeyword [pooled] q) = Some pooled
   /\ m_similarity (findBestMatchKeyword [pooled] q) = similarity 18
   /\ PrimFloat.ltb (similarity 18) SIMILARITY_THRESHOLD = false
   /\ exists n p,
        handleQuery [pooled] true 0 q = (1, GoodMatch n p)
        /\ nar_analysis n = pooled)
  /\ forall analyses : list analysis,
       let m := findBestMatchKeyword analyses q in
       (PrimFloat.ltb (m_similarity m) SIMILARITY_THRESHOLD = true
        <-> forall a, In a analyses -> near_default_pooled a = false)
       /\ (exists s, m_similarity m = similarity s /\ 0 <= s <= 18)
       /\ ((forall a, In a analyses -> outcome a <> "dem_share") ->
           exists s, m_similarity m = similarity s /\ 0 <= s <= 8)
       /\ forall (container : bool) (queryCount : Z),
            queryCount < MAX_QUERIES_PER_HOUR ->
            if PrimFloat.ltb (m_similarity m) SIMILARITY_THRESHOLD
            then exists prompt,
                   handleQuery analyses container queryCount q
                   = (queryCount + 1, NoGoodMatch (Some prompt))
            else exists n p,
                   handleQuery analyses container queryCount q
                   = (queryCount + 1, GoodMatch n p)
                   /\ m_analysis m = Some (nar_analysis n).
Proof.
  intros q pooled. split.
  { vm_compute. repeat split; try reflexivity.
    do 2 eexists. split; reflexivity. }
  intros analyses m. subst q.
  set (q := "What about third-party vote share?") in *.
  set (t := interpret q) in *.
  set (s := snd (best_of t analyses)).
  assert (Hm : m_similarity m = similarity s) by reflexivity.
  assert (H18 : 0 <= s <= 18).
  { split; [apply best_of_range|].
    apply best_of_bounded; [lia|].
    intros a _ _. apply third_party_score_any. }
  assert (Hlt : PrimFloat.ltb (m_similarity m) SIMILARITY_THRESHOLD
                = (s <? 15)).
  { rewrite Hm. apply similarity_below_threshold. lia. }
  assert (Hthr : forall a, (15 <=? score t a) = near_default_pooled a)
    by (intros a; apply third_party_score_threshold).
  split; [|split; [|split]].
  - rewrite Hlt, Z.ltb_lt. split.
    + intros Hs a Ha.
      destruct (near_default_pooled a) eqn:Hn; [|reflexivity].
      pose proof (best_of_dominates t analyses a Ha
                    (near_default_pooled_relevant a Hn)) as Hd.
      rewrite <- Hthr in Hn. apply Z.leb_le in Hn. fold s in Hd. lia.
    + intros Hall.
      enough (s <= 14) by lia.
      apply best_of_bounded; [lia|].
      intros a Ha _. specialize (Hall a Ha).
      rewrite <- Hthr in Hall. apply Z.leb_gt in Hall. lia.
  - exists s. split; [exact Hm|exact H18].
  - intros Hno. exists s. split; [exact Hm|].
    split; [apply H18|].
    apply best_of_bounded; [lia|].
    intros a Ha _. apply third_party_score_other. now apply Hno.
  - intros container queryCount Hcount.
    assert (Hle : (MAX_QUERIES_PER_HOUR <=? queryCount) = false)
      by (apply Z.leb_gt; exact Hcount).
    unfold handleQuery.
    change (JSString.trim q) with q.
    change (negb (JSString.truthy (Some q))) with false. cbv iota.
    rewrite Hle. cbv zeta. fold m. rewrite Hlt.
    destruct (s <? 15) eqn:Hs.
    + destruct (similarity_toFixed s) as [txt Htxt]; [lia|].
      unfold generateNoMatchResponse. rewrite Hm, Htxt.
      eexists. reflexivity.
    + apply Z.ltb_ge in Hs.
      destruct (best_of_positive_some t analyses) as (a & Ha & _);
        [fold s; lia|].
      assert (Hma : m_analysis m = Some a) by exact Ha.
      rewrite Hma. unfold generateResponse.
      do 2 eexists. split; reflexivity.
Qed.

(** Two corpora on which the text does take the fallback path: a pooled
    record restricted to California and to 1996-2018 earns 10 + 1 + 3 = 14
    points, a turnout record 2 + 2 + 1 + 3 = 8. *)
Lemma third_party_fallback_examples :
  let q := "What about third-party vote share?" in
  let restricted :=
    [sample "dem_share" "basic" (Some "CA") (Some (1996, 2018)) false] in
  let other := [sample "turnout" "basic" None None false] in
  m_similarity (findBestMatchKeyword restricted q) = similarity 14
  /\ m_similarity (findBestMatchKeyword other q) = similarity 8
  /\ PrimFloat.ltb (similarity 14) SIMILARITY_THRESHOLD = true
  /\ (exists prompt,
        handleQuery restricted true 0 q = (1, NoGoodMatch (Some prompt)))
  /\ (exists prompt,
        handleQuery other true 0 q = (1, NoGoodMatch (Some prompt))).
Proof.
  vm_compute. repeat split; try reflexivity; eexists; reflexivity.
Qed.

(** ** Scenario A: "What if we excluded California?" *)

(** C2: the code at the failing input.  No exclusion rule accepts the past
    form "excluded" (they accept "exclude" and "excluding" followed
    by the state), so the first pass sets no filter and the second pass
    reads the text as a California-only query.  The exclude-CA record then
    earns no filter bonus: alone in the corpus it is returned with a
    confidence of 7/30, below the threshold, and next to a CA-only record
    it is not the one selected. *)
Theorem excluded_california_misread :
  let q := "What if we excluded California?" in
  let excl := sample "dem_share" "basic" (Some "exclude_CA") None false in
  let only := sample "dem_share" "basic" (Some "CA") None false in
  Regex.test re_exclude_CA (JSString.toLowerCase q) = false
  /\ Regex.test re_excl_CA (JSString.toLowerCase q) = false
  /\ interpret q =
     {| targetFilter := Some "CA"; targetTime := None; targetOutcome := None;
        targetWeighted := false; targetSpec := "basic" |}
  /\ findBestMatchKeyword [excl] q =
     {| m_analysis := Some excl; m_similarity := similarity 7 |}
  /\ PrimFloat.ltb (similarity 7) SIMILARITY_THRESHOLD = true
  /\ findBestMatchKeyword [excl; only] q =
     {| m_analysis := Some only; m_similarity := similarity 17 |}.
Proof. vm_compute. repeat split; reflexivity. Qed.

(** The present forms are read as intended. *)
Lemma excluding_california_selected :
  let excl := sample "dem_share" "basic" (Some "exclude_CA") None false in
  let only := sample "dem_share" "basic" (Some "CA") None false in
  findBestMatchKeyword [only; excl] "What if we exclude California?" =
  {| m_analysis := Some excl; m_similarity := similarity 17 |}
  /\ PrimFloat.ltb (similarity 17) SIMILARITY_THRESHOLD = false.
Proof. vm_compute. split; reflexivity. Qed.

(** ** Range of the confidence *)

(** The confidence is never negative and never above 38/30. *)
Lemma similarity_range (analyses : list analysis) (query : string) :
  exists s, 0 <= s <= 38
            /\ m_similarity (findBestMatchKeyword analyses query) = similarity s
            /\ PrimFloat.leb 0 (similarity s) = true.
Proof.
  exists (snd (best_of (interpret query) analyses)).
  pose proof (best_of_range (interpret query) analyses) as H.
  repeat split; try apply H. now apply similarity_nonneg.
Qed.

(** C3: the code at the failing input.  The five bonuses add up to
    10 + 10 + 10 + 5 + 3 = 38, not to the 30 that [maxPossibleScore]
    states, so a record that agrees with the query on filter, window and
    outcome already passes 1: 34/30 for an unweighted basic record, 38/30
    when weighting and specification are asked for as well. *)
Theorem similarity_exceeds_one :
  let pres :=
    sample "dem_share_pres" "basic" (Some "exclude_CA") (Some (1996, 2018))
           false in
  let full :=
    sample "turnout" "linear" (Some "exclude_CA") (Some (1996, 2018)) true in
  let m1 := findBestMatchKeyword [pres]
              "Excluding California, original period, presidential" in
  let m2 := findBestMatchKeyword [full]
              "excluding California original turnout weighted linear" in
  m_analysis m1 = Some pres /\ m_similarity m1 = similarity 34
  /\ PrimFloat.ltb 1 (m_similarity m1) = true
  /\ m_analysis m2 = Some full /\ m_similarity m2 = similarity 38
  /\ PrimFloat.ltb 1 (m_similarity m2) = true.
Proof. vm_compute. repeat split; reflexivity. Qed.

(** ** Exclusion rules against plain state names *)

Section Exclusion.
Import JSString.

(** The filter left by the first pass comes from the six exclusion rules. *)
Lemma first_pass_filter q :
  targetFilter (first_pass q patterns) =
  last_error (carried Pattern.filter (matching q (firstn 6 patterns))).
Proof.
  unfold first_pass. rewrite fold_filter, carried_only.
  replace (filter (fun p => truthy (Pattern.filter p)) patterns)
    with (firstn 6 patterns) by reflexivity.
  now destruct (last_error _).
Qed.

(** Every text in which "excluding california" ends at a word boundary
    is matched by the first rule. *)
Lemma excluding_california_detected pre phrase post :
  toLowerCase phrase = "excluding california" ->
  Regex.word_after post = false ->
  Regex.test re_exclude_CA (toLowerCase (pre ++ phrase ++ post)) = true.
Proof.
  intros Hp Hb. rewrite !toLowerCase_app, Hp.
  apply test_inside, exclude_CA_matches.
  now rewrite word_after_lower.
Qed.

End Exclusion.

(** C4, as stated, fails: the filter may be overwritten by a later rule of
    the list, so a text that contains "excluding California" and then an
    exclusion of Utah ends with the filter exclude-UT, not exclude-CA. *)
Lemma excluding_california_overwritten_counterexample :
  Regex.test re_exclude_CA
    (JSString.toLowerCase "excluding California and excluding Utah") = true
  /\ targetFilter (interpret "excluding California and excluding Utah")
     = Some "exclude_UT".
Proof. vm_compute. split; reflexivity. Qed.

(** The word boundary matters: "excluding Californians" is not an exclusion
    of California for the rules, and a later "CA" is then read as CA-only. *)
Lemma excluding_californians_reads_CA :
  targetFilter (interpret "excluding Californians") = None
  /\ targetFilter (interpret "excluding Californians in CA") = Some "CA".
Proof. vm_compute. split; reflexivity. Qed.

(** C4, amended: for every text in which the phrase "excluding California"
    (in any letter case) ends at a word boundary, the interpreted state
    filter is an exclusion filter and never a plain inclusion filter such as
    CA-only; it is exclude-CA unless an exclusion rule for Utah or for
    Washington, listed later, matches the text too. *)
Theorem excluding_california_dominates (pre phrase post : string) :
  JSString.toLowerCase phrase = "excluding california" ->
  Regex.word_after post = false ->
  let t := interpret (pre ++ phrase ++ post) in
  let q := JSString.toLowerCase (pre ++ phrase ++ post) in
  (targetFilter t = Some "exclude_CA" \/ targetFilter t = Some "exclude_UT"
   \/ targetFilter t = Some "exclude_WA")
  /\ targetFilter t <> Some "CA"
  /\ (Regex.test re_exclude_UT q = false ->
      Regex.test re_exclude_WA q = false ->
      Regex.test re_excl_UT q = false ->
      Regex.test re_excl_WA q = false ->
      targetFilter t = Some "exclude_CA").
Proof.
  intros Hp Hb t q.
  pose proof (excluding_california_detected pre phrase post Hp Hb) as H1.
  fold q in H1.
  assert (Hfirst :
    (targetFilter (first_pass q patterns) = Some "exclude_CA"
     \/ targetFilter (first_pass q patterns) = Some "exclude_UT"
     \/ targetFilter (first_pass q patterns) = Some "exclude_WA")
    /\ (Regex.test re_exclude_UT q = false ->
        Regex.test re_exclude_WA q = false ->
        Regex.test re_excl_UT q = false ->
        Regex.test re_excl_WA q = false ->
        targetFilter (first_pass q patterns) = Some "exclude_CA")).
  { rewrite first_pass_filter. unfold matching.
    cbn [firstn patterns filter Pattern.regex Pattern.with_filter].
    rewrite H1.
    destruct (Regex.test re_exclude_UT q), (Regex.test re_exclude_WA q),
      (Regex.test re_excl_CA q), (Regex.test re_excl_UT q),
      (Regex.test re_excl_WA q);
      (split; [vm_compute; tauto | intros; try discriminate; reflexivity]). }
  destruct Hfirst as [Hset Hca].
  assert (Hkeep : targetFilter t = targetFilter (first_pass q patterns)).
  { unfold t, interpret. fold q.
    destruct Hset as [H|[H|H]];
      rewrite (second_pass_exclude q _ _ H); auto; discriminate. }
  rewrite Hkeep. repeat split.
  - exact Hset.
  - destruct Hset as [H|[H|H]]; rewrite H; discriminate.
  - exact Hca.
Qed.

Lemma excluding_california_dominates_witness :
  (targetFilter (interpret ("Results " ++ "Excluding California" ++ ", please"))
     = Some "exclude_CA"
   \/ targetFilter (interpret ("Results " ++ "Excluding California" ++ ", please"))
     = Some "exclude_UT"
   \/ targetFilter (interpret ("Results " ++ "Excluding California" ++ ", please"))
     = Some "exclude_WA")
  /\ targetFilter (interpret ("Results " ++ "Excluding California" ++ ", please"))
     <> Some "CA".
Proof.
  destruct (excluding_california_dominates
              "Results " "Excluding California" ", please"
              eq_refl eq_refl) as (H1 & H2 & _).
  split; [exact H1 | exact H2].
Defined.

(** ** The threshold branch of [handleQuery] *)

Section Threshold.
Local Open Scope float_scope.

(** Past the two guards, [handleQuery] is its threshold branch. *)
Lemma handleQuery_branch analyses container queryCount input :
  JSString.trim input <> EmptyString ->
  (queryCount < MAX_QUERIES_PER_HOUR)%Z ->
  let m := findBestMatchKeyword analyses (JSString.trim input) in
  handleQuery analyses container queryCount input =
  if m_similarity m <? SIMILARITY_THRESHOLD then
    ((queryCount + 1)%Z, NoGoodMatch (generateNoMatchResponse m))
  else
    match generateResponse analyses (m_analysis m), m_analysis m with
    | Some n, Some a =>
        ((queryCount + 1)%Z, GoodMatch n (addMessage analyses container a))
    | _, _ => ((queryCount + 1)%Z, QueryFailed)
    end.
Proof.
  intros Hq Hc m. unfold handleQuery.
  destruct (JSString.trim input) eqn:Ht; [congruence|].
  cbn [JSString.truthy negb].
  assert (Hle : (MAX_QUERIES_PER_HOUR <=? queryCount)%Z = false)
    by (apply Z.leb_gt; exact Hc).
  rewrite Hle. reflexivity.
Qed.

(** A confidence of exactly 0.5 comes from a score of 15. *)
Lemma similarity_half s :
  (0 <= s <= 38)%Z -> similarity s = SIMILARITY_THRESHOLD -> s = 15%Z.
Proof.
  intros Hs H. pose proof (similarity_at_threshold s Hs) as He.
  rewrite H in He. apply Z.eqb_eq. rewrite <- He.
  vm_compute. reflexivity.
Qed.

End Threshold.

(** C5: a query whose confidence is exactly 0.5 is a confident match: the
    matched record exists, is narrated and is displayed; the fallback path
    is taken exactly when the confidence is strictly below 0.5. *)
Theorem threshold_is_inclusive (analyses : list analysis) (container : bool)
  (queryCount : Z) (input : string) :
  JSString.trim input <> EmptyString ->
  queryCount < MAX_QUERIES_PER_HOUR ->
  let m := findBestMatchKeyword analyses (JSString.trim input) in
  let r := handleQuery analyses container queryCount input in
  (m_similarity m = SIMILARITY_THRESHOLD ->
   exists a n,
     m_analysis m = Some a
     /\ generateResponse analyses (Some a) = Some n
     /\ r = (queryCount + 1, GoodMatch n (addMessage analyses container a)))
  /\ ((exists prompt, r = (queryCount + 1, NoGoodMatch prompt))
      <-> PrimFloat.ltb (m_similarity m) SIMILARITY_THRESHOLD = true).
Proof.
  intros Hq Hc m r.
  pose proof (handleQuery_branch analyses container queryCount input Hq Hc)
    as Hb.
  cbv zeta in Hb. fold m r in Hb.
  pose proof (best_of_range (interpret (JSString.trim input)) analyses) as Hs.
  split.
  - intros Heq.
    assert (H15 : snd (best_of (interpret (JSString.trim input)) analyses) = 15).
    { apply similarity_half; [exact Hs|exact Heq]. }
    destruct (best_of_positive_some (interpret (JSString.trim input)) analyses)
      as (a & Ha & _); [lia|].
    exists a. eexists.
    assert (Hm : m_analysis m = Some a) by exact Ha.
    split; [exact Hm|]. split; [reflexivity|].
    rewrite Hb, Heq, Hm.
    change (PrimFloat.ltb SIMILARITY_THRESHOLD SIMILARITY_THRESHOLD) with false.
    reflexivity.
  - rewrite Hb. destruct (PrimFloat.ltb (m_similarity m) SIMILARITY_THRESHOLD).
    + split; [reflexivity|]. intros _. eexists. reflexivity.
    + split; [|discriminate]. intros [prompt Hp].
      destruct (generateResponse analyses (m_analysis m)), (m_analysis m);
        discriminate.
Qed.

Lemma threshold_is_inclusive_witness :
  exists a n,
    m_analysis
      (findBestMatchKeyword [sample "dem_share" "linear" None None false]
         (JSString.trim " vote share ")) = Some a
    /\ generateResponse [sample "dem_share" "linear" None None false] (Some a)
       = Some n
    /\ handleQuery [sample "dem_share" "linear" None None false] true 0
         " vote share "
       = (0 + 1,
          GoodMatch n
            (addMessage [sample "dem_share" "linear" None None false] true a)).
Proof.
  refine (proj1 (threshold_is_inclusive
                   [sample "dem_share" "linear" None None false] true 0
                   " vote share " _ _) _).
  - vm_compute. discriminate.
  - reflexivity.
  - vm_compute. reflexivity.
Defined.

(** ** Which matching rule sets a field *)

(** C6, as stated, fails: the specification is not kept from the earliest
    matching rule.  A text that matches both the "quadratic" rule and the
    "basic" rule, listed after it, ends with the specification basic, and
    one that matches "linear" and "quadratic" ends with quadratic. *)
Lemma spec_first_match_counterexample :
  Regex.test re_quadratic (JSString.toLowerCase "quadratic versus basic") = true
  /\ Regex.test re_basic (JSString.toLowerCase "quadratic versus basic") = true
  /\ targetSpec (interpret "quadratic versus basic") = "basic"
  /\ Regex.test re_linear (JSString.toLowerCase "linear or quadratic") = true
  /\ Regex.test re_quadratic (JSString.toLowerCase "linear or quadratic") = true
  /\ targetSpec (interpret "linear or quadratic") = "quadratic".
Proof. vm_compute. repeat split; reflexivity. Qed.

(** C6, amended: within one pass over the ordered rule list only the
    outcome keeps the value of the earliest matching rule; the filter, the
    time window and the specification end with the value of the latest
    matching rule of their dimension (the specification defaulting to
    basic), and the weighting flag is raised by any matching weighting rule.
    In particular a text that matches both the "quadratic" and the "basic"
    pattern ends with the later-listed value, basic. *)
Theorem first_match_only_for_outcome (query : string) :
  let q := JSString.toLowerCase query in
  let M := matching q patterns in
  let t := interpret query in
  targetOutcome t = hd_error (carried Pattern.outcome M)
  /\ targetSpec t = match last_error (carried Pattern.spec M) with
                    | Some v => v
                    | None => "basic"
                    end
  /\ targetTime t = last_error (carried_times M)
  /\ targetFilter (first_pass q patterns)
     = last_error (carried Pattern.filter M)
  /\ targetWeighted t = existsb Pattern.weighted M
  /\ (Regex.test re_quadratic q = true -> Regex.test re_basic q = true ->
      targetSpec t = "basic").
Proof.
  intros q M t.
  destruct (second_pass_others q (first_pass q patterns))
    as (Htime & Hout & Hw & Hspec).
  unfold t, interpret. fold q. rewrite Htime, Hout, Hw, Hspec.
  unfold first_pass.
  rewrite fold_outcome, fold_spec, fold_time, fold_filter, fold_weighted.
  fold M. simpl.
  split; [now destruct (hd_error _)|].
  split; [reflexivity|].
  split; [now destruct (last_error (carried_times M))|].
  split; [now destruct (last_error (carried Pattern.filter M))|].
  split; [reflexivity|].
  - intros _ Hb. unfold M. rewrite carried_only.
    replace (filter (fun p => JSString.truthy (Pattern.spec p)) patterns)
      with (firstn 3 (skipn 14 patterns)) by reflexivity.
    unfold matching.
    cbn [firstn skipn patterns filter Pattern.regex Pattern.with_spec].
    rewrite Hb.
    destruct (Regex.test re_linear q), (Regex.test re_quadratic q);
      reflexivity.
Qed.

Lemma first_match_only_for_outcome_witness :
  targetSpec (interpret "Quadratic versus basic") = "basic"
  /\ targetOutcome (interpret "presidential turnout") = Some "turnout".
Proof.
  destruct (first_match_only_for_outcome "Quadratic versus basic")
    as (_ & _ & _ & _ & _ & Hs).
  destruct (first_match_only_for_outcome "presidential turnout")
    as (Ho & _).
  split; [exact (Hs eq_refl eq_refl) | exact Ho].
Defined.

(** ** The baseline *)

Section Baseline.
Variable analyses : list analysis.

(** What [findAnalysis] returns passes its six tests. *)
Lemma findAnalysis_sound o sp r :
  findAnalysis analyses o sp None None = Some r ->
  In r analyses /\ outcome r = o /\ specification r = sp
  /\ state_filter r = None /\ time_window r = None
  /\ weighted r = false /\ cluster r = "county".
Proof.
  unfold findAnalysis. intros H. apply find_some in H.
  destruct H as [Hin H].
  repeat (apply andb_prop in H; destruct H as [H ?]).
  repeat match goal with
         | E : String.eqb _ _ = true |- _ => apply String.eqb_eq in E
         end.
  repeat split; auto.
  - destruct (state_filter r); [discriminate|reflexivity].
  - destruct (time_window r) as [[? ?]|]; [discriminate|reflexivity].
  - now destruct (weighted r).
Qed.

(** When it returns nothing, no record of the corpus passes them. *)
Lemma findAnalysis_none o sp :
  findAnalysis analyses o sp None None = None ->
  forall r, In r analyses ->
    ~ (outcome r = o /\ specification r = sp /\ state_filter r = None
       /\ time_window r = None /\ weighted r = false
       /\ cluster r = "county").
Proof.
  unfold findAnalysis. intros H r Hin (H1 & H2 & H3 & H4 & H5 & H6).
  pose proof (find_none _ _ H r Hin) as Hf. cbv beta in Hf.
  rewrite H1, H2, H3, H4, H5, H6, !String.eqb_refl in Hf. discriminate.
Qed.

Lemma getBaseline_vote_share o :
  In o ["dem_share"; "dem_share_pres"; "dem_share_gov"; "dem_share_sen"] ->
  getBaseline analyses o
  = findAnalysis analyses "dem_share" "quadratic" None None.
Proof.
  intros [<-|[<-|[<-|[<-|[]]]]]; reflexivity.
Qed.

Lemma getBaseline_turnout :
  getBaseline analyses "turnout"
  = findAnalysis analyses "turnout" "quadratic" None None.
Proof. reflexivity. Qed.

(** A displayed match is the record the matcher returned, narrated and
    previewed by [generateResponse] and [addMessage]. *)
Lemma handleQuery_good container queryCount input c n p :
  handleQuery analyses container queryCount input = (c, GoodMatch n p) ->
  exists a,
    m_analysis (findBestMatchKeyword analyses (JSString.trim input)) = Some a
    /\ relevant a = true /\ In a analyses
    /\ n = {| nar_analysis := a;
              nar_outcomeLabel := outcome_label (outcome a);
              nar_baseline := getBaseline analyses (outcome a) |}
    /\ p = addMessage analyses container a.
Proof.
  unfold handleQuery. intros H.
  destruct (negb _); [discriminate|].
  destruct (_ <=? _); [discriminate|].
  destruct (PrimFloat.ltb _ _); [discriminate|].
  destruct (m_analysis _) as [a|] eqn:Hm; [|discriminate].
  simpl in H. inversion H; subst. exists a.
  pose proof (best_of_coherent (interpret (JSString.trim input)) analyses)
    as Hc.
  unfold coherent in Hc. simpl in Hm. rewrite Hm in Hc.
  destruct Hc as (Hin & Hr & _). auto.
Qed.

Lemma relevant_cases a :
  relevant a = true ->
  outcome a = "turnout"
  \/ In (outcome a)
        ["dem_share"; "dem_share_pres"; "dem_share_gov"; "dem_share_sen"].
Proof.
  unfold relevant, includes, relevantOutcomes. simpl.
  rewrite !orb_true_iff, !String.eqb_eq. simpl. intuition congruence.
Qed.

(** The baseline depends on the outcome only through its family. *)
Lemma getBaseline_family o1 o2 :
  (o1 = "turnout" <-> o2 = "turnout") ->
  getBaseline analyses o1 = getBaseline analyses o2.
Proof.
  intros H. unfold getBaseline.
  destruct (String.eqb o1 "turnout") eqn:E1,
           (String.eqb o2 "turnout") eqn:E2; try reflexivity.
  - apply String.eqb_eq in E1. apply H in E1. apply String.eqb_neq in E2.
    contradiction.
  - apply String.eqb_eq in E2. apply H in E2. apply String.eqb_neq in E1.
    contradiction.
Qed.

End Baseline.

(** C7: for every matched analysis that [handleQuery] displays, the baseline
    in the narration prompt, in the result preview and in the coefficient
    plot is one and the same record: the first pooled democratic-vote-share
    record at quadratic trends, full sample and full window (unweighted,
    clustered by county) when the outcome is pooled, presidential, governor
    or senate vote share, and the analogous turnout record when the outcome
    is turnout.  It is a function of the corpus and of that outcome family
    alone, so two queries of the same family are compared with the same
    baseline. *)
Theorem baseline_is_fixed (analyses : list analysis) (container : bool)
  (queryCount c : Z) (input : string) (n : narration) (p : preview) :
  handleQuery analyses container queryCount input = (c, GoodMatch n p) ->
  let a := nar_analysis n in
  let family := if String.eqb (outcome a) "turnout"
                then "turnout" else "dem_share" in
  let b := findAnalysis analyses family "quadratic" None None in
  nar_baseline n = b /\ pre_baseline p = b
  /\ pre_plot p = updateCoefPlot container b a (outcome_label (outcome a))
  /\ (In (outcome a)
         ["dem_share"; "dem_share_pres"; "dem_share_gov"; "dem_share_sen"]
      /\ family = "dem_share"
      \/ outcome a = "turnout" /\ family = "turnout")
  /\ (forall r, b = Some r ->
        In r analyses /\ outcome r = family /\ specification r = "quadratic"
        /\ state_filter r = None /\ time_window r = None
        /\ weighted r = false /\ cluster r = "county")
  /\ (forall queryCount2 c2 input2 n2 p2,
        handleQuery analyses container queryCount2 input2
        = (c2, GoodMatch n2 p2) ->
        (outcome (nar_analysis n2) = "turnout" <-> outcome a = "turnout") ->
        nar_baseline n2 = b /\ pre_baseline p2 = b).
Proof.
  intros H a family b.
  destruct (handleQuery_good _ _ _ _ _ _ _ H) as (a0 & _ & Hr & _ & Hn & Hp).
  assert (Ha : a = a0) by (unfold a; rewrite Hn; reflexivity).
  subst a0. rewrite Hn, Hp.
  cbn [nar_baseline pre_baseline pre_plot addMessage].
  split; [reflexivity|]. split; [reflexivity|]. split; [reflexivity|].
  split; [|split].
  - destruct (relevant_cases a Hr) as [Ht|Hv].
    + right. unfold family. rewrite Ht. split; reflexivity.
    + left. split; [exact Hv|]. unfold family.
      destruct Hv as [<-|[<-|[<-|[<-|[]]]]]; reflexivity.
  - intros r Hb. exact (findAnalysis_sound analyses family "quadratic" r Hb).
  - intros queryCount2 c2 input2 n2 p2 H2 Hfam.
    destruct (handleQuery_good _ _ _ _ _ _ _ H2)
      as (a2 & _ & _ & _ & Hn2 & Hp2).
    rewrite Hn2 in Hfam |- *. rewrite Hp2.
    cbn [nar_baseline nar_analysis pre_baseline addMessage] in Hfam |- *.
    rewrite (getBaseline_family analyses (outcome a2) (outcome a) Hfam).
    split; reflexivity.
Qed.

Lemma baseline_is_fixed_witness :
  let base := sample "dem_share" "quadratic" None None false in
  let pres := sample "dem_share_pres" "basic" None None false in
  exists n p,
    handleQuery [pres; base] true 0 "presidential elections only"
    = (1, GoodMatch n p)
    /\ nar_analysis n = pres
    /\ nar_baseline n = Some base /\ pre_baseline p = Some base.
Proof.
  cbv zeta.
  eexists. eexists.
  split; [vm_compute; reflexivity|].
  split; [reflexivity|].
  destruct (baseline_is_fixed
              [sample "dem_share_pres" "basic" None None false;
               sample "dem_share" "quadratic" None None false]
              true 0 1 "presidential elections only" _ _ eq_refl)
    as (H1 & H2 & _).
  split; [exact H1 | exact H2].
Defined.

(** ** Formatting *)

Section Comparisons.
Local Open Scope float_scope.

Lemma SFcompare_antisym a b :
  SFcompare b a = option_map CompOpp (SFcompare a b).
Proof.
  destruct a as [sa|sa| |sa ma ea], b as [sb|sb| |sb mb eb]; simpl;
    try destruct sa; try destruct sb; simpl; try reflexivity;
    rewrite (Z.compare_antisym ea eb);
    destruct (ea ?= eb)%Z; simpl; try reflexivity;
    rewrite ?Pos.compare_cont_antisym; simpl; reflexivity.
Qed.

(** [x <= y] excludes [y < x]. *)
Lemma leb_not_ltb x y : (x <=? y) = true -> (y <? x) = false.
Proof.
  rewrite leb_spec, ltb_spec. unfold SFleb, SFltb.
  rewrite (SFcompare_antisym (Prim2SF x) (Prim2SF y)).
  destruct (SFcompare (Prim2SF x) (Prim2SF y)) as [[ | | ]|]; simpl;
    congruence.
Qed.

(** [x < y] excludes [y <= x]. *)
Lemma ltb_not_leb x y : (x <? y) = true -> (y <=? x) = false.
Proof.
  rewrite leb_spec, ltb_spec. unfold SFleb, SFltb.
  rewrite (SFcompare_antisym (Prim2SF x) (Prim2SF y)).
  destruct (SFcompare (Prim2SF x) (Prim2SF y)) as [[ | | ]|]; simpl;
    congruence.
Qed.

End Comparisons.

Section Decimals.
Import JSNumber.

Lemma length_app (s1 s2 : string) :
  String.length (s1 ++ s2) = (String.length s1 + String.length s2)%nat.
Proof. induction s1 as [|c s1 IH]; simpl; [reflexivity|now rewrite IH]. Qed.

Lemma all_digits_app s1 s2 :
  all_digits (s1 ++ s2) = all_digits s1 && all_digits s2.
Proof.
  induction s1 as [|c s1 IH]; simpl; [reflexivity|].
  now rewrite IH, andb_assoc.
Qed.

Lemma zeros_length k : String.length (zeros k) = k.
Proof. induction k; simpl; congruence. Qed.

Lemma zeros_digits k : all_digits (zeros k) = true.
Proof. induction k; simpl; auto. Qed.

Lemma uint_digits d : all_digits (NilEmpty.string_of_uint d) = true.
Proof. induction d; simpl; auto. Qed.

Lemma digits_all n : all_digits (digits n) = true.
Proof.
  unfold digits, NilZero.string_of_uint.
  destruct (N.to_uint (Z.to_N n)); try apply uint_digits. reflexivity.
Qed.

(** Cutting a string at [n] loses nothing. *)
Lemma substring_split s : forall n, (n <= String.length s)%nat ->
  substring 0 n s ++ substring n (String.length s - n) s = s.
Proof.
  induction s as [|c s IH]; intros n Hn.
  - simpl in Hn. assert (n = 0)%nat by lia. subst. reflexivity.
  - destruct n as [|n].
    + simpl. f_equal. specialize (IH 0%nat ltac:(lia)).
      rewrite Nat.sub_0_r in IH. destruct (String.length s); simpl in *.
      * destruct s; [reflexivity|discriminate].
      * destruct s; simpl in *; congruence.
    + simpl. f_equal. apply IH. simpl in Hn. lia.
Qed.

Lemma substring_length s : forall n m, (n + m <= String.length s)%nat ->
  String.length (substring n m s) = m.
Proof.
  induction s as [|c s IH]; intros n m H; simpl in H.
  - assert (n = 0 /\ m = 0)%nat as [-> ->] by lia. reflexivity.
  - destruct n as [|n]; simpl.
    + destruct m as [|m]; simpl; [reflexivity|].
      f_equal. apply IH. lia.
    + apply IH. lia.
Qed.

(** The point is placed before the last [f] digits, and at least one
    digit is left before it. *)
Lemma place_point_shape f m :
  (0 < f)%nat -> all_digits m = true ->
  exists int frac,
    place_point f m = int ++ "." ++ frac
    /\ int <> EmptyString /\ String.length frac = f
    /\ all_digits (int ++ frac) = true.
Proof.
  intros Hf Hm. unfold place_point. destruct f as [|f]; [lia|].
  set (m' := if Nat.leb (String.length m) (S f)
             then zeros (S f + 1 - String.length m) ++ m else m).
  assert (Hlen : (S f + 1 <= String.length m')%nat).
  { unfold m'. destruct (Nat.leb (String.length m) (S f)) eqn:E.
    - apply Nat.leb_le in E. rewrite length_app, zeros_length. lia.
    - apply Nat.leb_gt in E. lia. }
  assert (Hd : all_digits m' = true).
  { unfold m'. destruct (Nat.leb (String.length m) (S f)); auto.
    now rewrite all_digits_app, zeros_digits. }
  exists (substring 0 (String.length m' - S f) m'),
         (substring (String.length m' - S f) (S f) m').
  split; [reflexivity|].
  assert (Hsplit : substring 0 (String.length m' - S f) m'
                   ++ substring (String.length m' - S f) (S f) m' = m').
  { pose proof (substring_split m' (String.length m' - S f) ltac:(lia))
      as Hs.
    replace (String.length m' - (String.length m' - S f))%nat
      with (S f) in Hs by lia.
    exact Hs. }
  repeat split.
  - intros Hint.
    assert (Hl : String.length (substring 0 (String.length m' - S f) m')
                 = (String.length m' - S f)%nat)
      by (apply substring_length; lia).
    rewrite Hint in Hl. simpl in Hl. lia.
  - apply substring_length. lia.
  - now rewrite Hsplit.
Qed.

(** A plain number is shown by [toFixed(f)] to exactly [f] places. *)
Lemma toFixed_plain f x :
  (0 < f)%nat -> plain x = true ->
  exists txt, toFixed f x = Some txt /\ shown_to f txt.
Proof.
  intros Hf Hp. unfold plain in Hp. unfold toFixed.
  destruct (Prim2SF x) as [s|s| |s m e]; try discriminate.
  - destruct (place_point_shape f "0" Hf eq_refl)
      as (int & frac & He & Hi & Hl & Hd).
    eexists. split; [reflexivity|].
    exists EmptyString, int, frac. rewrite He. auto.
  - apply negb_true_iff in Hp. rewrite Hp.
    destruct (place_point_shape f (digits (scaled f m e)) Hf (digits_all _))
      as (int & frac & He & Hi & Hl & Hd).
    eexists. split; [reflexivity|].
    exists (if s then "-" else EmptyString), int, frac. rewrite He.
    repeat split; auto. destruct s; auto.
Qed.

End Decimals.

Section Stars.
Local Open Scope float_scope.

(** Being below a positive finite number is kept when its exponent grows. *)
Lemma SFltb_widen x m1 e1 m2 e2 :
  (e1 < e2)%Z ->
  SFltb x (S754_finite false m1 e1) = true ->
  SFltb x (S754_finite false m2 e2) = true.
Proof.
  intros He. unfold SFltb.
  destruct x as [s|s| |s m e]; simpl;
    [congruence | destruct s; congruence | congruence |].
  destruct s; simpl; [congruence|].
  destruct (e ?= e1)%Z eqn:E; try discriminate.
  - apply Z.compare_eq in E. subst e.
    rewrite (proj2 (Z.compare_lt_iff e1 e2) He). reflexivity.
  - change (e < e1)%Z in E.
    assert (E2 : (e < e2)%Z) by lia.
    unfold Z.lt in E2. rewrite E2. reflexivity.
Qed.

(** The three thresholds are nested. *)
Lemma below_001_below_005 p : (p <? 0.01) = true -> (p <? 0.05) = true.
Proof.
  rewrite !ltb_spec.
  let c1 := eval vm_compute in (Prim2SF 0.01) in
  let c2 := eval vm_compute in (Prim2SF 0.05) in
  change (Prim2SF 0.01) with c1; change (Prim2SF 0.05) with c2.
  apply SFltb_widen. reflexivity.
Qed.

Lemma below_005_below_01 p : (p <? 0.05) = true -> (p <? 0.1) = true.
Proof.
  rewrite !ltb_spec.
  let c1 := eval vm_compute in (Prim2SF 0.05) in
  let c2 := eval vm_compute in (Prim2SF 0.1) in
  change (Prim2SF 0.05) with c1; change (Prim2SF 0.1) with c2.
  apply SFltb_widen. reflexivity.
Qed.

(** The stars as a function of the p-value, case by case. *)
Lemma stars_cases a :
  let p := p_value a in
  let stars := getSignificanceStars (Some a) in
  ((p <? 0.01) = true -> stars = "***")
  /\ ((0.01 <=? p) = true -> (p <? 0.05) = true -> stars = "**")
  /\ ((0.05 <=? p) = true -> (p <? 0.1) = true -> stars = "*")
  /\ ((0.1 <=? p) = true -> stars = EmptyString).
Proof.
  intros p stars. unfold stars, getSignificanceStars. fold p.
  pose proof (below_001_below_005 p) as H1.
  pose proof (below_005_below_01 p) as H2.
  repeat split.
  - intros ->. reflexivity.
  - intros Hge Hlt. now rewrite (leb_not_ltb _ _ Hge), Hlt.
  - intros Hge Hlt. pose proof (leb_not_ltb _ _ Hge) as Hn.
    destruct (p <? 0.01); [now rewrite H1 in Hn|].
    now rewrite Hn, Hlt.
  - intros Hge. pose proof (leb_not_ltb _ _ Hge) as Hn.
    destruct (p <? 0.05); [now rewrite H2 in Hn|].
    destruct (p <? 0.01); [discriminate (H1 eq_refl)|].
    now rewrite Hn.
Qed.

(** [formatCell] computes the same stars as [getSignificanceStars]. *)
Lemma formatCell_shape a c e :
  success a = true ->
  JSNumber.toFixed 3 (coefficient a) = Some c ->
  JSNumber.toFixed 3 (std_error a) = Some e ->
  formatCell (Some a) =
  Some (newline ++ "        <div class=" ++ dquote ++ "coefficient "
        ++ (if PrimFloat.ltb (p_value a) 0.05%float
            then "significant" else EmptyString)
        ++ dquote ++ ">" ++ c ++ getSignificanceStars (Some a) ++ "</div>"
        ++ newline ++ "        <div class=" ++ dquote ++ "std-error"
        ++ dquote ++ ">(" ++ e ++ ")</div>" ++ newline ++ "    ")%string.
Proof.
  intros Hs Hc He. unfold formatCell. rewrite Hs, Hc, He. reflexivity.
Qed.

End Stars.

(** [toFixed] rounds to the nearest multiple of [10^-f], upwards on a tie:
    the integer it prints is within one half of the scaled value. *)
Lemma round_half_up_nearest (num den : Z) :
  0 < den ->
  let n := JSNumber.round_half_up num den in
  2 * num - den < 2 * den * n <= 2 * num + den.
Proof.
  intros Hd n. unfold n, JSNumber.round_half_up.
  pose proof (Z.div_mod (2 * num + den) (2 * den) ltac:(lia)) as Hdm.
  pose proof (Z.mod_pos_bound (2 * num + den) (2 * den) ltac:(lia)) as Hb.
  lia.
Qed.

(** C8: a cell of a successful record shows the coefficient to three decimal
    places followed by the stars, and the standard error to three decimal
    places in parentheses; the stars are three when the p-value is below
    0.01, two from 0.01 and below 0.05, one from 0.05 and below 0.1, none
    from 0.1 (so three for 0.004, two for 0.04, one for 0.08, none for
    0.5); the cell is the missing glyph when the record is absent or marked
    unsuccessful.  The numbers are binary64 values, the thresholds those the
    literals denote, and the statistics are of magnitude below [10^21]. *)
Theorem formatCell_stars (a : analysis) :
  success a = true ->
  plain (coefficient a) = true ->
  plain (std_error a) = true ->
  let p := p_value a in
  exists c e stars,
    JSNumber.toFixed 3 (coefficient a) = Some c /\ shown_to 3 c
    /\ JSNumber.toFixed 3 (std_error a) = Some e /\ shown_to 3 e
    /\ formatCell (Some a) =
       Some (newline ++ "        <div class=" ++ dquote ++ "coefficient "
             ++ (if PrimFloat.ltb p 0.05%float
                 then "significant" else EmptyString)
             ++ dquote ++ ">" ++ c ++ stars ++ "</div>"
             ++ newline ++ "        <div class=" ++ dquote ++ "std-error"
             ++ dquote ++ ">(" ++ e ++ ")</div>" ++ newline ++ "    ")
    /\ stars = getSignificanceStars (Some a)
    /\ (PrimFloat.ltb p 0.01%float = true -> stars = "***")
    /\ (PrimFloat.leb 0.01%float p = true -> PrimFloat.ltb p 0.05%float = true ->
        stars = "**")
    /\ (PrimFloat.leb 0.05%float p = true -> PrimFloat.ltb p 0.1%float = true ->
        stars = "*")
    /\ (PrimFloat.leb 0.1%float p = true -> stars = EmptyString)
    /\ (p = 0.004%float -> stars = "***")
    /\ (p = 0.04%float -> stars = "**")
    /\ (p = 0.08%float -> stars = "*")
    /\ (p = 0.5%float -> stars = EmptyString)
    /\ formatCell None = Some missing_glyph
    /\ (forall b, success b = false -> formatCell (Some b) = Some missing_glyph).
Proof.
  intros Hs Hc He p.
  destruct (toFixed_plain 3 (coefficient a) ltac:(lia) Hc) as (c & Hfc & Hsc).
  destruct (toFixed_plain 3 (std_error a) ltac:(lia) He) as (e & Hfe & Hse).
  destruct (stars_cases a) as (S3 & S2 & S1 & S0).
  exists c, e, (getSignificanceStars (Some a)).
  split; [exact Hfc|]. split; [exact Hsc|].
  split; [exact Hfe|]. split; [exact Hse|].
  split; [exact (formatCell_shape a c e Hs Hfc Hfe)|].
  split; [reflexivity|].
  split; [exact S3|]. split; [exact S2|]. split; [exact S1|].
  split; [exact S0|].
  unfold getSignificanceStars. fold p.
  split; [intros ->; reflexivity|]. split; [intros ->; reflexivity|].
  split; [intros ->; reflexivity|]. split; [intros ->; reflexivity|].
  split; [reflexivity|].
  intros b Hb. unfold formatCell. now rewrite Hb.
Qed.

Lemma formatCell_stars_witness :
  exists c e,
    shown_to 3 c /\ shown_to 3 e
    /\ formatCell (Some (sample "dem_share" "basic" None None false)) =
       Some (newline ++ "        <div class=" ++ dquote
             ++ "coefficient significant" ++ dquote ++ ">" ++ c ++ "***"
             ++ "</div>" ++ newline ++ "        <div class=" ++ dquote
             ++ "std-error" ++ dquote ++ ">(" ++ e ++ ")</div>" ++ newline
             ++ "    ").
Proof.
  destruct (formatCell_stars (sample "dem_share" "basic" None None false)
              eq_refl eq_refl eq_refl)
    as (c & e & stars & _ & Hc & _ & He & Hcell & _ & _ & _ & _ & _ & H3 & _).
  exists c, e. split; [exact Hc|]. split; [exact He|].
  rewrite (H3 eq_refl) in Hcell. exact Hcell.
Defined.

(** The four p-values of the claim, through both star functions. *)
Lemma stars_examples :
  let r := sample "dem_share" "basic" None None false in
  map (fun p => getSignificanceStars (Some (with_p_value r p)))
      [0.004%float; 0.04%float; 0.08%float; 0.5%float]
  = ["***"; "**"; "*"; EmptyString]
  /\ formatCell (Some r)
     = Some (newline ++ "        <div class=" ++ dquote
             ++ "coefficient significant" ++ dquote ++ ">0.024***</div>"
             ++ newline ++ "        <div class=" ++ dquote ++ "std-error"
             ++ dquote ++ ">(0.007)</div>" ++ newline ++ "    ")
  /\ JSNumber.toFixed 3 (-0.0004)%float = Some "-0.000"
  /\ JSNumber.toFixed 3 1.0005%float = Some "1.000"
  /\ JSNumber.toFixed 2 2.5%float = Some "2.50".
Proof. vm_compute. repeat split; reflexivity. Qed.

(** ** The coefficient plot without a baseline *)

(** With no baseline, [renderCoefPlot] draws the row of the current record
    alone, at the second row position. *)
Lemma renderCoefPlot_single (a : analysis) (outcomeLabel : string)
  (filterDesc : option string) :
  exists plot row,
    renderCoefPlot true None (Some a) outcomeLabel filterDesc = Some plot
    /\ plot_rows plot = [row]
    /\ row_y row = 60%float
    /\ row_label row = (if JSString.truthy filterDesc
                        then match filterDesc with
                             | Some d => d | None => EmptyString end
                        else "Current specification")
    /\ row_text row =
       option_map (fun t => t ++ getSignificanceStars (Some a))
                  (JSNumber.toFixed 4 (coefficient a))
    /\ plot_caption plot = outcomeLabel.
Proof.
  unfold renderCoefPlot. cbn [negb present flat_map app map].
  eexists. eexists. split; [reflexivity|]. cbn [plot_rows app].
  split; [reflexivity|]. cbn [draw_row row_y row_label row_text plot_caption].
  repeat split; reflexivity.
Qed.

(** For records whose statistics are numbers: when the baseline that
    [getBaseline] asks for is absent from the corpus, [addMessage] redraws
    the plot with the row of the matched record as its only row. *)
Lemma addMessage_single_row (analyses : list analysis) (a : analysis) :
  getBaseline analyses (outcome a) = None ->
  exists plot row,
    pre_plot (addMessage analyses true a) = Some plot
    /\ updateCoefPlot true None a (outcome_label (outcome a)) = Some plot
    /\ plot_rows plot = [row]
    /\ row_label row = (if JSString.truthy (filter_desc a)
                        then match filter_desc a with
                             | Some d => d | None => EmptyString end
                        else "This specification")
    /\ row_text row =
       option_map (fun t => t ++ getSignificanceStars (Some a))
                  (JSNumber.toFixed 4 (coefficient a))
    /\ plot_caption plot = outcome_label (outcome a).
Proof.
  intros Hb. unfold addMessage. cbn [pre_plot]. rewrite Hb.
  unfold updateCoefPlot.
  destruct (renderCoefPlot_single a (outcome_label (outcome a))
              (Some (if JSString.truthy (filter_desc a)
                     then match filter_desc a with
                          | Some d => d | None => EmptyString end
                     else "This specification")))
    as (plot & row & Hr & Hrows & _ & Hl & Ht & Hcap).
  exists plot, row. rewrite Hr.
  split; [reflexivity|]. split; [reflexivity|]. split; [exact Hrows|].
  split; [|split; [exact Ht|exact Hcap]].
  rewrite Hl.
  destruct (filter_desc a) as [[|ch d]|]; reflexivity.
Qed.

Lemma addMessage_single_row_example :
  exists plot row,
    pre_plot (addMessage [sample "turnout" "basic" (Some "CA") None false]
                true (sample "turnout" "basic" (Some "CA") None false))
    = Some plot
    /\ plot_rows plot = [row]
    /\ row_label row = "This specification"
    /\ row_text row = Some "0.0240***".
Proof.
  destruct (addMessage_single_row
              [sample "turnout" "basic" (Some "CA") None false]
              (sample "turnout" "basic" (Some "CA") None false) eq_refl)
    as (plot & row & H1 & _ & H2 & H3 & H4 & _).
  exists plot, row.
  split; [exact H1|]. split; [exact H2|]. split; [exact H3|exact H4].
Qed.

(** On a record with a numeric coefficient the plot is the one of the
    record as numbers, whatever its other statistics. *)
Lemma renderCoefPlot_raw_numbers (baseline current : option Raw.analysis)
  (outcomeLabel : string) (filterDesc : option string) :
  (forall b, baseline = Some b -> Raw.coefficient b <> None) ->
  (forall c, current = Some c -> Raw.coefficient c <> None) ->
  renderCoefPlot_raw true baseline current outcomeLabel filterDesc
  = Normal (renderCoefPlot true (option_map numbers baseline)
              (option_map numbers current) outcomeLabel filterDesc).
Proof.
  intros Hb Hc. unfold renderCoefPlot_raw. cbn [negb].
  destruct baseline as [b|].
  - specialize (Hb b eq_refl). destruct (Raw.coefficient b); [|congruence].
    cbn [is_null]. destruct current as [c|]; [|reflexivity].
    specialize (Hc c eq_refl). destruct (Raw.coefficient c); [|congruence].
    reflexivity.
  - destruct current as [c|]; [|reflexivity].
    specialize (Hc c eq_refl). destruct (Raw.coefficient c); [|congruence].
    reflexivity.
Qed.

(** A row whose coefficient is [null] makes the call throw, on either
    row. *)
Lemma renderCoefPlot_raw_throws (baseline current : option Raw.analysis)
  (outcomeLabel : string) (filterDesc : option string) :
  (exists b, baseline = Some b /\ Raw.coefficient b = None)
  \/ (exists c, current = Some c /\ Raw.coefficient c = None) ->
  renderCoefPlot_raw true baseline current outcomeLabel filterDesc
  = TypeError.
Proof.
  intros [(b & -> & Hb)|(c & -> & Hc)]; unfold renderCoefPlot_raw;
    cbn [negb].
  - rewrite Hb. reflexivity.
  - rewrite Hc. cbn [is_null].
    destruct baseline as [b|]; [|reflexivity].
    destruct (is_null (Raw.coefficient b)); reflexivity.
Qed.

(** C9: the code at the failing input, and for every matched record.  The
    corpus holds one record, of a regression on California turnout that did
    not run ([success] false, statistics [null]), and no baseline.  The
    matcher reads the key fields only and returns that record for "turnout
    in California" with a confidence above the threshold; [formatCell]
    guards it with [success] and the preview of [addMessage] with [?.], but
    [updateCoefPlot] reaches [cCoef.toFixed(4)] on [null] and throws: no
    plot is drawn.  In general, with the baseline absent, the call draws
    the single row of the matched record exactly when that record's
    coefficient is a number, and throws otherwise. *)
Theorem plot_without_baseline_throws_on_null :
  let e := failed_run "turnout" "basic" (Some "CA") None false in
  let q := "turnout in California" in
  (m_analysis (findBestMatchKeyword [numbers e] q) = Some (numbers e)
   /\ PrimFloat.ltb (m_similarity (findBestMatchKeyword [numbers e] q))
        SIMILARITY_THRESHOLD = false
   /\ getBaseline [numbers e] (Raw.outcome e) = None
   /\ formatCell_raw (Some e) = Normal (Some missing_glyph)
   /\ addMessage_raw true None e = (Some "undefined", TypeError))
  /\ forall (r : Raw.analysis) (outcomeLabel : string),
       match Raw.coefficient r with
       | None => updateCoefPlot_raw true None r outcomeLabel = TypeError
       | Some c =>
           exists plot row,
             updateCoefPlot_raw true None r outcomeLabel = Normal (Some plot)
             /\ updateCoefPlot true None (numbers r) outcomeLabel = Some plot
             /\ plot_rows plot = [row]
             /\ row_label row =
                (if JSString.truthy (Raw.filter_desc r)
                 then match Raw.filter_desc r with
                      | Some d => d | None => EmptyString end
                 else "This specification")
             /\ row_text row =
                option_map
                  (fun t => t ++ getSignificanceStars (Some (numbers r)))
                  (JSNumber.toFixed 4 c)
             /\ plot_caption plot = outcomeLabel
       end.
Proof.
  intros e q. split.
  { vm_compute. repeat split; reflexivity. }
  intros r outcomeLabel.
  destruct (Raw.coefficient r) as [c|] eqn:Hc.
  - set (fd := Some (if JSString.truthy (Raw.filter_desc r)
                     then match Raw.filter_desc r with
                          | Some d => d | None => EmptyString end
                     else "This specification")).
    destruct (renderCoefPlot_single (numbers r) outcomeLabel fd)
      as (plot & row & Hr & Hrows & _ & Hl & Ht & Hcap).
    exists plot, row.
    split.
    { unfold updateCoefPlot_raw. fold fd.
      rewrite renderCoefPlot_raw_numbers.
      - cbn [option_map]. now rewrite Hr.
      - intros b Hb. discriminate.
      - intros c' Hc'. injection Hc' as <-. rewrite Hc. discriminate. }
    split; [exact Hr|]. split; [exact Hrows|].
    split; [|split; [|exact Hcap]].
    + rewrite Hl. unfold fd.
      destruct (Raw.filter_desc r) as [[|ch d]|]; reflexivity.
    + rewrite Ht. cbn [numbers coefficient ToNumber]. rewrite Hc.
      reflexivity.
  - unfold updateCoefPlot_raw. apply renderCoefPlot_raw_throws.
    right. eexists. split; [reflexivity|exact Hc].
Qed.

(** The same record with its statistics is drawn alone; and a [null]
    baseline coefficient throws in the same way. *)
Lemma updateCoefPlot_raw_examples :
  let done := completed_run "turnout" "basic" (Some "CA") None false in
  let failed := failed_run "turnout" "quadratic" None None false in
  option_map (fun pl => map row_text (plot_rows pl))
    (match updateCoefPlot_raw true None done "Voter Turnout" with
     | Normal pl => pl
     | TypeError => None
     end)
  = Some [Some "0.0240***"]
  /\ addMessage_raw true None done
     = (Some "0.0240", updateCoefPlot_raw true None done "Voter Turnout")
  /\ updateCoefPlot_raw true (Some failed) done "Voter Turnout" = TypeError
  /\ formatCell_raw (Some done) = Normal (formatCell (Some (numbers done))).
Proof. vm_compute. repeat split; reflexivity. Qed.

(** With a baseline present the plot has both rows, the baseline first. *)
Lemma plot_with_baseline :
  let base := sample "dem_share" "quadratic" None None false in
  let cur := sample "dem_share" "basic" (Some "CA") None false in
  option_map (fun pl => map row_label (plot_rows pl))
    (pre_plot (addMessage [base; cur] true cur))
  = Some ["Baseline (quad. trends)"; "This specification"].
Proof. vm_compute. reflexivity. Qed.

(** ** A corpus without relevant records *)

(** C10: when no record of the corpus has one of the five relevant outcomes
    (an empty corpus for one), [findBestMatchKeyword] returns a null
    analysis with confidence exactly 0, [handleQuery] takes the fallback
    path, and the prompt is built from the null record, reading "None
    found" and a similarity of 0.00; neither the matcher nor the prompt
    builder fails. *)
Theorem no_relevant_record_fallback (analyses : list analysis)
  (container : bool) (queryCount : Z) (input : string) :
  (forall a, In a analyses -> relevant a = false) ->
  JSString.trim input <> EmptyString ->
  queryCount < MAX_QUERIES_PER_HOUR ->
  findBestMatchKeyword analyses (JSString.trim input)
  = {| m_analysis := None; m_similarity := 0%float |}
  /\ handleQuery analyses container queryCount input
     = (queryCount + 1,
        NoGoodMatch (Some (String.concat newline
          [ "You are an assistant helping users explore robustness checks for a vote-by-mail study.";
            EmptyString;
            "The user asked a question, but the best match has low confidence (similarity: 0.00).";
            EmptyString;
            "Best available match: None found";
            EmptyString;
            availableAnalyses;
            EmptyString;
            "Respond briefly (2-3 sentences) by:";
            "1. Acknowledging you don't have that exact analysis pre-computed";
            "2. Suggesting the closest available alternative OR explaining what analyses ARE available" ]))).
Proof.
  intros Hnone Hq Hc.
  assert (Hm : findBestMatchKeyword analyses (JSString.trim input)
               = {| m_analysis := None; m_similarity := 0%float |}).
  { unfold findBestMatchKeyword.
    rewrite (best_of_none_relevant _ _ Hnone). reflexivity. }
  split; [exact Hm|].
  rewrite (handleQuery_branch analyses container queryCount input Hq Hc).
  cbv zeta. rewrite Hm. reflexivity.
Qed.

Lemma no_relevant_record_fallback_witness :
  findBestMatchKeyword [] (JSString.trim "What about third-party vote share?")
  = {| m_analysis := None; m_similarity := 0%float |}
  /\ exists prompt,
       handleQuery [] true 3 "What about third-party vote share?"
       = (3 + 1, NoGoodMatch (Some prompt)).
Proof.
  destruct (no_relevant_record_fallback [] true 3
              "What about third-party vote share?") as [H1 H2].
  - intros a [].
  - vm_compute. discriminate.
  - reflexivity.
  - split; [exact H1|]. eexists. exact H2.
Defined.

(** * Further properties *)

(** ** Which record the matcher returns *)

Section FirstMaximum.
Variable t : targets.

Lemma score_step_first_maximum seen best a :
  first_maximum t seen best ->
  first_maximum t (seen ++ [a])%list (score_step t best a).
Proof.
  intros Hinv. unfold score_step. fold (relevant a).
  unfold first_maximum in *.
  destruct (relevant a) eqn:Hr; cbn [negb].
  - destruct (snd best <? score t a) eqn:Hlt.
    + apply Z.ltb_lt in Hlt. cbn [fst snd].
      exists seen, []. split; [reflexivity|]. split; [exact Hr|].
      split; [reflexivity|].
      destruct (fst best) as [a0|].
      * destruct Hinv as (before & after & -> & Hr0 & Hs & Hpos & Hb & Ha).
        split; [lia|]. split; [|intros b []].
        intros b Hin Hrb. apply in_app_or in Hin.
        destruct Hin as [Hin|[<-|Hin]].
        -- specialize (Hb b Hin Hrb). lia.
        -- lia.
        -- specialize (Ha b Hin Hrb). lia.
      * destruct Hinv as [Hs Hall]. split; [lia|]. split; [|intros b []].
        intros b Hin Hrb. specialize (Hall b Hin Hrb). lia.
    + apply Z.ltb_ge in Hlt.
      destruct (fst best) as [a0|].
      * destruct Hinv as (before & after & -> & Hr0 & Hs & Hpos & Hb & Ha).
        exists before, (after ++ [a])%list.
        split; [now rewrite <- app_assoc|]. repeat split; auto.
        intros b Hin Hrb. apply in_app_or in Hin.
        destruct Hin as [Hin|[<-|[]]]; [auto|lia].
      * destruct Hinv as [Hs Hall]. split; [exact Hs|].
        intros b Hin Hrb. apply in_app_or in Hin.
        destruct Hin as [Hin|[<-|[]]]; [auto|lia].
  - destruct (fst best) as [a0|].
    + destruct Hinv as (before & after & -> & Hr0 & Hs & Hpos & Hb & Ha).
      exists before, (after ++ [a])%list.
      split; [now rewrite <- app_assoc|]. repeat split; auto.
      intros b Hin Hrb. apply in_app_or in Hin.
      destruct Hin as [Hin|[<-|[]]]; [auto|congruence].
    + destruct Hinv as [Hs Hall]. split; [exact Hs|].
      intros b Hin Hrb. apply in_app_or in Hin.
      destruct Hin as [Hin|[<-|[]]]; [auto|congruence].
Qed.

Lemma fold_first_maximum l : forall seen best,
  first_maximum t seen best ->
  first_maximum t (seen ++ l)%list (fold_left (score_step t) l best).
Proof.
  induction l as [|a l IH]; intros seen best Hinv; simpl.
  - now rewrite app_nil_r.
  - replace (seen ++ a :: l)%list with ((seen ++ [a]) ++ l)%list
      by (now rewrite <- app_assoc).
    apply IH. now apply score_step_first_maximum.
Qed.

Lemma best_of_first_maximum analyses :
  first_maximum t analyses (best_of t analyses).
Proof.
  unfold best_of. apply (fold_first_maximum analyses [] (None, 0)).
  split; [reflexivity|]. intros b [].
Qed.

End FirstMaximum.

(** X1: the record returned by [findBestMatchKeyword] is a relevant record
    of the corpus whose score is positive and gives the confidence; no
    relevant record scores more, and every relevant record before it in the
    corpus scores strictly less (ties go to the first record found). *)
Theorem best_match_is_first_maximum (analyses : list analysis)
  (query : string) (a : analysis) :
  m_analysis (findBestMatchKeyword analyses query) = Some a ->
  let t := interpret query in
  exists before after,
    analyses = (before ++ a :: after)%list
    /\ relevant a = true
    /\ m_similarity (findBestMatchKeyword analyses query)
       = similarity (score t a)
    /\ 0 < score t a
    /\ (forall b, In b before -> relevant b = true -> score t b < score t a)
    /\ (forall b, In b after -> relevant b = true -> score t b <= score t a).
Proof.
  intros Hm. cbv zeta.
  pose proof (best_of_first_maximum (interpret query) analyses) as H.
  unfold first_maximum in H. unfold findBestMatchKeyword in *.
  cbn [m_analysis m_similarity] in *. rewrite Hm in H.
  destruct H as (before & after & He & Hr & Hs & Hpos & Hb & Ha).
  exists before, after. rewrite Hs. auto 10.
Qed.

Lemma best_match_is_first_maximum_witness :
  let first := sample "dem_share" "basic" None None false in
  let tie := with_p_value first 0.5%float in
  score (interpret "vote share") tie = score (interpret "vote share") first
  /\ exists before after,
       [sample "turnout" "linear" None None false; first; tie]
       = (before ++ first :: after)%list
       /\ (forall b, In b before -> relevant b = true ->
             score (interpret "vote share") b
             < score (interpret "vote share") first).
Proof.
  cbv zeta. split; [reflexivity|].
  destruct (best_match_is_first_maximum
              [sample "turnout" "linear" None None false;
               sample "dem_share" "basic" None None false;
               with_p_value (sample "dem_share" "basic" None None false)
                 0.5%float]
              "vote share"
              (sample "dem_share" "basic" None None false) eq_refl)
    as (before & after & He & _ & _ & _ & Hb & _).
  exists before, after. split; [exact He | exact Hb].
Defined.

(** X2: [findBestMatchKeyword] returns no record exactly when every
    relevant record of the corpus scores 0, and then the confidence is 0. *)
Theorem null_match_iff_all_scores_zero (analyses : list analysis)
  (query : string) :
  let t := interpret query in
  let m := findBestMatchKeyword analyses query in
  (m_analysis m = None <->
   forall b, In b analyses -> relevant b = true -> score t b = 0)
  /\ (m_analysis m = None -> m_similarity m = 0%float).
Proof.
  cbv zeta. set (t := interpret query).
  pose proof (best_of_first_maximum t analyses) as H.
  unfold first_maximum in H. unfold findBestMatchKeyword.
  cbn [m_analysis m_similarity]. fold t.
  destruct (fst (best_of t analyses)) as [a|] eqn:Hf.
  - destruct H as (before & after & He & Hr & Hs & Hpos & _).
    split; [|discriminate]. split; [discriminate|].
    intros Hall. assert (Hin : In a analyses).
    { rewrite He. apply in_or_app. right. now left. }
    specialize (Hall a Hin Hr). lia.
  - destruct H as [Hs Hall]. split.
    + split; [|reflexivity]. intros _ b Hin Hr.
      pose proof (score_range t b). specialize (Hall b Hin Hr). lia.
    + intros _. rewrite Hs. reflexivity.
Qed.

(** ** What a confident match means *)

Section Agreement.
Variable t : targets.

Lemma filter_score_ten a :
  filter_score t a = 10 ->
  exists f, targetFilter t = Some f /\ state_filter a = Some f.
Proof.
  unfold filter_score.
  destruct (targetFilter t) as [[|c f]|], (state_filter a) as [[|c' f']|];
    cbn -[String.eqb]; try discriminate.
  destruct (String.eqb _ _) eqn:E; [|discriminate].
  apply String.eqb_eq in E. intros _. eexists. split; [reflexivity|].
  now rewrite E.
Qed.

Lemma time_score_ten a :
  time_score t a = 10 ->
  exists w, targetTime t = Some w /\ time_window a = Some w.
Proof.
  unfold time_score.
  destruct (targetTime t) as [[x y]|], (time_window a) as [[x' y']|];
    simpl; try discriminate.
  destruct ((x' =? x) && (y' =? y)) eqn:E; [|discriminate].
  apply andb_prop in E. destruct E as [E1 E2].
  apply Z.eqb_eq in E1, E2. subst. intros _. now eexists.
Qed.

Lemma outcome_score_ten a :
  outcome_score t a = 10 -> targetOutcome t = Some (outcome a).
Proof.
  unfold outcome_score.
  destruct (targetOutcome t) as [[|c o]|]; cbn -[String.eqb].
  - destruct (String.eqb _ _); discriminate.
  - destruct (String.eqb (outcome a) (String c o)) eqn:E; [|discriminate].
    apply String.eqb_eq in E. now rewrite E.
  - destruct (String.eqb _ _); discriminate.
Qed.

Lemma filter_score_values a :
  filter_score t a = 0 \/ filter_score t a = 2 \/ filter_score t a = 10.
Proof. unfold filter_score. repeat destruct (_ && _); auto. Qed.

Lemma time_score_values a :
  time_score t a = 0 \/ time_score t a = 2 \/ time_score t a = 10.
Proof.
  unfold time_score.
  destruct (targetTime t), (time_window a);
    try destruct (json_window_eq _ _); auto.
Qed.

Lemma outcome_score_values a :
  outcome_score t a = 0 \/ outcome_score t a = 1 \/ outcome_score t a = 10.
Proof. unfold outcome_score. repeat destruct (_ && _); auto. Qed.

(** Without a bonus of 10 the five terms add up to 13 at most. *)
Lemma score_without_ten a :
  filter_score t a <> 10 -> time_score t a <> 10 ->
  outcome_score t a <> 10 -> score t a <= 13.
Proof.
  unfold score. pose proof (weighted_score_range t a).
  pose proof (spec_score_range t a).
  pose proof (filter_score_values a). pose proof (time_score_values a).
  pose proof (outcome_score_values a). lia.
Qed.

End Agreement.

(** X3: a query is displayed as a confident match only when its score is 15
    or more, and then the matched record agrees with the query on a state
    filter, a time window or an outcome that the text states: the default
    bonuses, weighting and specification alone never reach the threshold. *)
Theorem confident_match_agrees_explicitly (analyses : list analysis)
  (container : bool) (queryCount c : Z) (input : string) (n : narration)
  (p : preview) :
  handleQuery analyses container queryCount input = (c, GoodMatch n p) ->
  let t := interpret (JSString.trim input) in
  let a := nar_analysis n in
  15 <= score t a
  /\ ((exists f, targetFilter t = Some f /\ state_filter a = Some f)
      \/ (exists w, targetTime t = Some w /\ time_window a = Some w)
      \/ targetOutcome t = Some (outcome a)).
Proof.
  unfold handleQuery, findBestMatchKeyword. cbn [m_analysis m_similarity].
  cbv zeta. set (t := interpret (JSString.trim input)). intros H.
  destruct (negb _); [discriminate|].
  destruct (_ <=? _); [discriminate|].
  destruct (PrimFloat.ltb _ _) eqn:Hlt; [discriminate|].
  pose proof (best_of_coherent t analyses) as Hc.
  pose proof (best_of_range t analyses) as Hr.
  unfold coherent in Hc.
  destruct (fst (best_of t analyses)) as [a|]; [|discriminate].
  simpl in H. inversion H; subst. cbn [nar_analysis].
  destruct Hc as (_ & _ & Hs & _).
  rewrite similarity_below_threshold in Hlt by exact Hr.
  apply Z.ltb_ge in Hlt. rewrite Hs in Hlt.
  split; [exact Hlt|].
  destruct (Z.eq_dec (filter_score t a) 10) as [Hf|Hf];
    [left; now apply filter_score_ten|].
  destruct (Z.eq_dec (time_score t a) 10) as [Ht|Ht];
    [right; left; now apply time_score_ten|].
  destruct (Z.eq_dec (outcome_score t a) 10) as [Ho|Ho];
    [right; right; now apply outcome_score_ten|].
  pose proof (score_without_ten t a Hf Ht Ho). lia.
Qed.

Lemma confident_match_agrees_explicitly_witness :
  (exists f, targetFilter (interpret (JSString.trim "turnout in Utah"))
             = Some f
             /\ state_filter (sample "turnout" "basic" (Some "UT") None false)
                = Some f)
  \/ (exists w, targetTime (interpret (JSString.trim "turnout in Utah"))
                = Some w
                /\ time_window (sample "turnout" "basic" (Some "UT") None false)
                   = Some w)
  \/ targetOutcome (interpret (JSString.trim "turnout in Utah"))
     = Some (outcome (sample "turnout" "basic" (Some "UT") None false)).
Proof.
  exact (proj2 (confident_match_agrees_explicitly
                  [sample "turnout" "basic" (Some "UT") None false]
                  true 0 1 "turnout in Utah" _ _ eq_refl)).
Defined.

(** X4: [handleQuery] never ends in its [catch] block because of the
    matcher: whenever the confidence is not below the threshold a record
    was found, so [generateResponse] is never handed [null]. *)
Theorem handleQuery_never_fails (analyses : list analysis) (container : bool)
  (queryCount : Z) (input : string) :
  snd (handleQuery analyses container queryCount input) <> QueryFailed.
Proof.
  unfold handleQuery, findBestMatchKeyword. cbn [m_analysis m_similarity].
  set (t := interpret (JSString.trim input)).
  destruct (negb _); [discriminate|].
  destruct (_ <=? _); [discriminate|].
  destruct (PrimFloat.ltb _ _) eqn:Hlt; [discriminate|].
  pose proof (best_of_range t analyses) as Hr.
  rewrite similarity_below_threshold in Hlt by exact Hr.
  apply Z.ltb_ge in Hlt.
  destruct (best_of_positive_some t analyses) as (a & Ha & _); [lia|].
  rewrite Ha. discriminate.
Qed.

(** ** The criteria a text can produce *)

Section Criteria.
Variable q : string.

(** The filter after the second pass. *)
Lemma second_pass_filter t :
  targetFilter (second_pass q t) =
  if no_exclude_filter (targetFilter t)
  then state_loop q statePatterns (targetFilter t)
  else targetFilter t.
Proof.
  unfold second_pass. now destruct (no_exclude_filter (targetFilter t)).
Qed.

Lemma first_pass_outcome :
  targetOutcome (first_pass q patterns) =
  hd_error (carried Pattern.outcome (matching q (firstn 5 (skipn 9 patterns)))).
Proof.
  unfold first_pass. rewrite fold_outcome, carried_only.
  replace (filter (fun p => JSString.truthy (Pattern.outcome p)) patterns)
    with (firstn 5 (skipn 9 patterns)) by reflexivity.
  cbn [initial_targets targetOutcome JSString.truthy].
  now destruct (hd_error _).
Qed.

Lemma first_pass_time :
  targetTime (first_pass q patterns) =
  last_error (carried_times (matching q (firstn 3 (skipn 6 patterns)))).
Proof.
  unfold first_pass. rewrite fold_time, carried_times_only.
  replace (filter (fun p => match Pattern.time p with
                            | Some _ => true | None => false end) patterns)
    with (firstn 3 (skipn 6 patterns)) by reflexivity.
  now destruct (last_error _).
Qed.

Lemma first_pass_spec :
  targetSpec (first_pass q patterns) =
  match last_error
          (carried Pattern.spec (matching q (firstn 3 (skipn 14 patterns))))
  with Some v => v | None => "basic" end.
Proof.
  unfold first_pass. rewrite fold_spec, carried_only.
  replace (filter (fun p => JSString.truthy (Pattern.spec p)) patterns)
    with (firstn 3 (skipn 14 patterns)) by reflexivity.
  reflexivity.
Qed.

End Criteria.

(** X5: whatever the text, the interpreted criteria stay within the
    values of the rule tables: the filter is absent or one of the six
    state filters, the time window absent or one of the three windows, the
    outcome absent or one of the five relevant outcomes, and the
    specification basic, linear or quadratic. *)
Theorem intent_domain (query : string) :
  let t := interpret query in
  In (targetFilter t) known_filters
  /\ In (targetTime t) known_times
  /\ In (targetOutcome t) known_outcomes
  /\ In (targetSpec t) known_specs.
Proof.
  cbv zeta. unfold interpret. set (q := JSString.toLowerCase query).
  destruct (second_pass_others q (first_pass q patterns))
    as (Htime & Hout & _ & Hspec).
  rewrite Htime, Hout, Hspec, second_pass_filter.
  rewrite first_pass_filter, first_pass_time, first_pass_outcome,
    first_pass_spec.
  unfold matching, state_loop, statePatterns.
  cbn [firstn skipn patterns filter Pattern.regex Pattern.filter
       Pattern.with_filter Pattern.with_time Pattern.with_outcome
       Pattern.with_spec].
  split; [|split; [|split]].
  - destruct (Regex.test re_exclude_CA q), (Regex.test re_exclude_UT q),
      (Regex.test re_exclude_WA q), (Regex.test re_excl_CA q),
      (Regex.test re_excl_UT q), (Regex.test re_excl_WA q);
      cbn;
      destruct (Regex.test re_CA q), (Regex.test re_UT q),
        (Regex.test re_WA q); cbn; tauto.
  - destruct (Regex.test re_original q), (Regex.test re_post2018 q),
      (Regex.test re_without2024 q); cbn; tauto.
  - destruct (Regex.test re_turnout q), (Regex.test re_pres q),
      (Regex.test re_gov q), (Regex.test re_sen q),
      (Regex.test re_dem_share q); cbn; tauto.
  - destruct (Regex.test re_linear q), (Regex.test re_quadratic q),
      (Regex.test re_basic q); cbn; tauto.
Qed.

(** X6: exclusion rules dominate state names for every text.  When one of
    the six exclusion rules matches, the final filter is an exclusion
    filter, whatever state names the text mentions; when none matches, the
    filter is the first of CA, UT, WA whose name rule matches, and absent
    when none does. *)
Theorem final_filter (query : string) :
  let q := JSString.toLowerCase query in
  let f := targetFilter (interpret query) in
  (existsb (fun p => Regex.test (Pattern.regex p) q) (firstn 6 patterns)
   = true ->
   f = Some "exclude_CA" \/ f = Some "exclude_UT" \/ f = Some "exclude_WA")
  /\ (existsb (fun p => Regex.test (Pattern.regex p) q) (firstn 6 patterns)
      = false ->
      f = if Regex.test re_CA q then Some "CA"
          else if Regex.test re_UT q then Some "UT"
          else if Regex.test re_WA q then Some "WA"
          else None).
Proof.
  cbv zeta. unfold interpret. set (q := JSString.toLowerCase query).
  rewrite second_pass_filter, first_pass_filter.
  unfold matching, state_loop, statePatterns.
  cbn [firstn patterns filter existsb Pattern.regex Pattern.filter
       Pattern.with_filter].
  destruct (Regex.test re_exclude_CA q), (Regex.test re_exclude_UT q),
    (Regex.test re_exclude_WA q), (Regex.test re_excl_CA q),
    (Regex.test re_excl_UT q), (Regex.test re_excl_WA q);
    cbn;
    (split;
     [ first [ intros H; discriminate H | intros _; tauto ]
     | first [ intros H; discriminate H
             | intros _;
               destruct (Regex.test re_CA q), (Regex.test re_UT q),
                 (Regex.test re_WA q); reflexivity ] ]).
Qed.

Lemma final_filter_witness :
  targetFilter (interpret "Utah and California, excluding Washington")
  = Some "exclude_CA"
  \/ targetFilter (interpret "Utah and California, excluding Washington")
     = Some "exclude_UT"
  \/ targetFilter (interpret "Utah and California, excluding Washington")
     = Some "exclude_WA".
Proof.
  exact (proj1 (final_filter "Utah and California, excluding Washington")
               eq_refl).
Defined.

(** ** Blank input, the rate limit and the stored counter *)

Section Trim.
Import JSString.

Lemma trimStart_empty s : trimStart s = EmptyString <-> all_space s = true.
Proof.
  induction s as [|c s IH]; simpl; [tauto|].
  destruct (is_space c); simpl; [exact IH|].
  split; discriminate.
Qed.

Lemma trimEnd_empty s : trimEnd s = EmptyString <-> all_space s = true.
Proof.
  induction s as [|c s IH]; simpl; [tauto|].
  destruct (trimEnd s) as [|d t] eqn:E.
  - destruct (is_space c); simpl.
    + tauto.
    + split; discriminate.
  - split; [discriminate|]. intros H. apply andb_prop in H.
    destruct H as [_ H]. apply IH in H. discriminate.
Qed.

(** Dropping leading white space keeps the rest of the text blank or not. *)
Lemma all_space_trimStart s : all_space (trimStart s) = all_space s.
Proof.
  induction s as [|c s IH]; simpl; [reflexivity|].
  destruct (is_space c) eqn:E; simpl; [exact IH|].
  now rewrite E.
Qed.

Lemma trim_empty s : trim s = EmptyString <-> all_space s = true.
Proof.
  unfold trim. rewrite trimEnd_empty, all_space_trimStart. tauto.
Qed.

(** [trimStart] leaves no white space in front. *)
Lemma trimStart_head s c t :
  trimStart s = String c t -> is_space c = false.
Proof.
  induction s as [|d s IH]; simpl; [discriminate|].
  destruct (is_space d) eqn:E; [exact IH|].
  intros H. inversion H; subst. exact E.
Qed.

(** [trimEnd] keeps the first character of a text it does not empty. *)
Lemma trimEnd_head c s d t :
  trimEnd (String c s) = String d t -> d = c.
Proof.
  simpl. destruct (trimEnd s); [destruct (is_space c)|]; intros H;
    inversion H; reflexivity.
Qed.

(** [trimEnd] leaves no white space at the end. *)
Lemma trimEnd_last s c :
  last_char (trimEnd s) = Some c -> is_space c = false.
Proof.
  induction s as [|d s IH]; simpl; [discriminate|].
  destruct (trimEnd s) as [|e t] eqn:E.
  - destruct (is_space d) eqn:Ed; simpl; [discriminate|].
    intros H. inversion H; subst. exact Ed.
  - simpl. exact IH.
Qed.

Lemma trimEnd_fixed s : trimEnd (trimEnd s) = trimEnd s.
Proof.
  induction s as [|d s IH]; simpl; [reflexivity|].
  destruct (trimEnd s) as [|e t] eqn:E.
  - destruct (is_space d) eqn:Ed; simpl; [reflexivity|]. now rewrite Ed.
  - simpl in *. now rewrite IH.
Qed.

End Trim.

(** X8: [trim], as [handleQuery] uses it, returns a text with no white
    space at either end, changes nothing when applied again, and returns
    the empty text exactly for texts made of white space only. *)
Theorem trim_strips_both_ends (s : string) :
  (forall c t, JSString.trim s = String c t -> JSString.is_space c = false)
  /\ (forall c, last_char (JSString.trim s) = Some c ->
        JSString.is_space c = false)
  /\ JSString.trim (JSString.trim s) = JSString.trim s
  /\ (JSString.trim s = EmptyString <-> all_space s = true).
Proof.
  assert (Hhead : forall c t, JSString.trim s = String c t ->
                              JSString.is_space c = false).
  { unfold JSString.trim. intros c t H.
    destruct (JSString.trimStart s) as [|d u] eqn:E; [discriminate|].
    apply trimEnd_head in H. subst c. exact (trimStart_head s d u E). }
  split; [exact Hhead|]. split; [apply trimEnd_last|].
  split; [|apply trim_empty].
  unfold JSString.trim at 1.
  destruct (JSString.trim s) as [|c t] eqn:E; [reflexivity|].
  simpl JSString.trimStart. rewrite (Hhead c t eq_refl).
  rewrite <- E. unfold JSString.trim. apply trimEnd_fixed.
Qed.

(** X9: [handleQuery] returns at once, without touching the counter and
    without a reply, exactly for inputs made of white space only (the empty
    input among them). *)
Theorem blank_input_is_ignored (analyses : list analysis) (container : bool)
  (queryCount : Z) (input : string) :
  (snd (handleQuery analyses container queryCount input) = Ignored
   <-> all_space input = true)
  /\ (all_space input = true ->
      handleQuery analyses container queryCount input = (queryCount, Ignored)).
Proof.
  assert (Hblank : all_space input = true ->
                   handleQuery analyses container queryCount input
                   = (queryCount, Ignored)).
  { intros H. apply trim_empty in H. unfold handleQuery. now rewrite H. }
  split; [|exact Hblank]. split; [|intros H; now rewrite (Hblank H)].
  unfold handleQuery.
  destruct (JSString.trim input) as [|c t] eqn:E.
  - intros _. now apply trim_empty.
  - cbn [JSString.truthy negb].
    destruct (_ <=? _); [discriminate|].
    destruct (PrimFloat.ltb _ _); [discriminate|].
    destruct (m_analysis (findBestMatchKeyword analyses (String c t)));
      simpl; discriminate.
Qed.

(** X10: once the counter has reached 100, every non-blank query is
    refused with the limit message and leaves the counter as it is; below
    100 a non-blank query is processed and adds exactly one.  The submit
    button, as [updateQueryCounters] sets it, is disabled in exactly the
    states where a query is refused. *)
Theorem rate_limit (analyses : list analysis) (container : bool)
  (queryCount : Z) (input : string) :
  all_space input = false ->
  (MAX_QUERIES_PER_HOUR <= queryCount ->
   handleQuery analyses container queryCount input
   = (queryCount, LimitReached))
  /\ (queryCount < MAX_QUERIES_PER_HOUR ->
      fst (handleQuery analyses container queryCount input) = queryCount + 1
      /\ processed (snd (handleQuery analyses container queryCount input))
         = true)
  /\ (snd (updateQueryCounters queryCount) = true
      <-> snd (handleQuery analyses container queryCount input)
          = LimitReached).
Proof.
  intros Hin.
  assert (Ht : JSString.trim input <> EmptyString).
  { intros H. apply trim_empty in H. congruence. }
  assert (Hhi : MAX_QUERIES_PER_HOUR <= queryCount ->
                handleQuery analyses container queryCount input
                = (queryCount, LimitReached)).
  { intros H. unfold handleQuery.
    destruct (JSString.trim input); [congruence|]. cbn [JSString.truthy negb].
    apply Z.leb_le in H. now rewrite H. }
  assert (Hlo : queryCount < MAX_QUERIES_PER_HOUR ->
                fst (handleQuery analyses container queryCount input)
                = queryCount + 1
                /\ processed
                     (snd (handleQuery analyses container queryCount input))
                   = true).
  { intros H. rewrite (handleQuery_branch _ _ _ _ Ht H). cbv zeta.
    destruct (PrimFloat.ltb _ _); [split; reflexivity|].
    destruct (m_analysis
                (findBestMatchKeyword analyses (JSString.trim input)));
      simpl; split; reflexivity. }
  split; [exact Hhi|]. split; [exact Hlo|].
  unfold updateQueryCounters. cbn [snd]. rewrite Z.leb_le.
  destruct (Z_lt_le_dec queryCount MAX_QUERIES_PER_HOUR) as [Hlt|Hge].
  - destruct (Hlo Hlt) as [_ Hp].
    split; [lia|]. intros H. rewrite H in Hp. discriminate.
  - rewrite (Hhi Hge). split; [reflexivity|]. lia.
Qed.

Lemma rate_limit_witness :
  handleQuery [] true 100 "turnout" = (100, LimitReached)
  /\ fst (handleQuery [] true 99 "turnout") = 99 + 1.
Proof.
  destruct (rate_limit [] true 100 "turnout" eq_refl) as (H1 & _ & _).
  destruct (rate_limit [] true 99 "turnout" eq_refl) as (_ & H2 & _).
  split; [apply H1; discriminate | apply H2; reflexivity].
Defined.

Section Sessions.
Variable analyses : list analysis.
Variable container : bool.

(** One call moves the counter by one when the query is processed and not
    at all otherwise. *)
Lemma handleQuery_counter queryCount input :
  fst (handleQuery analyses container queryCount input)
  = queryCount
    + (if processed (snd (handleQuery analyses container queryCount input))
       then 1 else 0)
  /\ (processed (snd (handleQuery analyses container queryCount input)) = true
      -> queryCount < MAX_QUERIES_PER_HOUR).
Proof.
  unfold handleQuery.
  destruct (negb _); [split; [simpl; lia|discriminate]|].
  destruct (_ <=? _) eqn:E; [split; [simpl; lia|discriminate]|].
  apply Z.leb_gt in E.
  destruct (PrimFloat.ltb _ _); [split; [reflexivity|intros _; exact E]|].
  destruct (m_analysis
              (findBestMatchKeyword analyses (JSString.trim input)));
    simpl; (split; [reflexivity|intros _; exact E]).
Qed.

End Sessions.

(** X11: over any sequence of inputs on one page, the counter grows by
    exactly the number of queries processed (blank and refused ones do not
    count), and a counter that starts at 100 or less never passes 100: at
    most [100 - queryCount] queries of the sequence reach the matcher. *)
Theorem counter_never_passes_limit (analyses : list analysis)
  (container : bool) (inputs : list string) (queryCount : Z) :
  queryCount <= MAX_QUERIES_PER_HOUR ->
  let result := run_queries analyses container queryCount inputs in
  fst result
  = queryCount + Z.of_nat (List.length (filter processed (snd result)))
  /\ fst result <= MAX_QUERIES_PER_HOUR
  /\ List.length (snd result) = List.length inputs.
Proof.
  revert queryCount. induction inputs as [|input rest IH];
    intros queryCount Hle; cbv zeta.
  - simpl. repeat split; lia.
  - cbn [run_queries].
    pose proof (handleQuery_counter analyses container queryCount input)
      as [Hc Hp].
    destruct (handleQuery analyses container queryCount input) as [c r].
    cbn [fst snd] in Hc, Hp.
    assert (Hle' : c <= MAX_QUERIES_PER_HOUR).
    { destruct (processed r); [specialize (Hp eq_refl)|]; lia. }
    specialize (IH c Hle'). cbv zeta in IH.
    destruct (run_queries analyses container c rest) as [c' rs].
    cbn [fst snd filter] in *. destruct IH as (IH1 & IH2 & IH3).
    destruct (processed r); cbn [List.length]; repeat split; lia.
Qed.

Lemma counter_never_passes_limit_witness :
  fst (run_queries [] true 99 ["turnout"; "  "; "governor"; "senate"])
  <= MAX_QUERIES_PER_HOUR
  /\ map processed
       (snd (run_queries [] true 99 ["turnout"; "  "; "governor"; "senate"]))
     = [true; false; false; false].
Proof.
  split.
  - apply (counter_never_passes_limit [] true
             ["turnout"; "  "; "governor"; "senate"] 99).
    discriminate.
  - reflexivity.
Defined.

(** X12: the counter written by a processed query survives a page load for
    one hour after that query and is reset to 0 afterwards; blank and
    refused queries write nothing, so they neither change the stored
    counter nor extend the hour. *)
Theorem stored_counter_expires (analyses : list analysis) (container : bool)
  (now later : Z) (s : session) (input : string) :
  let after := fst (handleQuery_session analyses container now s input) in
  let r := snd (handleQuery_session analyses container now s input) in
  r = snd (handleQuery analyses container (ses_count s) input)
  /\ (processed r = true ->
      ses_count after = ses_count s + 1
      /\ ses_count (page_load (ses_storage after) later)
         = if later - now <? 3600000 then ses_count after else 0)
  /\ (processed r = false -> after = s).
Proof.
  cbv zeta. unfold handleQuery_session.
  pose proof (handleQuery_counter analyses container (ses_count s) input)
    as [Hc _].
  destruct (handleQuery analyses container (ses_count s) input) as [c r].
  cbn [fst snd] in Hc.
  destruct r; cbn [fst snd processed] in *;
    (split; [reflexivity|]); (split; [|intros H; try discriminate H; reflexivity]);
    intros H; try discriminate H;
    (split; [cbn [ses_count]; lia|]);
    unfold page_load, loadQueryCounts, saveQueryCounts;
    cbn [ses_storage ses_count st_timestamp st_counts]; reflexivity.
Qed.

Lemma stored_counter_expires_witness :
  let s := {| ses_count := 7; ses_storage := None |} in
  let after := fst (handleQuery_session [] true 1000 s "turnout") in
  ses_count after = 8
  /\ ses_count (page_load (ses_storage after) 3600999) = 8
  /\ ses_count (page_load (ses_storage after) 3601000) = 0.
Proof.
  cbv zeta.
  destruct (stored_counter_expires [] true 1000 3600999
              {| ses_count := 7; ses_storage := None |} "turnout")
    as (_ & H1 & _).
  destruct (stored_counter_expires [] true 1000 3601000
              {| ses_count := 7; ses_storage := None |} "turnout")
    as (_ & H2 & _).
  destruct (H1 eq_refl) as [Ha Hb]. destruct (H2 eq_refl) as [_ Hc].
  split; [exact Ha|]. split; [exact Hb|exact Hc].
Defined.

(** ** Stars, wording and emphasis *)

(** X13: for every record the stars, the wording of
    [getSignificanceDescription] and the emphasis of the cell and of the
    plot tell the same story: three stars go with "highly
    significant", two with "significant", one with "marginally
    significant" and none with "not statistically significant"; the cell
    is emphasised, and the plot row is not greyed, exactly when there are
    two or three stars. *)
Theorem stars_wording_emphasis_agree (a : analysis) :
  let stars := getSignificanceStars (Some a) in
  let words := getSignificanceDescription (p_value a) in
  let emphasised := PrimFloat.ltb (p_value a) 0.05%float in
  (stars = "***" /\ words = "p < 0.01, highly significant"
   /\ emphasised = true
   \/ stars = "**" /\ words = "p < 0.05, significant" /\ emphasised = true
   \/ stars = "*" /\ words = "p < 0.1, marginally significant"
      /\ emphasised = false
   \/ stars = EmptyString /\ words = "not statistically significant"
      /\ emphasised = false)
  /\ (forall scale label y,
        row_class (draw_row scale label y a)
        = if emphasised then EmptyString else " not-significant").
Proof.
  cbv zeta. unfold getSignificanceStars, getSignificanceDescription.
  pose proof (below_001_below_005 (p_value a)) as H1.
  split; [|reflexivity].
  destruct (PrimFloat.ltb (p_value a) 0.01) eqn:E1.
  - rewrite (H1 eq_refl). auto.
  - destruct (PrimFloat.ltb (p_value a) 0.05) eqn:E5; [auto|].
    destruct (PrimFloat.ltb (p_value a) 0.1); auto 10.
Qed.

(** ** The digits printed by [toFixed] *)

Section PrintedValue.
Import JSNumber.

Lemma decimal_value_from_app s1 : forall acc s2,
  decimal_value_from acc (s1 ++ s2)
  = decimal_value_from (decimal_value_from acc s1) s2.
Proof.
  induction s1 as [|c s1 IH]; intros acc s2; simpl; [reflexivity|apply IH].
Qed.

Lemma decimal_value_zeros k : decimal_value_from 0 (zeros k) = 0.
Proof. induction k; simpl; auto. Qed.

Lemma decimal_value_acc d : forall acc,
  decimal_value_from (Zpos acc) (NilEmpty.string_of_uint d)
  = Zpos (Pos.of_uint_acc d acc).
Proof.
  induction d; intros acc;
    cbn [NilEmpty.string_of_uint decimal_value_from Pos.of_uint_acc];
    try reflexivity; rewrite <- IHd; f_equal;
    rewrite ?Pos2Z.inj_add, ?Pos2Z.inj_mul;
    match goal with
    | |- context [Z.of_N (JSString.code ?c)] =>
        let v := eval vm_compute in (Z.of_N (JSString.code c)) in
        change (Z.of_N (JSString.code c)) with v
    end;
    lia.
Qed.

Lemma decimal_value_uint d :
  decimal_value_from 0 (NilEmpty.string_of_uint d) = Z.of_N (Pos.of_uint d).
Proof.
  induction d;
    cbn [NilEmpty.string_of_uint decimal_value_from Pos.of_uint];
    try reflexivity;
    match goal with
    | |- context [Z.of_N (JSString.code ?c)] =>
        let v := eval vm_compute in (10 * 0 + (Z.of_N (JSString.code c) - 48)) in
        change (10 * 0 + (Z.of_N (JSString.code c) - 48)) with v
    end;
    [exact IHd | apply decimal_value_acc ..].
Qed.

(** Reading back the digits of a natural number gives the number. *)
Lemma decimal_value_digits n : 0 <= n -> decimal_value (digits n) = n.
Proof.
  intros Hn. unfold decimal_value, digits, NilZero.string_of_uint.
  pose proof (DecimalN.Unsigned.of_to (Z.to_N n)) as Hof.
  destruct (N.to_uint (Z.to_N n)) eqn:E;
    try (rewrite decimal_value_uint; unfold N.of_uint in Hof;
         rewrite Hof; apply Z2N.id; exact Hn).
  simpl in Hof. simpl. rewrite <- (Z2N.id n Hn), <- Hof. reflexivity.
Qed.

(** [place_point] only pads with zeros and inserts the point. *)
Lemma place_point_digits f m :
  (0 < f)%nat ->
  exists int frac k,
    place_point f m = int ++ "." ++ frac
    /\ String.length frac = f /\ int ++ frac = zeros k ++ m.
Proof.
  intros Hf. unfold place_point. destruct f as [|f]; [lia|].
  set (m' := if Nat.leb (String.length m) (S f)
             then zeros (S f + 1 - String.length m) ++ m else m).
  assert (Hlen : (S f + 1 <= String.length m')%nat).
  { unfold m'. destruct (Nat.leb (String.length m) (S f)) eqn:E.
    - apply Nat.leb_le in E. rewrite length_app, zeros_length. lia.
    - apply Nat.leb_gt in E. lia. }
  exists (substring 0 (String.length m' - S f) m'),
         (substring (String.length m' - S f) (S f) m'),
         (if Nat.leb (String.length m) (S f)
          then (S f + 1 - String.length m)%nat else 0%nat).
  split; [reflexivity|]. split; [apply substring_length; lia|].
  pose proof (substring_split m' (String.length m' - S f) ltac:(lia)) as Hs.
  replace (String.length m' - (String.length m' - S f))%nat
    with (S f) in Hs by lia.
  rewrite Hs. unfold m'.
  now destruct (Nat.leb (String.length m) (S f)).
Qed.

Lemma round_half_up_nonneg num den :
  0 <= num -> 0 < den -> 0 <= round_half_up num den.
Proof.
  intros Hn Hd. unfold round_half_up. apply Z.div_pos; lia.
Qed.

Lemma scaled_nonneg f m e : 0 <= scaled f m e.
Proof.
  unfold scaled. destruct (0 <=? e) eqn:E.
  - apply Z.leb_le in E.
    assert (0 < 2 ^ e) by (apply Z.pow_pos_nonneg; lia).
    assert (0 < 10 ^ Z.of_nat f) by (apply Z.pow_pos_nonneg; lia).
    nia.
  - apply Z.leb_gt in E. apply round_half_up_nonneg.
    + assert (0 < 10 ^ Z.of_nat f) by (apply Z.pow_pos_nonneg; lia). nia.
    + apply Z.pow_pos_nonneg; lia.
Qed.

End PrintedValue.

(** X14: [toFixed(f)] prints the multiple of [10^-f] nearest to the number,
    the larger one on a tie.  For a finite number of sign [s] and magnitude
    [m * 2^e] below [10^21], and [f > 0], the text is the sign, then digits
    with a point before the last [f] of them, and the integer [n] these
    digits denote is [m * 2^e * 10^f] when that is an integer and otherwise
    satisfies [|n - m * 2^e * 10^f| <= 1/2], with [n] above on equality. *)
Theorem toFixed_prints_nearest (f : nat) (x : float) (s : bool)
  (m : positive) (e : Z) :
  (0 < f)%nat ->
  Prim2SF x = S754_finite s m e ->
  JSNumber.huge m e = false ->
  exists int frac n,
    JSNumber.toFixed f x
    = Some ((if s then "-" else EmptyString) ++ int ++ "." ++ frac)
    /\ String.length frac = f
    /\ decimal_value (int ++ frac) = n
    /\ (0 <= e -> n = Zpos m * 2 ^ e * 10 ^ Z.of_nat f)
    /\ (e < 0 ->
        2 * (Zpos m * 10 ^ Z.of_nat f) - 2 ^ (- e) < 2 * 2 ^ (- e) * n
        <= 2 * (Zpos m * 10 ^ Z.of_nat f) + 2 ^ (- e)).
Proof.
  intros Hf Hx Hh. unfold JSNumber.toFixed. rewrite Hx, Hh.
  destruct (place_point_digits f (JSNumber.digits (JSNumber.scaled f m e)) Hf)
    as (int & frac & k & Hp & Hl & Hcat).
  exists int, frac, (JSNumber.scaled f m e).
  rewrite Hp. split; [reflexivity|]. split; [exact Hl|].
  split.
  - rewrite Hcat. unfold decimal_value.
    rewrite decimal_value_from_app, decimal_value_zeros.
    apply decimal_value_digits, scaled_nonneg.
  - unfold JSNumber.scaled. split.
    + intros He. apply Z.leb_le in He. now rewrite He.
    + intros He. assert (E : (0 <=? e) = false) by (apply Z.leb_gt; lia).
      rewrite E. apply round_half_up_nearest.
      apply Z.pow_pos_nonneg; lia.
Qed.

Lemma toFixed_prints_nearest_witness :
  exists int frac n,
    JSNumber.toFixed 3 1.0005%float = Some (EmptyString ++ int ++ "." ++ frac)
    /\ String.length frac = 3%nat
    /\ decimal_value (int ++ frac) = n
    /\ 2 * (4505851427184181 * 10 ^ 3) - 2 ^ 52 < 2 * 2 ^ 52 * n
       <= 2 * (4505851427184181 * 10 ^ 3) + 2 ^ 52.
Proof.
  destruct (toFixed_prints_nearest 3 1.0005%float false
              4505851427184181 (-52) ltac:(lia) eq_refl eq_refl)
    as (int & frac & n & H1 & H2 & H3 & _ & H4).
  exists int, frac, n. repeat split; try assumption; apply H4; lia.
Defined.

(** ** Lookup by key *)

Section Lookup.

Lemma find_first {A : Type} (test : A -> bool) (l : list A) (r : A) :
  find test l = Some r ->
  exists before after,
    l = (before ++ r :: after)%list /\ test r = true
    /\ forall b, In b before -> test b = false.
Proof.
  induction l as [|x l IH]; simpl; [discriminate|].
  destruct (test x) eqn:E.
  - intros H. inversion H; subst. exists [], l.
    split; [reflexivity|]. split; [exact E|]. intros b [].
  - intros H. destruct (IH H) as (before & after & -> & Hr & Hb).
    exists (x :: before), after. split; [reflexivity|]. split; [exact Hr|].
    intros b [<-|Hin]; auto.
Qed.

Lemma strict_eq_iff (a b : option string) :
  JSString.strict_eq a b = true <-> a = b.
Proof.
  destruct a as [x|], b as [y|]; simpl; try (split; congruence).
  rewrite String.eqb_eq. split; congruence.
Qed.

Lemma json_window_eq_iff (w1 w2 : option (Z * Z)) :
  json_window_eq w1 w2 = true <-> w1 = w2.
Proof.
  destruct w1 as [[a1 b1]|], w2 as [[a2 b2]|]; simpl;
    try (split; congruence).
  rewrite andb_true_iff, !Z.eqb_eq.
  split; [intros [-> ->]; reflexivity | intros H; inversion H; auto].
Qed.

(** The test of [findAnalysis] accepts exactly the accepted records. *)
Lemma accepted_iff o sp f w b :
  String.eqb (outcome b) o && String.eqb (specification b) sp
  && JSString.strict_eq (state_filter b) f
  && json_window_eq (time_window b) w && negb (weighted b)
  && String.eqb (cluster b) "county" = true
  <-> accepted o sp f w b.
Proof.
  unfold accepted.
  rewrite !andb_true_iff, !String.eqb_eq, strict_eq_iff, json_window_eq_iff,
    negb_true_iff.
  tauto.
Qed.

End Lookup.

(** X15: [findAnalysis] returns the first record of the corpus that agrees
    with the four key fields and is unweighted and clustered by county, and
    nothing exactly when the corpus holds no such record.  Two absent
    values agree with each other and with nothing else; so when such
    records are unique in the corpus, each of them is found by its own
    key. *)
Theorem findAnalysis_first (analyses : list analysis) (o sp : string)
  (f : option string) (w : option (Z * Z)) :
  (forall r, findAnalysis analyses o sp f w = Some r ->
     exists before after,
       analyses = (before ++ r :: after)%list /\ accepted o sp f w r
       /\ forall b, In b before -> ~ accepted o sp f w b)
  /\ (findAnalysis analyses o sp f w = None <->
      forall b, In b analyses -> ~ accepted o sp f w b)
  /\ (forall r,
        In r analyses -> accepted o sp f w r ->
        (forall b, In b analyses -> accepted o sp f w b -> b = r) ->
        findAnalysis analyses o sp f w = Some r).
Proof.
  assert (Hsome : forall r, findAnalysis analyses o sp f w = Some r ->
     exists before after,
       analyses = (before ++ r :: after)%list /\ accepted o sp f w r
       /\ forall b, In b before -> ~ accepted o sp f w b).
  { unfold findAnalysis. intros r H. apply find_first in H.
    destruct H as (before & after & He & Hr & Hb).
    exists before, after. split; [exact He|].
    split; [now apply accepted_iff|].
    intros b Hin Hacc. apply accepted_iff in Hacc.
    specialize (Hb b Hin). cbv beta in Hb. congruence. }
  assert (Hnone : findAnalysis analyses o sp f w = None <->
                  forall b, In b analyses -> ~ accepted o sp f w b).
  { split.
    - unfold findAnalysis. intros H b Hin Hacc.
      pose proof (find_none _ _ H b Hin) as Hf. cbv beta in Hf.
      apply accepted_iff in Hacc. congruence.
    - intros Hall. destruct (findAnalysis analyses o sp f w) as [r|] eqn:E;
        [|reflexivity].
      destruct (Hsome r eq_refl) as (before & after & He & Hr & _).
      exfalso. apply (Hall r); [|exact Hr].
      rewrite He. apply in_or_app. right. now left. }
  split; [exact Hsome|]. split; [exact Hnone|].
  intros r Hin Hacc Huniq.
  destruct (findAnalysis analyses o sp f w) as [r'|] eqn:E.
  - destruct (Hsome r' eq_refl) as (before & after & He & Hr & _).
    f_equal. apply Huniq; [|exact Hr].
    rewrite He. apply in_or_app. right. now left.
  - exfalso. exact (proj1 Hnone eq_refl r Hin Hacc).
Qed.

(** ** Layout of the plot *)

(** X16: the coefficient plot has one row per record it is given, the
    baseline first at the upper position and the current specification at
    the lower one; it is 100 units high when a current record is given and
    70 otherwise, and always has the three ticks.  At start-up
    [initCoefPlot] therefore draws the pooled baseline alone, shows the
    placeholder when the corpus has no such record, and does nothing when
    the page has no plot element. *)
Theorem plot_layout (analyses : list analysis) (baseline current : option analysis)
  (outcomeLabel : string) (filterDesc : option string) :
  (exists plot,
     renderCoefPlot true baseline current outcomeLabel filterDesc = Some plot
     /\ map row_y (plot_rows plot)
        = ((match baseline with Some _ => [35%float] | None => [] end)
           ++ (match current with Some _ => [60%float] | None => [] end))%list
     /\ plot_height plot
        = (match current with Some _ => 100%float | None => 70%float end)
     /\ List.length (plot_ticks plot) = 3%nat)
  /\ renderCoefPlot false baseline current outcomeLabel filterDesc = None
  /\ initCoefPlot analyses false = Untouched
  /\ (getBaseline analyses "dem_share" = None ->
      initCoefPlot analyses true = Placeholder)
  /\ (forall b, getBaseline analyses "dem_share" = Some b ->
        exists plot row,
          initCoefPlot analyses true = Drawn plot
          /\ plot_rows plot = [row]
          /\ row_label row = "Baseline (quad. trends)"
          /\ plot_caption plot = "Democratic Vote Share").
Proof.
  split; [|split; [reflexivity|split; [reflexivity|split]]].
  - unfold renderCoefPlot. cbn [negb]. eexists. split; [reflexivity|].
    cbn [plot_rows plot_height plot_ticks].
    destruct baseline, current; cbn; repeat split; reflexivity.
  - intros H. unfold initCoefPlot. rewrite H. reflexivity.
  - intros b H. unfold initCoefPlot. rewrite H.
    unfold renderCoefPlot. cbn [negb]. do 2 eexists.
    split; [reflexivity|]. cbn. repeat split; reflexivity.
Qed.

(** ** Sample descriptions *)

Section Descriptions.

Lemma substring_all s : substring 0 (String.length s) s = s.
Proof.
  induction s as [|c s IH]; simpl; [reflexivity|now rewrite IH].
Qed.

Lemma remove_first_prefix x : remove_first "exclude_" ("exclude_" ++ x) = x.
Proof.
  destruct x as [|c x].
  - reflexivity.
  - unfold remove_first.
    change ("exclude_" ++ String c x)
      with (String "e" (String "x" (String "c" (String "l" (String "u"
             (String "d" (String "e" (String "_" (String c x))))))))).
    cbn [String.prefix Ascii.ascii_dec]. cbn -[substring Nat.sub].
    change (substring 8 (S (S (S (S (S (S (S (S (S (String.length x)))))))))
                         - 8) _)
      with (substring 0 (String.length (String c x)) (String c x)).
    apply substring_all.
Qed.

End Descriptions.

(** X17: the sample description of a record names its state filter
    without the internal prefix: a filter [exclude_X] reads "excluding X"
    in the narration prompt and "Excluding X" in the preview, any other
    non-empty filter [F] reads "F only" in both, and an absent or empty
    filter reads as all three states. *)
Theorem state_description (a : analysis) :
  (forall x, state_filter a = Some ("exclude_" ++ x) ->
     stateDesc a = "excluding " ++ x
     /\ stateDesc_preview a = "Excluding " ++ x)
  /\ (forall f, state_filter a = Some f -> f <> EmptyString ->
        JSString.startsWith "exclude_" f = false ->
        stateDesc a = f ++ " only" /\ stateDesc_preview a = f ++ " only")
  /\ (state_filter a = None \/ state_filter a = Some EmptyString ->
      stateDesc a = "all states (CA, UT, WA)"
      /\ stateDesc_preview a = "All states (CA, UT, WA)").
Proof.
  unfold stateDesc, stateDesc_preview. split; [|split].
  - intros x H. rewrite H.
    change (JSString.truthy (Some ("exclude_" ++ x))) with true.
    assert (Hs : JSString.startsWith "exclude_" ("exclude_" ++ x) = true)
      by (destruct x; reflexivity).
    rewrite Hs. cbv iota. now rewrite remove_first_prefix.
  - intros f H Hne Hs. rewrite H, Hs.
    destruct f; [congruence|]. split; reflexivity.
  - intros [H|H]; rewrite H; split; reflexivity.
Qed.

Lemma state_description_examples :
  map (fun f => sample_line (sample "dem_share" "basic" f None true))
      [None; Some "CA"; Some "exclude_UT"]
  = ["all states (CA, UT, WA), 1996-2024 (all years), population-weighted";
     "CA only, 1996-2024 (all years), population-weighted";
     "excluding UT, 1996-2024 (all years), population-weighted"]
  /\ timeDesc (sample "turnout" "basic" None (Some (1996, 2018)) false)
     = "1996-2018".
Proof. vm_compute. split; reflexivity. Qed.

(** ** The narration proxy *)

Section ProxyFacts.
Import Proxy.
Variable apiKey : option string.
Variable api : api_call -> upstream.
Variable engine_message : string.

(** An answer of the proxy with a success status is its own 200 with a
    content. *)
Lemma handler_ok_is_content req :
  let a := fst (handler apiKey api engine_message req) in
  ok (status a) = true ->
  status a = 200 /\ exists c, answer_of a = Content c.
Proof.
  cbv zeta. unfold handler.
  destruct (negb (String.eqb (method req) "POST")); [discriminate|].
  destruct apiKey as [key|]; [|discriminate].
  destruct (negb (JSString.truthy (Some key))); [discriminate|].
  destruct (body req) as [b|]; [|discriminate].
  destruct (api _) as [m|st text json]; [discriminate|].
  destruct (negb (ok st)) eqn:E.
  - cbn [fst status]. apply negb_true_iff in E. congruence.
  - destruct json as [m|t]; [discriminate|].
    intros _. cbn [fst status answer_of]. split; [reflexivity|eauto].
Qed.

End ProxyFacts.

(** X18: the proxy calls the text-generation API only for a POST request
    with a parsed body while a non-empty API key is configured.  Any other
    method is answered 405 and a missing or empty key 500 "API key not
    configured", in both cases without a call; a call that is made
    carries the configured key, the fixed model name and a non-zero token
    bound. *)
Theorem proxy_guards (apiKey : option string)
  (api : Proxy.api_call -> Proxy.upstream) (engine_message : string)
  (req : Proxy.request) :
  (Proxy.method req <> "POST" ->
   Proxy.handler apiKey api engine_message req
   = ({| Proxy.status := 405;
         Proxy.answer_of := Proxy.ErrorText "Method not allowed" |}, None))
  /\ (Proxy.method req = "POST" ->
      apiKey = None \/ apiKey = Some EmptyString ->
      Proxy.handler apiKey api engine_message req
      = ({| Proxy.status := 500;
            Proxy.answer_of := Proxy.ErrorMessage "API key not configured" |},
         None))
  /\ (forall call,
        snd (Proxy.handler apiKey api engine_message req) = Some call ->
        Proxy.method req = "POST"
        /\ apiKey = Some (Proxy.call_key call)
        /\ Proxy.call_key call <> EmptyString
        /\ Proxy.body req <> None
        /\ Proxy.call_model call = "claude-sonnet-4-20250514"
        /\ Proxy.call_max_tokens call <> 0).
Proof.
  unfold Proxy.handler. split; [|split].
  - intros H. apply String.eqb_neq in H. now rewrite H.
  - intros H [->| ->]; apply String.eqb_eq in H; now rewrite H.
  - intros call.
    destruct (String.eqb (Proxy.method req) "POST") eqn:Em; cbn [negb];
      [|discriminate].
    apply String.eqb_eq in Em.
    destruct apiKey as [[|c key]|]; cbn [JSString.truthy negb];
      try discriminate.
    destruct (Proxy.body req) as [b|]; [|discriminate].
    assert (Hmax : Proxy.max_tokens_or_default (Proxy.max_tokens b) <> 0).
    { unfold Proxy.max_tokens_or_default.
      destruct (Proxy.max_tokens b) as [n|]; [|discriminate].
      destruct (n =? 0) eqn:E; [discriminate|]. now apply Z.eqb_neq. }
    destruct (api _) as [m|st text json];
      [|destruct (negb (Proxy.ok st)); [|destruct json]];
      cbn [snd]; intros H; inversion H; subst; cbn;
      repeat split; try discriminate; auto.
Qed.

Lemma proxy_guards_witness :
  Proxy.handler None (fun _ => Proxy.FetchThrows "unused") "unused"
    (Proxy.client_request "prompt" "query")
  = ({| Proxy.status := 500;
        Proxy.answer_of := Proxy.ErrorMessage "API key not configured" |},
     None).
Proof.
  destruct (proxy_guards None (fun _ => Proxy.FetchThrows "unused") "unused"
              (Proxy.client_request "prompt" "query")) as (_ & H & _).
  apply H; [reflexivity | left; reflexivity].
Defined.

(** X19: the proxy forwards what the client sent.  For the request built by
    [generateResponse] and [generateNoMatchResponse], with a key
    configured, the call to the API carries the client's system prompt,
    the user's query as the only message and the client's bound of 200
    tokens; a request without a bound, or with a bound of 0, is sent with
    300. *)
Theorem proxy_forwards_request (key : string)
  (api : Proxy.api_call -> Proxy.upstream) (engine_message : string)
  (systemPrompt query : string) :
  key <> EmptyString ->
  snd (Proxy.handler (Some key) api engine_message
         (Proxy.client_request systemPrompt query))
  = Some {| Proxy.call_key := key;
            Proxy.call_model := "claude-sonnet-4-20250514";
            Proxy.call_max_tokens := 200;
            Proxy.call_system := systemPrompt;
            Proxy.call_messages :=
              [{| Proxy.role := "user"; Proxy.content := query |}] |}
  /\ (forall b call,
        (Proxy.max_tokens b = None \/ Proxy.max_tokens b = Some 0) ->
        snd (Proxy.handler (Some key) api engine_message
               {| Proxy.method := "POST"; Proxy.body := Some b |})
        = Some call ->
        Proxy.call_max_tokens call = 300).
Proof.
  intros Hk. unfold Proxy.handler, Proxy.client_request.
  cbn [Proxy.method Proxy.body String.eqb negb].
  change (String.eqb "POST" "POST") with true. cbn [negb].
  destruct key as [|c key]; [congruence|]. cbn [JSString.truthy negb].
  split.
  - cbn [Proxy.system Proxy.messages Proxy.max_tokens
         Proxy.max_tokens_or_default Z.eqb].
    destruct (api _) as [m|st text json];
      [|destruct (negb (Proxy.ok st)); [|destruct json]]; reflexivity.
  - intros b call Hb.
    assert (Hmax : Proxy.max_tokens_or_default (Proxy.max_tokens b) = 300)
      by (destruct Hb as [-> | ->]; reflexivity).
    destruct (api _) as [m|st text json];
      [|destruct (negb (Proxy.ok st)); [|destruct json]];
      cbn [snd]; intros H; inversion H; subst; exact Hmax.
Qed.

Lemma proxy_forwards_request_witness :
  snd (Proxy.handler (Some "k") (fun _ => Proxy.Responded 200 "{}"
                                           (Proxy.JsonData (Some "It holds.")))
         "unused" (Proxy.client_request "prompt" "What about turnout?"))
  = Some {| Proxy.call_key := "k";
            Proxy.call_model := "claude-sonnet-4-20250514";
            Proxy.call_max_tokens := 200;
            Proxy.call_system := "prompt";
            Proxy.call_messages :=
              [{| Proxy.role := "user";
                  Proxy.content := "What about turnout?" |}] |}.
Proof.
  apply (proxy_forwards_request "k"
           (fun _ => Proxy.Responded 200 "{}"
                       (Proxy.JsonData (Some "It holds.")))
           "unused" "prompt" "What about turnout?").
  discriminate.
Defined.

(** X20: whatever the API does, the chat gets a line.  The proxy answers
    with a success status only with its own 200 and a content, so the
    client either returns that content (the first text of the API's
    answer, or the empty text when there is none) or throws, and
    [handleQuery] then shows "Error: ", the message and the advice to
    check the key.  The message is the API's error text when the API
    refused the call, the text of the failure when the call or the
    decoding threw, and "Chat completion failed" when that text is
    empty. *)
Theorem chat_always_gets_a_line (apiKey : option string)
  (api : Proxy.api_call -> Proxy.upstream) (engine_message : string)
  (req : Proxy.request) :
  let a := fst (Proxy.handler apiKey api engine_message req) in
  (Proxy.status a = 200 /\ exists c,
      Proxy.answer_of a = Proxy.Content c
      /\ Proxy.chat_line (Proxy.read_answer a) = Some c)
  \/ (Proxy.ok (Proxy.status a) = false /\ exists m,
        Proxy.read_answer a = Proxy.Thrown m /\ m <> EmptyString
        /\ Proxy.chat_line (Proxy.read_answer a)
           = Some ("Error: " ++ m
                   ++ ". Please check your API key and try again.")
        /\ (forall e, Proxy.answer_of a = Proxy.ErrorMessage e ->
              e <> EmptyString -> m = e)
        /\ (Proxy.answer_of a = Proxy.ErrorMessage EmptyString
            \/ (exists e, Proxy.answer_of a = Proxy.ErrorText e) ->
            m = "Chat completion failed")).
Proof.
  cbv zeta.
  pose proof (handler_ok_is_content apiKey api engine_message req) as Hok.
  cbv zeta in Hok.
  destruct (fst (Proxy.handler apiKey api engine_message req)) as [st ans].
  cbn [Proxy.status Proxy.answer_of] in *.
  unfold Proxy.read_answer. cbn [Proxy.status Proxy.answer_of].
  destruct (Proxy.ok st) eqn:E.
  - left. destruct (Hok eq_refl) as [-> [c ->]].
    split; [reflexivity|]. exists c. split; reflexivity.
  - right. split; [reflexivity|]. cbn [negb].
    destruct ans as [e|[|ch e]|c].
    + eexists. split; [reflexivity|]. split; [discriminate|].
      split; [reflexivity|]. split; [discriminate|reflexivity].
    + eexists. split; [reflexivity|]. split; [discriminate|].
      split; [reflexivity|]. split; [|reflexivity].
      intros e He Hne. inversion He; subst. congruence.
    + eexists. split; [reflexivity|]. cbn [JSString.truthy].
      split; [discriminate|]. split; [reflexivity|].
      split; [intros e0 He _; now inversion He|].
      intros [H|[e0 H]]; discriminate.
    + eexists. split; [reflexivity|]. split; [discriminate|].
      split; [reflexivity|]. split; [discriminate|reflexivity].
Qed.

(** The three ways a narration can fail, end to end. *)
Lemma chat_line_examples :
  let req := Proxy.client_request "prompt" "query" in
  let line apiKey api :=
    Proxy.chat_line
      (Proxy.read_answer (fst (Proxy.handler apiKey api "unused" req))) in
  line None (fun _ => Proxy.FetchThrows "unused")
  = Some "Error: API key not configured. Please check your API key and try again."
  /\ line (Some "k") (fun _ => Proxy.Responded 429 "rate limited"
                                 (Proxy.JsonThrows "unused"))
     = Some "Error: rate limited. Please check your API key and try again."
  /\ line (Some "k") (fun _ => Proxy.FetchThrows "fetch failed")
     = Some "Error: fetch failed. Please check your API key and try again."
  /\ line (Some "k") (fun _ => Proxy.Responded 200 "{}" (Proxy.JsonData None))
     = Some EmptyString
  /\ line (Some "k") (fun _ => Proxy.Responded 200 "{}"
                                 (Proxy.JsonData (Some "No effect.")))
     = Some "No effect.".
Proof. vm_compute. repeat split; reflexivity. Qed.

(** ** Bounds and defaults of the score *)

(** X21: for every query and corpus the confidence is [s / 30] for an
    integer score [s] between 0 and 38; as a number it is never negative
    and never above 38/30, it is below the threshold exactly when [s] is
    below 15, and it is 0 when no record is returned. *)
Theorem confidence_bounds (analyses : list analysis) (query : string) :
  let m := findBestMatchKeyword analyses query in
  exists s,
    0 <= s <= 38
    /\ m_similarity m = similarity s
    /\ PrimFloat.leb 0 (m_similarity m) = true
    /\ PrimFloat.leb (m_similarity m) (similarity 38) = true
    /\ PrimFloat.ltb (m_similarity m) SIMILARITY_THRESHOLD = (s <? 15)
    /\ (m_analysis m = None -> s = 0).
Proof.
  cbv zeta. exists (snd (best_of (interpret query) analyses)).
  pose proof (best_of_range (interpret query) analyses) as H.
  pose proof (best_of_coherent (interpret query) analyses) as Hc.
  unfold findBestMatchKeyword. cbn [m_similarity m_analysis].
  split; [exact H|]. split; [reflexivity|].
  split; [now apply similarity_nonneg|].
  split; [|split; [now apply similarity_below_threshold|]].
  - apply (check_scores
             (fun s => PrimFloat.leb (similarity s) (similarity 38)));
      [vm_compute; reflexivity | exact H].
  - intros Hn. unfold coherent in Hc. now rewrite Hn in Hc.
Qed.

(** X22: an input in which no rule finds anything is scored against the
    defaults, and then a record earns at most 2 + 2 + 1 + 1 + 3 = 9 points,
    all nine only for the pooled democratic-vote-share record with the
    basic specification, no state filter, no time window and no weights;
    such an input is never displayed as a confident match. *)
Theorem default_query_prefers_headline (analyses : list analysis)
  (container : bool) (queryCount : Z) (input : string) :
  interpret (JSString.trim input) = initial_targets ->
  (forall a,
     score initial_targets a <= 9
     /\ (score initial_targets a = 9 <->
         outcome a = "dem_share" /\ specification a = "basic"
         /\ JSString.truthy (state_filter a) = false
         /\ time_window a = None /\ weighted a = false))
  /\ PrimFloat.ltb
       (m_similarity (findBestMatchKeyword analyses (JSString.trim input)))
       SIMILARITY_THRESHOLD = true
  /\ (forall n p,
        snd (handleQuery analyses container queryCount input)
        <> GoodMatch n p).
Proof.
  intros Hi.
  assert (Hscore : forall a,
     score initial_targets a <= 9
     /\ (score initial_targets a = 9 <->
         outcome a = "dem_share" /\ specification a = "basic"
         /\ JSString.truthy (state_filter a) = false
         /\ time_window a = None /\ weighted a = false)).
  { intros a.
    unfold score, filter_score, time_score, outcome_score, weighted_score,
      spec_score, initial_targets.
    cbn [targetFilter targetTime targetOutcome targetWeighted targetSpec
         JSString.truthy negb andb].
    rewrite <- (String.eqb_eq (outcome a) "dem_share"),
            <- (String.eqb_eq (specification a) "basic").
    destruct (JSString.truthy (state_filter a)), (time_window a),
      (weighted a), (String.eqb (specification a) "basic"),
      (String.eqb (outcome a) "dem_share"); cbn;
      (split; [lia|]); split;
      try (intros H; exfalso; lia);
      try (intros (? & ? & ? & ? & ?); congruence);
      auto. }
  assert (Hs : 0 <= snd (best_of (interpret (JSString.trim input)) analyses)
               <= 9).
  { split; [apply best_of_range|]. rewrite Hi.
    apply best_of_bounded; [lia|]. intros a _ _. apply Hscore. }
  assert (Hlt : PrimFloat.ltb
                  (m_similarity
                     (findBestMatchKeyword analyses (JSString.trim input)))
                  SIMILARITY_THRESHOLD = true).
  { unfold findBestMatchKeyword. cbn [m_similarity].
    rewrite similarity_below_threshold by lia. apply Z.ltb_lt. lia. }
  split; [exact Hscore|]. split; [exact Hlt|].
  intros n p. unfold handleQuery.
  destruct (negb _); [discriminate|].
  destruct (_ <=? _); [discriminate|].
  rewrite Hlt. discriminate.
Qed.

Lemma default_query_prefers_headline_witness :
  score initial_targets (sample "dem_share" "basic" None None false) <= 9
  /\ PrimFloat.ltb
       (m_similarity
          (findBestMatchKeyword [sample "dem_share" "basic" None None false]
             (JSString.trim "How robust is this?")))
       SIMILARITY_THRESHOLD = true.
Proof.
  destruct (default_query_prefers_headline
              [sample "dem_share" "basic" None None false] true 0
              "How robust is this?" eq_refl) as (H1 & H2 & _).
  split; [apply H1 | exact H2].
Defined.
